(** * Telemetry aggregation of the flight-controller receptor

    A shallow embedding of [fc_telemetry_receptor.py] (the snapshot
    dataclass, the collector with its six stream ingestors, the CSV
    logger) and of [print_telemetry_data] from [onboard/main.py].

    Python floats are IEEE binary64 values: they are Rocq's primitive
    floats.  Python ints are [Z].  Dataclass instances live on a heap
    indexed by locations, so that the canonical snapshot held by the
    collector and the copies handed out to readers are distinct objects.
    Exceptions are values of [exn]; code that can raise returns a
    [result]. *)

From Stdlib Require Import ZArith List String Ascii Lia.
From Stdlib Require Import PrimFloat FloatOps SpecFloat.
From Stdlib Require Import Decimal DecimalString.
From stdpp Require Import gmap.

Local Open Scope Z_scope.

(** ** Python values, exceptions *)

Inductive pyval :=
| VFloat (x : float)
| VInt (n : Z).

(** The fragment of Python's exception hierarchy the code can meet.
    [CancelledError] and [KeyboardInterrupt] derive from [BaseException]
    only: an [except Exception] clause does not catch them. *)
Inductive exn :=
| ValueError
| OverflowError
| IndexError
| ZeroDivisionError
| OSError
| CancelledError
| KeyboardInterrupt.

Definition is_Exception (e : exn) : bool :=
  match e with
  | CancelledError | KeyboardInterrupt => false
  | _ => true
  end.

Inductive result (A : Type) :=
| Ok (a : A)
| Raise (e : exn).
Arguments Ok {A} a.
Arguments Raise {A} e.

(** ** The snapshot dataclass, [FcTelemetryData] *)

Record FcTelemetryData := {
  timestamp_ms : float;
  latitude_deg : float;
  longitude_deg : float;
  altitude_m_amsl : float;
  altitude_m_rel : float;
  velocity_north_mps : float;
  velocity_east_mps : float;
  velocity_down_mps : float;
  roll_deg : float;
  pitch_deg : float;
  yaw_deg : float;
  q_w : float;
  q_x : float;
  q_y : float;
  q_z : float;
  accel_body_x_m_per_s2 : float;
  accel_body_y_m_per_s2 : float;
  accel_body_z_m_per_s2 : float;
  angular_vel_body_x_rad_ps : float;
  angular_vel_body_y_rad_ps : float;
  angular_vel_body_z_rad_ps : float;
  motor_out : Z;
  servo1_out : Z;
  servo2_out : Z;
  servo3_out : Z
}.

(** [FcTelemetryData(timestamp_ms=t)]: every other field takes the
    default written in the class body. *)
Definition FcTelemetryData_init (t : float) : FcTelemetryData :=
  {| timestamp_ms := t;
     latitude_deg := 0; longitude_deg := 0;
     altitude_m_amsl := 0; altitude_m_rel := 0;
     velocity_north_mps := 0; velocity_east_mps := 0; velocity_down_mps := 0;
     roll_deg := 0; pitch_deg := 0; yaw_deg := 0;
     q_w := 1; q_x := 0; q_y := 0; q_z := 0;
     accel_body_x_m_per_s2 := 0; accel_body_y_m_per_s2 := 0;
     accel_body_z_m_per_s2 := 0;
     angular_vel_body_x_rad_ps := 0; angular_vel_body_y_rad_ps := 0;
     angular_vel_body_z_rad_ps := 0;
     motor_out := 0; servo1_out := 0; servo2_out := 0; servo3_out := 0 |}.

(** Attribute assignment [d.<field> = v], one setter per field. *)

Definition set_timestamp_ms (v : float) (d : FcTelemetryData) : FcTelemetryData :=
  let 'Build_FcTelemetryData _ lat lon amsl rel vn ve vd ro pi ya qw qx qy qz ax ay az gx gy gz mo s1 s2 s3 := d in
  Build_FcTelemetryData v lat lon amsl rel vn ve vd ro pi ya qw qx qy qz ax ay az gx gy gz mo s1 s2 s3.

Definition set_latitude_deg (v : float) (d : FcTelemetryData) : FcTelemetryData :=
  let 'Build_FcTelemetryData ts _ lon amsl rel vn ve vd ro pi ya qw qx qy qz ax ay az gx gy gz mo s1 s2 s3 := d in
  Build_FcTelemetryData ts v lon amsl rel vn ve vd ro pi ya qw qx qy qz ax ay az gx gy gz mo s1 s2 s3.

Definition set_longitude_deg (v : float) (d : FcTelemetryData) : FcTelemetryData :=
  let 'Build_FcTelemetryData ts lat _ amsl rel vn ve vd ro pi ya qw qx qy qz ax ay az gx gy gz mo s1 s2 s3 := d in
  Build_FcTelemetryData ts lat v amsl rel vn ve vd ro pi ya qw qx qy qz ax ay az gx gy gz mo s1 s2 s3.

Definition set_altitude_m_amsl (v : float) (d : FcTelemetryData) : FcTelemetryData :=
  let 'Build_FcTelemetryData ts lat lon _ rel vn ve vd ro pi ya qw qx qy qz ax ay az gx gy gz mo s1 s2 s3 := d in
  Build_FcTelemetryData ts lat lon v rel vn ve vd ro pi ya qw qx qy qz ax ay az gx gy gz mo s1 s2 s3.

Definition set_altitude_m_rel (v : float) (d : FcTelemetryData) : FcTelemetryData :=
  let 'Build_FcTelemetryData ts lat lon amsl _ vn ve vd ro pi ya qw qx qy qz ax ay az gx gy gz mo s1 s2 s3 := d in
  Build_FcTelemetryData ts lat lon amsl v vn ve vd ro pi ya qw qx qy qz ax ay az gx gy gz mo s1 s2 s3.

Definition set_velocity_north_mps (v : float) (d : FcTelemetryData) : FcTelemetryData :=
  let 'Build_FcTelemetryData ts lat lon amsl rel _ ve vd ro pi ya qw qx qy qz ax ay az gx gy gz mo s1 s2 s3 := d in
  Build_FcTelemetryData ts lat lon amsl rel v ve vd ro pi ya qw qx qy qz ax ay az gx gy gz mo s1 s2 s3.

Definition set_velocity_east_mps (v : float) (d : FcTelemetryData) : FcTelemetryData :=
  let 'Build_FcTelemetryData ts lat lon amsl rel vn _ vd ro pi ya qw qx qy qz ax ay az gx gy gz mo s1 s2 s3 := d in
  Build_FcTelemetryData ts lat lon amsl rel vn v vd ro pi ya qw qx qy qz ax ay az gx gy gz mo s1 s2 s3.

Definition set_velocity_down_mps (v : float) (d : FcTelemetryData) : FcTelemetryData :=
  let 'Build_FcTelemetryData ts lat lon amsl rel vn ve _ ro pi ya qw qx qy qz ax ay az gx gy gz mo s1 s2 s3 := d in
  Build_FcTelemetryData ts lat lon amsl rel vn ve v ro pi ya qw qx qy qz ax ay az gx gy gz mo s1 s2 s3.

Definition set_roll_deg (v : float) (d : FcTelemetryData) : FcTelemetryData :=
  let 'Build_FcTelemetryData ts lat lon amsl rel vn ve vd _ pi ya qw qx qy qz ax ay az gx gy gz mo s1 s2 s3 := d in
  Build_FcTelemetryData ts lat lon amsl rel vn ve vd v pi ya qw qx qy qz ax ay az gx gy gz mo s1 s2 s3.

Definition set_pitch_deg (v : float) (d : FcTelemetryData) : FcTelemetryData :=
  let 'Build_FcTelemetryData ts lat lon amsl rel vn ve vd ro _ ya qw qx qy qz ax ay az gx gy gz mo s1 s2 s3 := d in
  Build_FcTelemetryData ts lat lon amsl rel vn ve vd ro v ya qw qx qy qz ax ay az gx gy gz mo s1 s2 s3.

Definition set_yaw_deg (v : float) (d : FcTelemetryData) : FcTelemetryData :=
  let 'Build_FcTelemetryData ts lat lon amsl rel vn ve vd ro pi _ qw qx qy qz ax ay az gx gy gz mo s1 s2 s3 := d in
  Build_FcTelemetryData ts lat lon amsl rel vn ve vd ro pi v qw qx qy qz ax ay az gx gy gz mo s1 s2 s3.

Definition set_q_w (v : float) (d : FcTelemetryData) : FcTelemetryData :=
  let 'Build_FcTelemetryData ts lat lon amsl rel vn ve vd ro pi ya _ qx qy qz ax ay az gx gy gz mo s1 s2 s3 := d in
  Build_FcTelemetryData ts lat lon amsl rel vn ve vd ro pi ya v qx qy qz ax ay az gx gy gz mo s1 s2 s3.

Definition set_q_x (v : float) (d : FcTelemetryData) : FcTelemetryData :=
  let 'Build_FcTelemetryData ts lat lon amsl rel vn ve vd ro pi ya qw _ qy qz ax ay az gx gy gz mo s1 s2 s3 := d in
  Build_FcTelemetryData ts lat lon amsl rel vn ve vd ro pi ya qw v qy qz ax ay az gx gy gz mo s1 s2 s3.

Definition set_q_y (v : float) (d : FcTelemetryData) : FcTelemetryData :=
  let 'Build_FcTelemetryData ts lat lon amsl rel vn ve vd ro pi ya qw qx _ qz ax ay az gx gy gz mo s1 s2 s3 := d in
  Build_FcTelemetryData ts lat lon amsl rel vn ve vd ro pi ya qw qx v qz ax ay az gx gy gz mo s1 s2 s3.

Definition set_q_z (v : float) (d : FcTelemetryData) : FcTelemetryData :=
  let 'Build_FcTelemetryData ts lat lon amsl rel vn ve vd ro pi ya qw qx qy _ ax ay az gx gy gz mo s1 s2 s3 := d in
  Build_FcTelemetryData ts lat lon amsl rel vn ve vd ro pi ya qw qx qy v ax ay az gx gy gz mo s1 s2 s3.

Definition set_accel_body_x_m_per_s2 (v : float) (d : FcTelemetryData) : FcTelemetryData :=
  let 'Build_FcTelemetryData ts lat lon amsl rel vn ve vd ro pi ya qw qx qy qz _ ay az gx gy gz mo s1 s2 s3 := d in
  Build_FcTelemetryData ts lat lon amsl rel vn ve vd ro pi ya qw qx qy qz v ay az gx gy gz mo s1 s2 s3.

Definition set_accel_body_y_m_per_s2 (v : float) (d : FcTelemetryData) : FcTelemetryData :=
  let 'Build_FcTelemetryData ts lat lon amsl rel vn ve vd ro pi ya qw qx qy qz ax _ az gx gy gz mo s1 s2 s3 := d in
  Build_FcTelemetryData ts lat lon amsl rel vn ve vd ro pi ya qw qx qy qz ax v az gx gy gz mo s1 s2 s3.

Definition set_accel_body_z_m_per_s2 (v : float) (d : FcTelemetryData) : FcTelemetryData :=
  let 'Build_FcTelemetryData ts lat lon amsl rel vn ve vd ro pi ya qw qx qy qz ax ay _ gx gy gz mo s1 s2 s3 := d in
  Build_FcTelemetryData ts lat lon amsl rel vn ve vd ro pi ya qw qx qy qz ax ay v gx gy gz mo s1 s2 s3.

Definition set_angular_vel_body_x_rad_ps (v : float) (d : FcTelemetryData) : FcTelemetryData :=
  let 'Build_FcTelemetryData ts lat lon amsl rel vn ve vd ro pi ya qw qx qy qz ax ay az _ gy gz mo s1 s2 s3 := d in
  Build_FcTelemetryData ts lat lon amsl rel vn ve vd ro pi ya qw qx qy qz ax ay az v gy gz mo s1 s2 s3.

Definition set_angular_vel_body_y_rad_ps (v : float) (d : FcTelemetryData) : FcTelemetryData :=
  let 'Build_FcTelemetryData ts lat lon amsl rel vn ve vd ro pi ya qw qx qy qz ax ay az gx _ gz mo s1 s2 s3 := d in
  Build_FcTelemetryData ts lat lon amsl rel vn ve vd ro pi ya qw qx qy qz ax ay az gx v gz mo s1 s2 s3.

Definition set_angular_vel_body_z_rad_ps (v : float) (d : FcTelemetryData) : FcTelemetryData :=
  let 'Build_FcTelemetryData ts lat lon amsl rel vn ve vd ro pi ya qw qx qy qz ax ay az gx gy _ mo s1 s2 s3 := d in
  Build_FcTelemetryData ts lat lon amsl rel vn ve vd ro pi ya qw qx qy qz ax ay az gx gy v mo s1 s2 s3.

Definition set_motor_out (v : Z) (d : FcTelemetryData) : FcTelemetryData :=
  let 'Build_FcTelemetryData ts lat lon amsl rel vn ve vd ro pi ya qw qx qy qz ax ay az gx gy gz _ s1 s2 s3 := d in
  Build_FcTelemetryData ts lat lon amsl rel vn ve vd ro pi ya qw qx qy qz ax ay az gx gy gz v s1 s2 s3.

Definition set_servo1_out (v : Z) (d : FcTelemetryData) : FcTelemetryData :=
  let 'Build_FcTelemetryData ts lat lon amsl rel vn ve vd ro pi ya qw qx qy qz ax ay az gx gy gz mo _ s2 s3 := d in
  Build_FcTelemetryData ts lat lon amsl rel vn ve vd ro pi ya qw qx qy qz ax ay az gx gy gz mo v s2 s3.

Definition set_servo2_out (v : Z) (d : FcTelemetryData) : FcTelemetryData :=
  let 'Build_FcTelemetryData ts lat lon amsl rel vn ve vd ro pi ya qw qx qy qz ax ay az gx gy gz mo s1 _ s3 := d in
  Build_FcTelemetryData ts lat lon amsl rel vn ve vd ro pi ya qw qx qy qz ax ay az gx gy gz mo s1 v s3.

Definition set_servo3_out (v : Z) (d : FcTelemetryData) : FcTelemetryData :=
  let 'Build_FcTelemetryData ts lat lon amsl rel vn ve vd ro pi ya qw qx qy qz ax ay az gx gy gz mo s1 s2 _ := d in
  Build_FcTelemetryData ts lat lon amsl rel vn ve vd ro pi ya qw qx qy qz ax ay az gx gy gz mo s1 s2 v.


(** [dataclasses.fields(FcTelemetryData)]: the field descriptors, in
    declaration order. *)
Inductive Field :=
| fld_timestamp_ms
| fld_latitude_deg | fld_longitude_deg | fld_altitude_m_amsl | fld_altitude_m_rel
| fld_velocity_north_mps | fld_velocity_east_mps | fld_velocity_down_mps
| fld_roll_deg | fld_pitch_deg | fld_yaw_deg
| fld_q_w | fld_q_x | fld_q_y | fld_q_z
| fld_accel_body_x_m_per_s2 | fld_accel_body_y_m_per_s2 | fld_accel_body_z_m_per_s2
| fld_angular_vel_body_x_rad_ps | fld_angular_vel_body_y_rad_ps
| fld_angular_vel_body_z_rad_ps
| fld_motor_out | fld_servo1_out | fld_servo2_out | fld_servo3_out.

Definition dataclass_fields : list Field :=
  [ fld_timestamp_ms;
    fld_latitude_deg; fld_longitude_deg; fld_altitude_m_amsl; fld_altitude_m_rel;
    fld_velocity_north_mps; fld_velocity_east_mps; fld_velocity_down_mps;
    fld_roll_deg; fld_pitch_deg; fld_yaw_deg;
    fld_q_w; fld_q_x; fld_q_y; fld_q_z;
    fld_accel_body_x_m_per_s2; fld_accel_body_y_m_per_s2; fld_accel_body_z_m_per_s2;
    fld_angular_vel_body_x_rad_ps; fld_angular_vel_body_y_rad_ps;
    fld_angular_vel_body_z_rad_ps;
    fld_motor_out; fld_servo1_out; fld_servo2_out; fld_servo3_out ].

Definition field_name (f : Field) : string :=
  match f with
  | fld_timestamp_ms => "timestamp_ms"
  | fld_latitude_deg => "latitude_deg"
  | fld_longitude_deg => "longitude_deg"
  | fld_altitude_m_amsl => "altitude_m_amsl"
  | fld_altitude_m_rel => "altitude_m_rel"
  | fld_velocity_north_mps => "velocity_north_mps"
  | fld_velocity_east_mps => "velocity_east_mps"
  | fld_velocity_down_mps => "velocity_down_mps"
  | fld_roll_deg => "roll_deg"
  | fld_pitch_deg => "pitch_deg"
  | fld_yaw_deg => "yaw_deg"
  | fld_q_w => "q_w"
  | fld_q_x => "q_x"
  | fld_q_y => "q_y"
  | fld_q_z => "q_z"
  | fld_accel_body_x_m_per_s2 => "accel_body_x_m_per_s2"
  | fld_accel_body_y_m_per_s2 => "accel_body_y_m_per_s2"
  | fld_accel_body_z_m_per_s2 => "accel_body_z_m_per_s2"
  | fld_angular_vel_body_x_rad_ps => "angular_vel_body_x_rad_ps"
  | fld_angular_vel_body_y_rad_ps => "angular_vel_body_y_rad_ps"
  | fld_angular_vel_body_z_rad_ps => "angular_vel_body_z_rad_ps"
  | fld_motor_out => "motor_out"
  | fld_servo1_out => "servo1_out"
  | fld_servo2_out => "servo2_out"
  | fld_servo3_out => "servo3_out"
  end.

(** [getattr(d, field.name)] *)
Definition getattr (d : FcTelemetryData) (f : Field) : pyval :=
  match f with
  | fld_timestamp_ms => VFloat (timestamp_ms d)
  | fld_latitude_deg => VFloat (latitude_deg d)
  | fld_longitude_deg => VFloat (longitude_deg d)
  | fld_altitude_m_amsl => VFloat (altitude_m_amsl d)
  | fld_altitude_m_rel => VFloat (altitude_m_rel d)
  | fld_velocity_north_mps => VFloat (velocity_north_mps d)
  | fld_velocity_east_mps => VFloat (velocity_east_mps d)
  | fld_velocity_down_mps => VFloat (velocity_down_mps d)
  | fld_roll_deg => VFloat (roll_deg d)
  | fld_pitch_deg => VFloat (pitch_deg d)
  | fld_yaw_deg => VFloat (yaw_deg d)
  | fld_q_w => VFloat (q_w d)
  | fld_q_x => VFloat (q_x d)
  | fld_q_y => VFloat (q_y d)
  | fld_q_z => VFloat (q_z d)
  | fld_accel_body_x_m_per_s2 => VFloat (accel_body_x_m_per_s2 d)
  | fld_accel_body_y_m_per_s2 => VFloat (accel_body_y_m_per_s2 d)
  | fld_accel_body_z_m_per_s2 => VFloat (accel_body_z_m_per_s2 d)
  | fld_angular_vel_body_x_rad_ps => VFloat (angular_vel_body_x_rad_ps d)
  | fld_angular_vel_body_y_rad_ps => VFloat (angular_vel_body_y_rad_ps d)
  | fld_angular_vel_body_z_rad_ps => VFloat (angular_vel_body_z_rad_ps d)
  | fld_motor_out => VInt (motor_out d)
  | fld_servo1_out => VInt (servo1_out d)
  | fld_servo2_out => VInt (servo2_out d)
  | fld_servo3_out => VInt (servo3_out d)
  end.

(** The six telemetry channels, one ingestor each, and the group of
    snapshot fields each block of the dataclass belongs to.
    [timestamp_ms] belongs to none. *)
Inductive Channel :=
| ChPosition | ChVelocity | ChEuler | ChQuaternion | ChImu | ChActuator.

Definition group_of (f : Field) : option Channel :=
  match f with
  | fld_timestamp_ms => None
  | fld_latitude_deg | fld_longitude_deg
  | fld_altitude_m_amsl | fld_altitude_m_rel => Some ChPosition
  | fld_velocity_north_mps | fld_velocity_east_mps
  | fld_velocity_down_mps => Some ChVelocity
  | fld_roll_deg | fld_pitch_deg | fld_yaw_deg => Some ChEuler
  | fld_q_w | fld_q_x | fld_q_y | fld_q_z => Some ChQuaternion
  | fld_accel_body_x_m_per_s2 | fld_accel_body_y_m_per_s2
  | fld_accel_body_z_m_per_s2
  | fld_angular_vel_body_x_rad_ps | fld_angular_vel_body_y_rad_ps
  | fld_angular_vel_body_z_rad_ps => Some ChImu
  | fld_motor_out | fld_servo1_out | fld_servo2_out | fld_servo3_out =>
      Some ChActuator
  end.

(** ** Records of the telemetry library

    Only the attributes the ingestors read.  The library delivers every
    number as a float, the actuator outputs as a list of floats. *)
Module mavsdk.
Record Position := {
  latitude_deg : float;
  longitude_deg : float;
  absolute_altitude_m : float;
  relative_altitude_m : float
}.
Record VelocityNed := { north_m_s : float; east_m_s : float; down_m_s : float }.
Record EulerAngle := { roll_deg : float; pitch_deg : float; yaw_deg : float }.
Record Quaternion := { w : float; x : float; y : float; z : float }.
Record AccelerationFrd :=
  { forward_m_s2 : float; right_m_s2 : float; down_m_s2 : float }.
Record AngularVelocityFrd :=
  { forward_rad_s : float; right_rad_s : float; down_rad_s : float }.
Record Imu := {
  acceleration_frd : AccelerationFrd;
  angular_velocity_frd : AngularVelocityFrd
}.
Record ActuatorOutputStatus := { actuator : list float }.
End mavsdk.

(** ** The heap and the state-and-exception monad *)

Definition loc := positive.
Abbreviation heap := (gmap loc FcTelemetryData).

Definition Py (A : Type) : Type := heap -> heap * result A.

Definition bind {A B} (k : A -> Py B) (m : Py A) : Py B :=
  fun h =>
    match m h with
    | (h', Ok a) => k a h'
    | (h', Raise e) => (h', Raise e)
    end.

#[global] Instance Py_bind : MBind Py := @bind.

(** [obj.<field> = v] for the object at location [l]. *)
Definition assign (l : loc) (set : FcTelemetryData -> FcTelemetryData) : Py unit :=
  fun h => (alter set l h, Ok tt).

(** ** The collector, [FcTelemetryCollector] *)

Record FcTelemetryCollector := {
  _current_data : loc;
  _running : bool
}.

(** [FcTelemetryCollector.__init__]: [time_time] is the value
    [time.time()] returns, in seconds. The new snapshot object is
    allocated at a location not in use. *)
Definition FcTelemetryCollector_init (time_time : float) (h : heap)
  : FcTelemetryCollector * heap :=
  let l := fresh (dom h) in
  ({| _current_data := l; _running := false |},
   <[l := FcTelemetryData_init time_time]> h).

Definition stop (c : FcTelemetryCollector) : FcTelemetryCollector :=
  {| _current_data := _current_data c; _running := false |}.

(** [dataclasses.replace(d, timestamp_ms=t)]: a new object built from
    the fields of [d], with [timestamp_ms] replaced. *)
Definition dataclasses_replace_timestamp_ms (d : FcTelemetryData) (t : float)
  : FcTelemetryData :=
  {| timestamp_ms := t;
     latitude_deg := latitude_deg d; longitude_deg := longitude_deg d;
     altitude_m_amsl := altitude_m_amsl d; altitude_m_rel := altitude_m_rel d;
     velocity_north_mps := velocity_north_mps d;
     velocity_east_mps := velocity_east_mps d;
     velocity_down_mps := velocity_down_mps d;
     roll_deg := roll_deg d; pitch_deg := pitch_deg d; yaw_deg := yaw_deg d;
     q_w := q_w d; q_x := q_x d; q_y := q_y d; q_z := q_z d;
     accel_body_x_m_per_s2 := accel_body_x_m_per_s2 d;
     accel_body_y_m_per_s2 := accel_body_y_m_per_s2 d;
     accel_body_z_m_per_s2 := accel_body_z_m_per_s2 d;
     angular_vel_body_x_rad_ps := angular_vel_body_x_rad_ps d;
     angular_vel_body_y_rad_ps := angular_vel_body_y_rad_ps d;
     angular_vel_body_z_rad_ps := angular_vel_body_z_rad_ps d;
     motor_out := motor_out d; servo1_out := servo1_out d;
     servo2_out := servo2_out d; servo3_out := servo3_out d |}.

#[global] Instance FcTelemetryData_inhabited : Inhabited FcTelemetryData :=
  populate (FcTelemetryData_init 0).

(** [get_latest_data]: [time_time] is the value [time.time()] returns at
    the read.  The body holds the lock and has no suspension point, so it
    is one atomic step.  It returns the location of the copy.  A Python
    reference always leads to an object: the lookup is total, and the
    results below are about heaps that hold the collector's snapshot. *)
Definition get_latest_data (c : FcTelemetryCollector) (time_time : float)
  (h : heap) : loc * heap :=
  let data_copy :=
    dataclasses_replace_timestamp_ms (h !!! _current_data c) (time_time * 1000)%float in
  let l := fresh (dom h) in
  (l, <[l := data_copy]> h).

(** ** Builtins used by the actuator ingestor *)

(** [int(x)] on a float: truncation toward zero; [int(nan)] raises
    [ValueError] and [int(inf)] raises [OverflowError]. *)
Definition int_of_float (x : float) : result Z :=
  match Prim2SF x with
  | S754_nan => Raise ValueError
  | S754_infinity _ => Raise OverflowError
  | S754_zero _ => Ok 0
  | S754_finite s m e =>
      let mag := if 0 <=? e then Z.pos m * 2 ^ e else Z.pos m / 2 ^ (- e) in
      Ok (if s then - mag else mag)
  end.

(** [l[i]] for an index [i >= 0]: [IndexError] past the end. *)
Definition list_getitem (l : list float) (i : nat) : result float :=
  match l !! i with
  | Some v => Ok v
  | None => Raise IndexError
  end.

Definition result_bind {A B} (r : result A) (k : A -> result B) : result B :=
  match r with
  | Ok a => k a
  | Raise e => Raise e
  end.

Definition lift {A} (r : result A) : Py A := fun h => (h, r).

(** [int(actuator_values[i]) if len(actuator_values) > i else 0] *)
Definition int_at_or_zero (actuator_values : list float) (i : nat) : result Z :=
  if (i <? length actuator_values)%nat
  then result_bind (list_getitem actuator_values i) int_of_float
  else Ok 0.

(** ** Ingestor bodies: the block under [async with self._data_lock]

    No block contains a suspension point, so each runs atomically with
    respect to the other tasks. *)

Definition position_body (c : FcTelemetryCollector) (position : mavsdk.Position)
  : Py unit :=
  assign (_current_data c) (set_latitude_deg (mavsdk.latitude_deg position));;
  assign (_current_data c) (set_longitude_deg (mavsdk.longitude_deg position));;
  assign (_current_data c) (set_altitude_m_amsl (mavsdk.absolute_altitude_m position));;
  assign (_current_data c) (set_altitude_m_rel (mavsdk.relative_altitude_m position)).

Definition velocity_body (c : FcTelemetryCollector) (velocity : mavsdk.VelocityNed)
  : Py unit :=
  assign (_current_data c) (set_velocity_north_mps (mavsdk.north_m_s velocity));;
  assign (_current_data c) (set_velocity_east_mps (mavsdk.east_m_s velocity));;
  assign (_current_data c) (set_velocity_down_mps (mavsdk.down_m_s velocity)).

Definition attitude_euler_body (c : FcTelemetryCollector)
  (attitude : mavsdk.EulerAngle) : Py unit :=
  assign (_current_data c) (set_roll_deg (mavsdk.roll_deg attitude));;
  assign (_current_data c) (set_pitch_deg (mavsdk.pitch_deg attitude));;
  assign (_current_data c) (set_yaw_deg (mavsdk.yaw_deg attitude)).

Definition attitude_quaternion_body (c : FcTelemetryCollector)
  (attitude : mavsdk.Quaternion) : Py unit :=
  assign (_current_data c) (set_q_w (mavsdk.w attitude));;
  assign (_current_data c) (set_q_x (mavsdk.x attitude));;
  assign (_current_data c) (set_q_y (mavsdk.y attitude));;
  assign (_current_data c) (set_q_z (mavsdk.z attitude)).

Definition imu_body (c : FcTelemetryCollector) (imu : mavsdk.Imu) : Py unit :=
  assign (_current_data c)
    (set_accel_body_x_m_per_s2 (mavsdk.forward_m_s2 (mavsdk.acceleration_frd imu)));;
  assign (_current_data c)
    (set_accel_body_y_m_per_s2 (mavsdk.right_m_s2 (mavsdk.acceleration_frd imu)));;
  assign (_current_data c)
    (set_accel_body_z_m_per_s2 (mavsdk.down_m_s2 (mavsdk.acceleration_frd imu)));;
  assign (_current_data c)
    (set_angular_vel_body_x_rad_ps
       (mavsdk.forward_rad_s (mavsdk.angular_velocity_frd imu)));;
  assign (_current_data c)
    (set_angular_vel_body_y_rad_ps
       (mavsdk.right_rad_s (mavsdk.angular_velocity_frd imu)));;
  assign (_current_data c)
    (set_angular_vel_body_z_rad_ps
       (mavsdk.down_rad_s (mavsdk.angular_velocity_frd imu))).

Definition servo_start_idx : nat := 8.

Definition actuator_output_body (c : FcTelemetryCollector)
  (output : mavsdk.ActuatorOutputStatus) : Py unit :=
  let actuator_values := mavsdk.actuator output in
  v0 ← lift (int_at_or_zero actuator_values 0);
  assign (_current_data c) (set_motor_out v0);;
  v1 ← lift (int_at_or_zero actuator_values servo_start_idx);
  assign (_current_data c) (set_servo1_out v1);;
  v2 ← lift (int_at_or_zero actuator_values (servo_start_idx + 1));
  assign (_current_data c) (set_servo2_out v2);;
  v3 ← lift (int_at_or_zero actuator_values (servo_start_idx + 2));
  assign (_current_data c) (set_servo3_out v3).

(** ** The stream loops

    What an ingestor meets while suspended in [async for]: the source
    yields a record, raises, or ends; or another task calls [stop()] on
    the collector before the next record arrives. *)
Inductive stream_event (A : Type) :=
| Yield (a : A)
| Throw (e : exn)
| Exhausted
| StopCalled.
Arguments Yield {A} a.
Arguments Throw {A} e.
Arguments Exhausted {A}.
Arguments StopCalled {A}.

(** How far a task got on a finite script of events: still suspended when
    the script ran out, returned, or left by an exception nothing caught. *)
Inductive task_end :=
| Suspended
| Returned
| Escaped (e : exn).

Inductive log_record :=
| LogDebug (msg : string)
| LogInfo (msg : string)
| LogException (msg : string) (e : exn).

(** [except Exception: logging.exception(msg)] around a stream loop. *)
Definition except_Exception_log (msg : string) (e : exn)
  : list log_record * task_end :=
  if is_Exception e then ([LogException msg e], Returned) else ([], Escaped e).

Fixpoint stream_loop {A} (body : FcTelemetryCollector -> A -> Py unit)
  (msg : string) (c : FcTelemetryCollector) (events : list (stream_event A))
  (h : heap) : heap * (list log_record * task_end) :=
  match events with
  | [] => (h, ([], Suspended))
  | StopCalled :: rest => stream_loop body msg (stop c) rest h
  | Exhausted :: _ => (h, ([], Returned))
  | Throw e :: _ => (h, except_Exception_log msg e)
  | Yield a :: rest =>
      if negb (_running c) then (h, ([], Returned))
      else
        match body c a h with
        | (h', Ok _) => stream_loop body msg c rest h'
        | (h', Raise e) => (h', except_Exception_log msg e)
        end
  end.

Definition _position_stream := stream_loop position_body "Position stream error".
Definition _velocity_stream := stream_loop velocity_body "Velocity stream error".
Definition _attitude_euler_stream :=
  stream_loop attitude_euler_body "Attitude Euler stream error".
Definition _attitude_quaternion_stream :=
  stream_loop attitude_quaternion_body "Attitude Quaternion stream error".
Definition _imu_stream := stream_loop imu_body "IMU stream error".
Definition _actuator_output_stream :=
  stream_loop actuator_output_body "Actuator output stream error".

(** A record of any of the six channels, and the update its ingestor
    applies to the snapshot when it receives it. *)
Inductive TelemetryRecord :=
| RecPosition (position : mavsdk.Position)
| RecVelocity (velocity : mavsdk.VelocityNed)
| RecEuler (attitude : mavsdk.EulerAngle)
| RecQuaternion (attitude : mavsdk.Quaternion)
| RecImu (imu : mavsdk.Imu)
| RecActuator (output : mavsdk.ActuatorOutputStatus).

Definition channel_of (r : TelemetryRecord) : Channel :=
  match r with
  | RecPosition _ => ChPosition
  | RecVelocity _ => ChVelocity
  | RecEuler _ => ChEuler
  | RecQuaternion _ => ChQuaternion
  | RecImu _ => ChImu
  | RecActuator _ => ChActuator
  end.

Definition ingest (c : FcTelemetryCollector) (r : TelemetryRecord) : Py unit :=
  match r with
  | RecPosition position => position_body c position
  | RecVelocity velocity => velocity_body c velocity
  | RecEuler attitude => attitude_euler_body c attitude
  | RecQuaternion attitude => attitude_quaternion_body c attitude
  | RecImu imu => imu_body c imu
  | RecActuator output => actuator_output_body c output
  end.

(** The heap after the ingestors received the records [rs], in this
    order; an update that raises keeps the writes it made before. *)
Definition ingest_all (c : FcTelemetryCollector) (rs : list TelemetryRecord)
  (h : heap) : heap :=
  fold_left (fun h r => fst (ingest c r h)) rs h.

(** The defaults the data model documents for the fields of the six
    groups: zero, and the unit quaternion for the quaternion attitude.
    ([timestamp_ms] is in no group and has no default.) *)
Definition documented_default (f : Field) : pyval :=
  match f with
  | fld_q_w => VFloat 1
  | fld_motor_out | fld_servo1_out | fld_servo2_out | fld_servo3_out => VInt 0
  | _ => VFloat 0
  end.

(** ** Text: [str.join], [str.split], number formatting *)

Definition comma : ascii := ","%char.

(** [",".join(values)] *)
Definition join_commas (values : list string) : string :=
  String.concat "," values.

(** [s.split(",")] *)
Fixpoint split_commas (s : string) : list string :=
  match s with
  | EmptyString => [EmptyString]
  | String ch rest =>
      if Ascii.eqb ch comma then EmptyString :: split_commas rest
      else
        match split_commas rest with
        | piece :: pieces => String ch piece :: pieces
        | [] => [String ch EmptyString]
        end
  end.

(** Decimal digits of a natural number, no sign, ["0"] for zero. *)
Definition decimal (n : Z) : string :=
  NilZero.string_of_uint (N.to_uint (Z.to_N n)).

Fixpoint zeros (n : nat) : string :=
  match n with
  | O => EmptyString
  | S n' => String "0" (zeros n')
  end.

Definition zfill (width : nat) (s : string) : string :=
  (zeros (width - String.length s) ++ s)%string.

(** The integer nearest to [num / den] ([0 <= num], [0 < den]), ties to
    the even one. *)
Definition round_half_even (num den : Z) : Z :=
  let q := num / den in
  let r := num mod den in
  match 2 * r ?= den with
  | Lt => q
  | Gt => q + 1
  | Eq => if Z.even q then q else q + 1
  end.

(** [n / 10^p] written with [p] digits after the point. *)
Definition fixed_digits (p : nat) (n : Z) : string :=
  let scale := 10 ^ Z.of_nat p in
  (decimal (n / scale) ++
   match p with
   | O => EmptyString
   | S _ => String "." (zfill p (decimal (n mod scale)))
   end)%string.

Definition sign_prefix (negative : bool) : string :=
  if negative then "-"%string else EmptyString.

(** [format(x, ".<p>f")] for a float: the exact binary value rounded
    half-even to [p] decimals; the sign is kept when the digits are all
    zero. *)
Definition format_fixed (p : nat) (x : float) : string :=
  match Prim2SF x with
  | S754_nan => "nan"%string
  | S754_infinity s => (sign_prefix s ++ "inf")%string
  | S754_zero s => (sign_prefix s ++ fixed_digits p 0)%string
  | S754_finite s m e =>
      let scale := 10 ^ Z.of_nat p in
      let scaled :=
        if 0 <=? e then Z.pos m * 2 ^ e * scale
        else round_half_even (Z.pos m * scale) (2 ^ (- e)) in
      (sign_prefix s ++ fixed_digits p scaled)%string
  end.

(** [format(n, "d")] and [str(n)] for an int. *)
Definition format_d (n : Z) : string :=
  (sign_prefix (n <? 0)%Z ++ decimal (Z.abs n))%string.

(** [float(n)] for an int: the nearest float, [OverflowError] past the
    largest one. *)
Definition float_of_int (n : Z) : result float :=
  match binary_normalize prec emax n 0 false with
  | S754_infinity _ => Raise OverflowError
  | sf => Ok (SF2Prim sf)
  end.

(** The two shapes of format specification in the field-format table:
    [".<precision>f"], read as [fmt_f precision], and ["d"]. *)
Inductive format_spec :=
| fmt_f (precision : nat)
| fmt_d.

(** [f"{value:{format_spec}}"] *)
Definition py_format (spec : format_spec) (value : pyval) : result string :=
  match spec, value with
  | fmt_f p, VFloat x => Ok (format_fixed p x)
  | fmt_f p, VInt n => result_bind (float_of_int n) (fun x => Ok (format_fixed p x))
  | fmt_d, VInt n => Ok (format_d n)
  | fmt_d, VFloat _ => Raise ValueError
  end.

#[global] Instance Field_eq_dec : EqDecision Field.
Proof. solve_decision. Defined.

(** [_get_field_formats]: the dict literal, in the order written. *)
Definition _get_field_formats : list (Field * format_spec) :=
  [ (fld_timestamp_ms, fmt_f 3);
    (fld_latitude_deg, fmt_f 8);
    (fld_longitude_deg, fmt_f 8);
    (fld_altitude_m_amsl, fmt_f 2);
    (fld_altitude_m_rel, fmt_f 2);
    (fld_velocity_north_mps, fmt_f 3);
    (fld_velocity_east_mps, fmt_f 3);
    (fld_velocity_down_mps, fmt_f 3);
    (fld_roll_deg, fmt_f 2);
    (fld_pitch_deg, fmt_f 2);
    (fld_yaw_deg, fmt_f 2);
    (fld_q_w, fmt_f 4);
    (fld_q_x, fmt_f 4);
    (fld_q_y, fmt_f 4);
    (fld_q_z, fmt_f 4);
    (fld_accel_body_x_m_per_s2, fmt_f 3);
    (fld_accel_body_y_m_per_s2, fmt_f 3);
    (fld_accel_body_z_m_per_s2, fmt_f 3);
    (fld_angular_vel_body_x_rad_ps, fmt_f 4);
    (fld_angular_vel_body_y_rad_ps, fmt_f 4);
    (fld_angular_vel_body_z_rad_ps, fmt_f 4);
    (fld_motor_out, fmt_d);
    (fld_servo1_out, fmt_d);
    (fld_servo2_out, fmt_d);
    (fld_servo3_out, fmt_d) ].

(** [d.get(key)] on a dict given by its items. *)
Fixpoint dict_get {V} (d : list (Field * V)) (key : Field) : option V :=
  match d with
  | [] => None
  | (k, v) :: rest => if decide (k = key) then Some v else dict_get rest key
  end.

(** [csv_header] *)
Definition csv_header : string :=
  join_commas (map field_name dataclass_fields).

(** ** Serialising a snapshot; the logger *)

(** [a / b] on floats. *)
Definition py_truediv (a b : float) : result float :=
  if (b =? 0)%float then Raise ZeroDivisionError else Ok (a / b)%float.

Definition handle := positive.

(** What a task does to the world outside the heap.  The logger opens
    its file with [open(name, "w", buffering=1)]: a text file whose
    buffer is flushed at every newline.  A call [fh.write(text)] that
    returns has handed the file everything buffered and [text].  A call
    that raises may have handed the file the first [reached] characters
    of that, and may keep [kept] of its characters in the buffer, from
    the one at [kept_from] on, to go with the next write or with
    [close].  When the file took a short write before it failed,
    [kept_from] is [reached]; when it failed in the middle of a write,
    the buffer keeps what it held and [kept_from] is 0.  A call
    [fh.close()] that raises does so while it flushes the buffer,
    [reached] characters of which got to the file; the file is closed
    all the same. *)
Inductive io_event :=
| EvLog (r : log_record)
| EvOpen (filename : string) (fh : handle)
| EvOpenFailed (filename : string) (e : exn)
| EvWrite (fh : handle) (text : string)
| EvWriteRaised (fh : handle) (text : string) (e : exn)
    (reached kept_from kept : nat)
| EvFlushRaised (fh : handle) (e : exn) (reached : nat)
| EvClose (fh : handle)
| EvSleep (seconds : float).

Definition newline : string := String (ascii_of_nat 10) EmptyString.

Module FcTelemetryLogger.
Record t := {
  _collector : FcTelemetryCollector;
  _filename : string;
  _log_interval : float;
  _running : bool;
  _file_handle : option handle
}.
End FcTelemetryLogger.

(** [FcTelemetryLogger.__init__] *)
Definition FcTelemetryLogger_init (collector : FcTelemetryCollector)
  (filename : string) (log_rate_hz : float) : result FcTelemetryLogger.t :=
  result_bind (py_truediv 1 log_rate_hz) (fun interval =>
    Ok {| FcTelemetryLogger._collector := collector;
          FcTelemetryLogger._filename := filename;
          FcTelemetryLogger._log_interval := interval;
          FcTelemetryLogger._running := false;
          FcTelemetryLogger._file_handle := None |}).

Definition set_logger_running (b : bool) (lg : FcTelemetryLogger.t)
  : FcTelemetryLogger.t :=
  {| FcTelemetryLogger._collector := FcTelemetryLogger._collector lg;
     FcTelemetryLogger._filename := FcTelemetryLogger._filename lg;
     FcTelemetryLogger._log_interval := FcTelemetryLogger._log_interval lg;
     FcTelemetryLogger._running := b;
     FcTelemetryLogger._file_handle := FcTelemetryLogger._file_handle lg |}.

Definition set_logger_file_handle (fh : handle) (lg : FcTelemetryLogger.t)
  : FcTelemetryLogger.t :=
  {| FcTelemetryLogger._collector := FcTelemetryLogger._collector lg;
     FcTelemetryLogger._filename := FcTelemetryLogger._filename lg;
     FcTelemetryLogger._log_interval := FcTelemetryLogger._log_interval lg;
     FcTelemetryLogger._running := FcTelemetryLogger._running lg;
     FcTelemetryLogger._file_handle := Some fh |}.

(** [stop_logging] (its log line is not part of the state). *)
Definition stop_logging (lg : FcTelemetryLogger.t) : FcTelemetryLogger.t :=
  set_logger_running false lg.

(** One pass of the logger's [while] body as the world decides it: the
    clock at the read, which call raises (if any), how much a write
    that raises hands to the file and how much it keeps buffered, and
    whether another task calls [stop_logging] while this pass is
    suspended. *)
Record tick := {
  time_time : float;
  read_raises : option exn;
  write_raises : option exn;
  write_reaches : nat;
  write_keeps_from : nat;
  write_keeps : nat;
  sleep_raises : option exn;
  handler_sleep_raises : option exn;
  stop_logging_called : bool
}.

(** What the world decides for one call of [start_logging]. *)
Record sink_env := {
  open_result : result handle;
  header_write_raises : option exn;
  header_reaches : nat;
  header_keeps_from : nat;
  header_keeps : nat;
  close_raises : option exn;
  close_reaches : nat;
  ticks : list tick
}.

Section Serialisation.

(** [str(x)] on a float is a builtin this development does not define;
    [to_csv_row] reaches it only for a field with no format. *)
Variable float_str : float -> string.

Definition py_str (value : pyval) : string :=
  match value with
  | VFloat x => float_str x
  | VInt n => format_d n
  end.

(** The body of the [for] loop of [to_csv_row]: the text appended for
    one field.  The formats of the table are non-empty strings, so
    [if format_spec] tests that the field has an entry. *)
Definition csv_cell (d : FcTelemetryData) (field : Field) : result string :=
  let value := getattr d field in
  let format_spec := dict_get _get_field_formats field in
  match format_spec with
  | Some spec => py_format spec value
  | None => Ok (py_str value)
  end.

(** The loop over the fields [fs]: the list [values] it builds. *)
Fixpoint csv_values (d : FcTelemetryData) (fs : list Field) : result (list string) :=
  match fs with
  | [] => Ok []
  | field :: rest =>
      result_bind (csv_cell d field) (fun text =>
        result_bind (csv_values d rest) (fun values => Ok (text :: values)))
  end.

Definition to_csv_row (d : FcTelemetryData) : result string :=
  result_bind (csv_values d dataclass_fields) (fun values => Ok (join_commas values)).

(** The [try] block inside the loop of [start_logging]: the events that
    happened, and the exception that ended the block, if any. *)
Definition log_row_try (lg : FcTelemetryLogger.t) (fh : handle) (t : tick)
  (h : heap) : heap * (list io_event * option exn) :=
  match read_raises t with
  | Some e => (h, ([], Some e))
  | None =>
      let '(l, h') := get_latest_data (FcTelemetryLogger._collector lg) (time_time t) h in
      match to_csv_row (h' !!! l) with
      | Raise e => (h', ([], Some e))
      | Ok row =>
          match write_raises t with
          | Some e =>
              (h', ([EvWriteRaised fh (row ++ newline) e
                       (write_reaches t) (write_keeps_from t) (write_keeps t)],
                    Some e))
          | None =>
              let written := EvWrite fh (row ++ newline) in
              match sleep_raises t with
              | Some e => (h', ([written], Some e))
              | None =>
                  (h', ([written; EvSleep (FcTelemetryLogger._log_interval lg)], None))
              end
          end
      end
  end.

(** One pass with its [except Exception] handler: the events, and the
    exception that leaves the loop, if any. *)
Definition log_row (lg : FcTelemetryLogger.t) (fh : handle) (t : tick)
  (h : heap) : heap * (list io_event * option exn) :=
  match log_row_try lg fh t h with
  | (h', (evs, None)) => (h', (evs, None))
  | (h', (evs, Some e)) =>
      if is_Exception e then
        let logged := EvLog (LogException "Error logging telemetry data" e) in
        match handler_sleep_raises t with
        | Some e' => (h', (evs ++ [logged], Some e'))
        | None =>
            (h', (evs ++ [logged; EvSleep (FcTelemetryLogger._log_interval lg)], None))
        end
      else (h', (evs, Some e))
  end.

(** [while self._running: ...] *)
Fixpoint logging_loop (lg : FcTelemetryLogger.t) (fh : handle) (script : list tick)
  (h : heap) : heap * (list io_event * (FcTelemetryLogger.t * task_end)) :=
  if negb (FcTelemetryLogger._running lg) then (h, ([], (lg, Returned)))
  else
    match script with
    | [] => (h, ([], (lg, Suspended)))
    | t :: rest =>
        match log_row lg fh t h with
        | (h', (evs, Some e)) => (h', (evs, (lg, Escaped e)))
        | (h', (evs, None)) =>
            let lg' := if stop_logging_called t then stop_logging lg else lg in
            let '(h'', (evs', r)) := logging_loop lg' fh rest h' in
            (h'', (evs ++ evs', r))
        end
    end.

(** The body of the outer [try]: open, header, loop. *)
Definition logging_try (env : sink_env) (lg : FcTelemetryLogger.t) (h : heap)
  : heap * (list io_event * (FcTelemetryLogger.t * task_end)) :=
  match open_result env with
  | Raise e => (h, ([EvOpenFailed (FcTelemetryLogger._filename lg) e], (lg, Escaped e)))
  | Ok fh =>
      let lg1 := set_logger_file_handle fh lg in
      let opened := EvOpen (FcTelemetryLogger._filename lg) fh in
      match header_write_raises env with
      | Some e =>
          (h, ([opened;
                EvWriteRaised fh (csv_header ++ newline) e
                  (header_reaches env) (header_keeps_from env) (header_keeps env)],
               (lg1, Escaped e)))
      | None =>
          let '(h', (evs, r)) := logging_loop lg1 fh (ticks env) h in
          (h', (opened :: EvWrite fh (csv_header ++ newline) :: evs, r))
      end
  end.

(** The [finally] clause, entered with the state [r] the [try] and its
    [except Exception] left. *)
Definition logging_finally (env : sink_env) (lg : FcTelemetryLogger.t)
  (r : task_end) : list io_event * task_end :=
  match FcTelemetryLogger._file_handle lg with
  | Some fh =>
      match close_raises env with
      | Some e => ([EvFlushRaised fh e (close_reaches env); EvClose fh], Escaped e)
      | None =>
          ([EvClose fh;
            EvLog (LogInfo ("Closed log file " ++ FcTelemetryLogger._filename lg))], r)
      end
  | None => ([], r)
  end.

Definition start_logging (env : sink_env) (lg0 : FcTelemetryLogger.t) (h : heap)
  : heap * (list io_event * (FcTelemetryLogger.t * task_end)) :=
  let lg := set_logger_running true lg0 in
  match py_truediv 1 (FcTelemetryLogger._log_interval lg) with
  | Raise e => (h, ([], (lg, Escaped e)))
  | Ok hz =>
      let starting :=
        EvLog (LogInfo ("Starting telemetry logging to " ++ FcTelemetryLogger._filename lg
                        ++ " at " ++ format_fixed 1 hz ++ " Hz")) in
      match logging_try env lg h with
      | (h', (evs, (lg', Suspended))) => (h', (starting :: evs, (lg', Suspended)))
      | (h', (evs, (lg', r))) =>
          let '(caught, r') :=
            match r with
            | Escaped e =>
                if is_Exception e then
                  ([EvLog (LogException
                             ("Failed to open log file " ++ FcTelemetryLogger._filename lg') e)],
                   Returned)
                else ([], r)
            | _ => ([], r)
            end in
          let '(closing, r'') := logging_finally env lg' r' in
          (h', (starting :: evs ++ caught ++ closing, (lg', r'')))
      end
  end.

End Serialisation.

(** ** The printer, [print_telemetry_data] of [onboard/main.py] *)

Record print_tick := {
  print_time : float;
  print_read_raises : option exn;
  print_sleep_raises : option exn;
  print_handler_sleep_raises : option exn
}.

Local Open Scope string_scope.

(** The nine [logging.debug] calls of one pass. *)
Definition debug_lines (data : FcTelemetryData) : list io_event :=
  map (fun msg => EvLog (LogDebug msg))
    [ newline ++ "=== Telemetry Data (t=" ++ format_fixed 2 (timestamp_ms data) ++ ") ===";
      "Position: Lat=" ++ format_fixed 6 (latitude_deg data)
        ++ "°, Lon=" ++ format_fixed 6 (longitude_deg data)
        ++ "°, Alt=" ++ format_fixed 2 (altitude_m_rel data) ++ "m";
      "Velocity: N=" ++ format_fixed 2 (velocity_north_mps data)
        ++ ", E=" ++ format_fixed 2 (velocity_east_mps data)
        ++ ", D=" ++ format_fixed 2 (velocity_down_mps data) ++ " m/s";
      "Attitude: Roll=" ++ format_fixed 1 (roll_deg data)
        ++ "°, Pitch=" ++ format_fixed 1 (pitch_deg data)
        ++ "°, Yaw=" ++ format_fixed 1 (yaw_deg data) ++ "°";
      "Quaternion: w=" ++ format_fixed 3 (q_w data)
        ++ ", x=" ++ format_fixed 3 (q_x data)
        ++ ", y=" ++ format_fixed 3 (q_y data)
        ++ ", z=" ++ format_fixed 3 (q_z data);
      "Acceleration: X=" ++ format_fixed 2 (accel_body_x_m_per_s2 data)
        ++ ", Y=" ++ format_fixed 2 (accel_body_y_m_per_s2 data)
        ++ ", Z=" ++ format_fixed 2 (accel_body_z_m_per_s2 data) ++ " m/s²";
      "Angular Vel: X=" ++ format_fixed 3 (angular_vel_body_x_rad_ps data)
        ++ ", Y=" ++ format_fixed 3 (angular_vel_body_y_rad_ps data)
        ++ ", Z=" ++ format_fixed 3 (angular_vel_body_z_rad_ps data) ++ " rad/s";
      "Motor: " ++ format_d (motor_out data) ++ " µs";
      "Servos: [" ++ format_d (servo1_out data) ++ ", " ++ format_d (servo2_out data)
        ++ ", " ++ format_d (servo3_out data) ++ "] µs" ].

Local Close Scope string_scope.

(** The [try] block of one pass. *)
Definition print_try (collector : FcTelemetryCollector) (print_interval : float)
  (t : print_tick) (h : heap) : heap * (list io_event * option exn) :=
  match print_read_raises t with
  | Some e => (h, ([], Some e))
  | None =>
      let '(l, h') := get_latest_data collector (print_time t) h in
      let lines := debug_lines (h' !!! l) in
      match print_sleep_raises t with
      | Some e => (h', (lines, Some e))
      | None => (h', (lines ++ [EvSleep print_interval], None))
      end
  end.

(** [while True: try ... except KeyboardInterrupt: break
    except Exception: ...] *)
Fixpoint print_loop (collector : FcTelemetryCollector) (print_interval : float)
  (script : list print_tick) (h : heap) : heap * (list io_event * task_end) :=
  match script with
  | [] => (h, ([], Suspended))
  | t :: rest =>
      match print_try collector print_interval t h with
      | (h', (evs, None)) =>
          let '(h'', (evs', r)) := print_loop collector print_interval rest h' in
          (h'', (evs ++ evs', r))
      | (h', (evs, Some KeyboardInterrupt)) => (h', (evs, Returned))
      | (h', (evs, Some e)) =>
          if is_Exception e then
            let logged := EvLog (LogException "Error printing telemetry" e) in
            match print_handler_sleep_raises t with
            | Some e' => (h', (evs ++ [logged], Escaped e'))
            | None =>
                let '(h'', (evs', r)) := print_loop collector print_interval rest h' in
                (h'', (evs ++ logged :: EvSleep print_interval :: evs', r))
            end
          else (h', (evs, Escaped e))
      end
  end.

Definition print_telemetry_data (collector : FcTelemetryCollector)
  (print_rate_hz : float) (script : list print_tick) (h : heap)
  : heap * (list io_event * task_end) :=
  match py_truediv 1 print_rate_hz with
  | Raise e => (h, ([], Escaped e))
  | Ok print_interval => print_loop collector print_interval script h
  end.

(** ** Reading traces *)

(** The handles [open] returned, in order. *)
Fixpoint opened (tr : list io_event) : list handle :=
  match tr with
  | [] => []
  | EvOpen _ fh :: rest => fh :: opened rest
  | _ :: rest => opened rest
  end.

(** How many times [fh.close()] was called. *)
Fixpoint closes (fh : handle) (tr : list io_event) : nat :=
  match tr with
  | [] => 0%nat
  | EvClose fh' :: rest =>
      if decide (fh' = fh) then S (closes fh rest) else closes fh rest
  | _ :: rest => closes fh rest
  end.

(** The texts of the calls [fh.write(text)] that returned, in order. *)
Fixpoint written (fh : handle) (tr : list io_event) : list string :=
  match tr with
  | [] => []
  | EvWrite fh' text :: rest =>
      if decide (fh' = fh) then text :: written fh rest else written fh rest
  | _ :: rest => written fh rest
  end.

(** The file behind a handle: the text that got to it, and the text its
    buffer still holds. *)
Record file_state := {
  on_disk : string;
  buffered : string
}.

Definition new_file : file_state :=
  {| on_disk := EmptyString; buffered := EmptyString |}.

(** The first [n] characters of [s], and [s] without them. *)
Fixpoint take_chars (n : nat) (s : string) : string :=
  match n, s with
  | S n', String ch rest => String ch (take_chars n' rest)
  | _, _ => EmptyString
  end.

Fixpoint drop_chars (n : nat) (s : string) : string :=
  match n, s with
  | S n', String _ rest => drop_chars n' rest
  | _, _ => s
  end.

(** What one event does to the file behind [fh].  [open(name, "w")]
    starts from an empty file.  A write that returns flushes the
    buffer and its own text, which ends in a newline. *)
Definition file_step (fh : handle) (st : file_state) (ev : io_event) : file_state :=
  match ev with
  | EvOpen _ fh' => if decide (fh' = fh) then new_file else st
  | EvWrite fh' text =>
      if decide (fh' = fh)
      then {| on_disk := (on_disk st ++ buffered st ++ text)%string;
              buffered := EmptyString |}
      else st
  | EvWriteRaised fh' text _ reached kept_from kept =>
      if decide (fh' = fh)
      then let data := (buffered st ++ text)%string in
           {| on_disk := (on_disk st ++ take_chars reached data)%string;
              buffered := take_chars kept (drop_chars kept_from data) |}
      else st
  | EvFlushRaised fh' _ reached =>
      if decide (fh' = fh)
      then {| on_disk := (on_disk st ++ take_chars reached (buffered st))%string;
              buffered := EmptyString |}
      else st
  | EvClose fh' =>
      if decide (fh' = fh)
      then {| on_disk := (on_disk st ++ buffered st)%string; buffered := EmptyString |}
      else st
  | _ => st
  end.

(** The file behind [fh] after the events of [tr], from the state [st]. *)
Definition file_after (fh : handle) (tr : list io_event) (st : file_state)
  : file_state :=
  fold_left (file_step fh) tr st.

(** The exceptions reported through [logging.exception]. *)
Fixpoint logged_exceptions (tr : list io_event) : list exn :=
  match tr with
  | [] => []
  | EvLog (LogException _ e) :: rest => e :: logged_exceptions rest
  | _ :: rest => logged_exceptions rest
  end.

(** ** Notions the statements use *)

(** No comma occurs in [s]. *)
Fixpoint comma_free (s : string) : bool :=
  match s with
  | EmptyString => true
  | String ch rest => negb (Ascii.eqb ch comma) && comma_free rest
  end.

(** The int the actuator ingestor is to store for index [i] of
    [values]: the value there, converted by [int], and zero past the
    end. *)
Definition slot_is (values : list float) (i : nat) (n : Z) : Prop :=
  match values !! i with
  | Some x => int_of_float x = Ok n
  | None => n = 0
  end.

(** The value at index [i] of [values] is one [int] rejects with [e]:
    [ValueError] for a NaN, [OverflowError] for an infinity. *)
Definition slot_rejected (values : list float) (i : nat) (e : exn) : Prop :=
  exists x, values !! i = Some x /\
    ((Prim2SF x = S754_nan /\ e = ValueError) \/
     (exists s, Prim2SF x = S754_infinity s /\ e = OverflowError)).

(** The snapshot [d] with its four actuator fields replaced and every
    other field as it is. *)
Definition with_outputs (d : FcTelemetryData) (motor servo1 servo2 servo3 : Z)
  : FcTelemetryData :=
  {| timestamp_ms := timestamp_ms d;
     latitude_deg := latitude_deg d;
     longitude_deg := longitude_deg d;
     altitude_m_amsl := altitude_m_amsl d;
     altitude_m_rel := altitude_m_rel d;
     velocity_north_mps := velocity_north_mps d;
     velocity_east_mps := velocity_east_mps d;
     velocity_down_mps := velocity_down_mps d;
     roll_deg := roll_deg d;
     pitch_deg := pitch_deg d;
     yaw_deg := yaw_deg d;
     q_w := q_w d;
     q_x := q_x d;
     q_y := q_y d;
     q_z := q_z d;
     accel_body_x_m_per_s2 := accel_body_x_m_per_s2 d;
     accel_body_y_m_per_s2 := accel_body_y_m_per_s2 d;
     accel_body_z_m_per_s2 := accel_body_z_m_per_s2 d;
     angular_vel_body_x_rad_ps := angular_vel_body_x_rad_ps d;
     angular_vel_body_y_rad_ps := angular_vel_body_y_rad_ps d;
     angular_vel_body_z_rad_ps := angular_vel_body_z_rad_ps d;
     motor_out := motor;
     servo1_out := servo1;
     servo2_out := servo2;
     servo3_out := servo3 |}.

(** Every field but [f] agrees in [d] and [d']. *)
Definition agree_except (f : Field) (d d' : FcTelemetryData) : Prop :=
  forall f', f' <> f -> getattr d' f' = getattr d f'.

(** The update [m] touches the heap only at [l], and there only fields
    of the channel [g]. *)
Definition writes_only (g : Channel) (l : loc) {A} (m : Py A) : Prop :=
  forall h, exists upd : FcTelemetryData -> FcTelemetryData,
    fst (m h) = alter upd l h /\
    forall d f, group_of f <> Some g -> getattr (upd d) f = getattr d f.

(** Neither [open] nor [close] happens in [tr]. *)
Definition no_open_close (tr : list io_event) : Prop :=
  Forall (fun ev => match ev with
                    | EvOpen _ _ | EvClose _ => False
                    | _ => True
                    end) tr.

(** A pass of the logger in which nothing raises. *)
Definition quiet (t : tick) : Prop :=
  read_raises t = None /\ write_raises t = None /\ sleep_raises t = None.

(** A pass of the printer in which nothing raises. *)
Definition print_quiet (t : print_tick) : Prop :=
  print_read_raises t = None /\ print_sleep_raises t = None.

(** ** Sample inputs *)

Definition sample_position : mavsdk.Position :=
  {| mavsdk.latitude_deg := 32.5; mavsdk.longitude_deg := 34.75;
     mavsdk.absolute_altitude_m := 120; mavsdk.relative_altitude_m := 20 |}.

(** A running collector whose snapshot is the only object on the heap. *)
Definition sample_collector : FcTelemetryCollector :=
  {| _current_data := 1%positive; _running := true |}.

Definition sample_heap : heap := {[ 1%positive := FcTelemetryData_init 5 ]}.

(** A logger at 8 Hz on the sample collector, as [__init__] leaves it
    but for [_running]. *)
Definition sample_logger (running : bool) : FcTelemetryLogger.t :=
  {| FcTelemetryLogger._collector := sample_collector;
     FcTelemetryLogger._filename := "fc_telemetry_log.csv";
     FcTelemetryLogger._log_interval := 0.125;
     FcTelemetryLogger._running := running;
     FcTelemetryLogger._file_handle := None |}.

Definition quiet_tick (now : float) (stop : bool) : tick :=
  {| time_time := now; read_raises := None; write_raises := None;
     write_reaches := 0; write_keeps_from := 0; write_keeps := 0;
     sleep_raises := None; handler_sleep_raises := None;
     stop_logging_called := stop |}.

(** A pass in which [write] raises [OSError] after the file took five
    characters in a short write; the rest of the row stays in the
    buffer. *)
Definition failing_write_tick (now : float) : tick :=
  {| time_time := now; read_raises := None; write_raises := Some OSError;
     write_reaches := 5; write_keeps_from := 5; write_keeps := 1000;
     sleep_raises := None; handler_sleep_raises := None;
     stop_logging_called := false |}.

(** A pass in which [write] raises [OSError] in the middle of a write
    of which five characters got to the file; the whole row stays in
    the buffer. *)
Definition torn_write_tick (now : float) : tick :=
  {| time_time := now; read_raises := None; write_raises := Some OSError;
     write_reaches := 5; write_keeps_from := 0; write_keeps := 1000;
     sleep_raises := None; handler_sleep_raises := None;
     stop_logging_called := false |}.


(** [open] succeeds; the second pass fails to write; [stop_logging] is
    called during the third. *)
Definition sample_env : sink_env :=
  {| open_result := Ok 7%positive;
     header_write_raises := None;
     header_reaches := 0; header_keeps_from := 0; header_keeps := 0;
     close_raises := None;
     close_reaches := 0;
     ticks := [quiet_tick 10 false; failing_write_tick 11; quiet_tick 12 true] |}.


(** [open] raises. *)
Definition failing_open_env : sink_env :=
  {| open_result := Raise OSError;
     header_write_raises := None;
     header_reaches := 0; header_keeps_from := 0; header_keeps := 0;
     close_raises := None;
     close_reaches := 0;
     ticks := [quiet_tick 10 false] |}.

(** The task is cancelled while it sleeps in the second pass. *)
Definition cancelled_env : sink_env :=
  {| open_result := Ok 7%positive;
     header_write_raises := None;
     header_reaches := 0; header_keeps_from := 0; header_keeps := 0;
     close_raises := None;
     close_reaches := 0;
     ticks := [quiet_tick 10 false;
               {| time_time := 11; read_raises := None; write_raises := None;
                  write_reaches := 0; write_keeps_from := 0; write_keeps := 0;
                  sleep_raises := Some CancelledError;
                  handler_sleep_raises := None;
                  stop_logging_called := false |}] |}.

(** A stand-in for [str] on floats, where a closed term needs one. *)
Definition no_float_str (x : float) : string := EmptyString.

Definition quiet_print_tick (now : float) : print_tick :=
  {| print_time := now; print_read_raises := None;
     print_sleep_raises := None; print_handler_sleep_raises := None |}.

(** Ten outputs: index 10 is past the end. *)
Definition sample_actuator : mavsdk.ActuatorOutputStatus :=
  {| mavsdk.actuator := [1500.75; 0; 0; 0; 0; 0; 0; 0; 1100; 1900.5]%float |}.

(** A snapshot whose four actuator fields hold earlier outputs, none of
    them zero. *)
Definition flying_snapshot : FcTelemetryData :=
  set_servo3_out 1450 (set_servo2_out 1400 (set_servo1_out 1300 (set_motor_out 1200
    (FcTelemetryData_init 5)))).

Definition flying_heap : heap := {[ 1%positive := flying_snapshot ]}.

(** Eleven outputs, the one at index 9 not a number. *)
Definition nan_actuator : mavsdk.ActuatorOutputStatus :=
  {| mavsdk.actuator := [1500; 0; 0; 0; 0; 0; 0; 0; 1600; nan; 1700]%float |}.

(** Nine outputs, the last of them infinite. *)
Definition infinite_actuator : mavsdk.ActuatorOutputStatus :=
  {| mavsdk.actuator := [1500; 0; 0; 0; 0; 0; 0; 0; infinity]%float |}.

(** ** Further notions *)

(** The fields of the group of [r] hold what the ingestor stores for
    [r]: the values of the record, and for the actuator outputs the ints
    [int_at_or_zero] computes. *)
Definition holds_record (r : TelemetryRecord) (d : FcTelemetryData) : Prop :=
  match r with
  | RecPosition position =>
      latitude_deg d = mavsdk.latitude_deg position /\
      longitude_deg d = mavsdk.longitude_deg position /\
      altitude_m_amsl d = mavsdk.absolute_altitude_m position /\
      altitude_m_rel d = mavsdk.relative_altitude_m position
  | RecVelocity velocity =>
      velocity_north_mps d = mavsdk.north_m_s velocity /\
      velocity_east_mps d = mavsdk.east_m_s velocity /\
      velocity_down_mps d = mavsdk.down_m_s velocity
  | RecEuler attitude =>
      roll_deg d = mavsdk.roll_deg attitude /\
      pitch_deg d = mavsdk.pitch_deg attitude /\
      yaw_deg d = mavsdk.yaw_deg attitude
  | RecQuaternion attitude =>
      q_w d = mavsdk.w attitude /\ q_x d = mavsdk.x attitude /\
      q_y d = mavsdk.y attitude /\ q_z d = mavsdk.z attitude
  | RecImu imu =>
      accel_body_x_m_per_s2 d = mavsdk.forward_m_s2 (mavsdk.acceleration_frd imu) /\
      accel_body_y_m_per_s2 d = mavsdk.right_m_s2 (mavsdk.acceleration_frd imu) /\
      accel_body_z_m_per_s2 d = mavsdk.down_m_s2 (mavsdk.acceleration_frd imu) /\
      angular_vel_body_x_rad_ps d
        = mavsdk.forward_rad_s (mavsdk.angular_velocity_frd imu) /\
      angular_vel_body_y_rad_ps d
        = mavsdk.right_rad_s (mavsdk.angular_velocity_frd imu) /\
      angular_vel_body_z_rad_ps d
        = mavsdk.down_rad_s (mavsdk.angular_velocity_frd imu)
  | RecActuator output =>
      int_at_or_zero (mavsdk.actuator output) 0 = Ok (motor_out d) /\
      int_at_or_zero (mavsdk.actuator output) servo_start_idx = Ok (servo1_out d) /\
      int_at_or_zero (mavsdk.actuator output) (servo_start_idx + 1)
        = Ok (servo2_out d) /\
      int_at_or_zero (mavsdk.actuator output) (servo_start_idx + 2)
        = Ok (servo3_out d)
  end.








(** ** Setting the stream rates, starting the streams *)

(** The six [set_rate_*] calls on [self._plane.telemetry]. *)
Inductive rate_call :=
| set_rate_position
| set_rate_velocity_ned
| set_rate_attitude_euler
| set_rate_attitude_quaternion
| set_rate_imu
| set_rate_actuator_output_status.

(** What the collector and the connection code do to the world: calls on
    the plane, log records, sleeps.  [EvLogError msg e] stands for the
    message [msg] followed by the text of the exception [e], and
    [EvLogWarning before e after] for that text between [before] and
    [after]. *)
Inductive plane_event :=
| EvSetRate (call : rate_call) (rate_hz : float)
| EvConnect (system_address : string)
| EvPlaneLog (r : log_record)
| EvLogError (msg : string) (e : exn)
| EvLogWarning (before : string) (e : exn) (after : string)
| EvPlaneSleep (seconds : float).

(** [await self._plane.telemetry.<call>(rate_hz)]: the call is made and
    returns, or raises what the world decides. *)
Definition await_set_rate (raises : rate_call -> option exn) (call : rate_call)
  (rate_hz : float) : list plane_event * option exn :=
  ([EvSetRate call rate_hz], raises call).

(** Statement after statement: the second runs when the first did not
    raise. *)
Definition and_then (first second : list plane_event * option exn)
  : list plane_event * option exn :=
  match first with
  | (evs, Some e) => (evs, Some e)
  | (evs, None) => (evs ++ fst second, snd second)
  end.

(** The inner [try] of [configure_stream_rates], around the actuator
    rate: an [Exception] is swallowed, and logged unless the environment
    is ["sitl"]. *)
Definition set_actuator_rate (raises : rate_call -> option exn)
  (ENVIRONMENT : string) (rate_hz : float) : list plane_event * option exn :=
  match await_set_rate raises set_rate_actuator_output_status rate_hz with
  | (evs, Some e) =>
      if is_Exception e then
        (if String.eqb ENVIRONMENT "sitl" then evs
         else evs ++ [EvPlaneLog (LogException
                                    "Failed to set actuator state output rate" e)],
         None)
      else (evs, Some e)
  | (evs, None) => (evs, None)
  end.

(** The calls made, in order. *)
Fixpoint rate_calls (evs : list plane_event) : list rate_call :=
  match evs with
  | [] => []
  | EvSetRate call _ :: rest => call :: rate_calls rest
  | _ :: rest => rate_calls rest
  end.

Definition stream_message (ch : Channel) : string :=
  match ch with
  | ChPosition => "Position stream error"
  | ChVelocity => "Velocity stream error"
  | ChEuler => "Attitude Euler stream error"
  | ChQuaternion => "Attitude Quaternion stream error"
  | ChImu => "IMU stream error"
  | ChActuator => "Actuator output stream error"
  end.

#[global] Instance Channel_eq_dec : EqDecision Channel.
Proof. solve_decision. Defined.

(** What the six ingestors meet while [asyncio.gather] runs them: the
    source of one channel yields a record, raises or ends, or another
    task calls [stop()].  The ingestors run on one event loop and
    suspend only in [async for], so these events take place one after
    the other. *)
Inductive channel_event :=
| Delivered (r : TelemetryRecord)
| SourceRaises (ch : Channel) (e : exn)
| SourceEnds (ch : Channel)
| StopRequested.

(** The channel an event is about, if any. *)
Definition event_channel (ev : channel_event) : option Channel :=
  match ev with
  | Delivered r => Some (channel_of r)
  | SourceRaises ch _ => Some ch
  | SourceEnds ch => Some ch
  | StopRequested => None
  end.

(** The six stream loops under [gather]: the shared heap and collector,
    how far each loop got, the log, and the first exception to leave a
    loop, which is what [gather] raises. *)
Record streams := {
  streams_heap : heap;
  streams_collector : FcTelemetryCollector;
  streams_status : Channel -> task_end;
  streams_log : list log_record;
  streams_escaped : option exn
}.

Definition streams_start (c : FcTelemetryCollector) (h : heap) : streams :=
  {| streams_heap := h;
     streams_collector := c;
     streams_status := fun _ => Suspended;
     streams_log := [];
     streams_escaped := None |}.

(** The loop of channel [ch] is over: by [break] or the end of its
    source ([logged = []], [ended = Returned]), or by an exception. *)
Definition streams_finish (s : streams) (h : heap) (ch : Channel)
  (logged : list log_record) (ended : task_end) : streams :=
  {| streams_heap := h;
     streams_collector := streams_collector s;
     streams_status := fun ch' => if decide (ch' = ch) then ended
                                  else streams_status s ch';
     streams_log := streams_log s ++ logged;
     streams_escaped :=
       match streams_escaped s, ended with
       | None, Escaped e => Some e
       | first, _ => first
       end |}.

Definition streams_set_heap (s : streams) (h : heap) : streams :=
  {| streams_heap := h;
     streams_collector := streams_collector s;
     streams_status := streams_status s;
     streams_log := streams_log s;
     streams_escaped := streams_escaped s |}.

(** One event: the step of the stream loop it resumes.  An event about a
    loop that is over resumes nothing. *)
Definition streams_step (s : streams) (ev : channel_event) : streams :=
  match ev with
  | StopRequested =>
      {| streams_heap := streams_heap s;
         streams_collector := stop (streams_collector s);
         streams_status := streams_status s;
         streams_log := streams_log s;
         streams_escaped := streams_escaped s |}
  | SourceEnds ch =>
      match streams_status s ch with
      | Suspended => streams_finish s (streams_heap s) ch [] Returned
      | _ => s
      end
  | SourceRaises ch e =>
      match streams_status s ch with
      | Suspended =>
          let '(logged, ended) := except_Exception_log (stream_message ch) e in
          streams_finish s (streams_heap s) ch logged ended
      | _ => s
      end
  | Delivered r =>
      let ch := channel_of r in
      match streams_status s ch with
      | Suspended =>
          if negb (_running (streams_collector s))
          then streams_finish s (streams_heap s) ch [] Returned
          else
            match ingest (streams_collector s) r (streams_heap s) with
            | (h', Ok _) => streams_set_heap s h'
            | (h', Raise e) =>
                let '(logged, ended) :=
                  except_Exception_log (stream_message ch) e in
                streams_finish s h' ch logged ended
            end
      | _ => s
      end
  end.

Definition streams_run (script : list channel_event) (s : streams) : streams :=
  fold_left streams_step script s.

Definition all_channels : list Channel :=
  [ChPosition; ChVelocity; ChEuler; ChQuaternion; ChImu; ChActuator].

(** How [await asyncio.gather(...)] stands: an exception left a loop, or
    all six returned, or some loop is still suspended. *)
Definition gather_end (s : streams) : task_end :=
  match streams_escaped s with
  | Some e => Escaped e
  | None =>
      if forallb (fun ch => match streams_status s ch with
                            | Returned => true
                            | _ => false
                            end) all_channels
      then Returned else Suspended
  end.

Section Setup.

Variable float_str : float -> string.

(** [configure_stream_rates]: [raises] tells which call raises, and
    what. *)
Definition configure_stream_rates (raises : rate_call -> option exn)
  (ENVIRONMENT : string) (rate_hz : float) : list plane_event * result unit :=
  let starting :=
    EvPlaneLog (LogInfo ("Configuring telemetry stream rates to "
                         ++ float_str rate_hz ++ " Hz")) in
  let body :=
    and_then (await_set_rate raises set_rate_position rate_hz)
   (and_then (await_set_rate raises set_rate_velocity_ned rate_hz)
   (and_then (await_set_rate raises set_rate_attitude_euler rate_hz)
   (and_then (await_set_rate raises set_rate_attitude_quaternion rate_hz)
   (and_then (await_set_rate raises set_rate_imu rate_hz)
   (and_then (set_actuator_rate raises ENVIRONMENT rate_hz)
             ([EvPlaneLog (LogInfo ("Successfully configured stream rates to "
                                    ++ float_str rate_hz ++ " Hz"))], None)))))) in
  match body with
  | (evs, None) => (starting :: evs, Ok tt)
  | (evs, Some e) =>
      if is_Exception e
      then (starting :: evs ++ [EvLogError "Failed to configure stream rates: " e],
            Raise e)
      else (starting :: evs, Raise e)
  end.

(** [start_telemetry_streams]: the flag, the rates, half a second of
    sleep, then the six stream loops under [gather], as far as [script]
    takes them. *)
Definition start_telemetry_streams (raises : rate_call -> option exn)
  (ENVIRONMENT : string) (sleep_raises : option exn)
  (c0 : FcTelemetryCollector) (stream_rate_hz : float)
  (script : list channel_event) (h : heap)
  : streams * (list plane_event * task_end) :=
  let c := {| _current_data := _current_data c0; _running := true |} in
  let starting := EvPlaneLog (LogInfo "Starting telemetry streams...") in
  match configure_stream_rates raises ENVIRONMENT stream_rate_hz with
  | (evs, Raise e) => (streams_start c h, (starting :: evs, Escaped e))
  | (evs, Ok _) =>
      match sleep_raises with
      | Some e => (streams_start c h, (starting :: evs, Escaped e))
      | None =>
          let s := streams_run script (streams_start c h) in
          (s, (starting :: evs ++ [EvPlaneSleep 0.5], gather_end s))
      end
  end.

End Setup.

(** The first five rate calls, in the order of the source. *)
Definition leading_rate_calls : list rate_call :=
  [ set_rate_position; set_rate_velocity_ned; set_rate_attitude_euler;
    set_rate_attitude_quaternion; set_rate_imu ].

(** No exception other than an [Exception] comes from the sources. *)
Definition benign (ev : channel_event) : Prop :=
  match ev with
  | SourceRaises _ e => is_Exception e = true
  | _ => True
  end.

(** No stream loop was left by an exception. *)
Definition calm (s : streams) : Prop :=
  streams_escaped s = None /\
  forall ch, streams_status s ch = Suspended \/ streams_status s ch = Returned.

(** What [upd] makes of a field depends on that field alone. *)
Definition fieldwise (upd : FcTelemetryData -> FcTelemetryData) : Prop :=
  forall d d' f, getattr d f = getattr d' f -> getattr (upd d) f = getattr (upd d') f.

(** The update [m] alters the object at [l] fieldwise and ends the same
    way on every heap. *)
Definition heap_blind (l : loc) {A} (m : Py A) : Prop :=
  exists (upd : FcTelemetryData -> FcTelemetryData) (out : result A),
    fieldwise upd /\ forall h, m h = (alter upd l h, out).

(** The snapshots of the collector [c] on [h] and [h'] agree on every
    field outside the group of [a]. *)
Definition agree_outside (a : Channel) (c : FcTelemetryCollector)
  (h h' : heap) : Prop :=
  exists d d',
    h !! _current_data c = Some d /\ h' !! _current_data c = Some d' /\
    forall f, group_of f <> Some a -> getattr d f = getattr d' f.

(** Two states of the streams that differ at most in the loop of
    channel [a], its log records and its fields. *)
Definition same_elsewhere (a : Channel) (s s' : streams) : Prop :=
  streams_collector s = streams_collector s' /\
  (forall ch, ch <> a -> streams_status s ch = streams_status s' ch) /\
  agree_outside a (streams_collector s) (streams_heap s) (streams_heap s').

(** The events that are not about channel [a]. *)
Definition without_channel (a : Channel) (script : list channel_event)
  : list channel_event :=
  filter (fun ev => event_channel ev <> Some a) script.

(** ** Connecting to the flight controller

    [connect_to_flight_controller] of [onboard/main.py]; the first loop
    of [_async_main] in [main.py] is the same code ending in [break]. *)

(** [os.getenv(key, default)] for the environment [environ]. *)
Definition getenv (environ : string -> option string) (key default : string)
  : string :=
  match environ key with
  | Some value => value
  | None => default
  end.

Local Open Scope string_scope.

Definition CONNECTION_CONFIGS (environ : string -> option string)
  : list (string * string) :=
  [ ("deployment",
     "serial://" ++ getenv environ "SERIAL_PORT_PATH" "/dev/ttyUSB0"
       ++ ":" ++ getenv environ "BAUD_RATE" "57600");
    ("sitl",
     "tcp://" ++ getenv environ "SITL_HOST" "127.0.0.1"
       ++ ":" ++ getenv environ "SITL_PORT" "5760") ].

Local Close Scope string_scope.

(** [d.get(key, None)] on a dict with string keys, given by its items. *)
Fixpoint config_get (d : list (string * string)) (key : string) : option string :=
  match d with
  | [] => None
  | (k, v) :: rest => if String.eqb k key then Some v else config_get rest key
  end.

(** What [plane.core.connection_state()] does next: it yields a state
    with its [is_connected], raises, or ends. *)
Inductive state_event :=
| StateYield (is_connected : bool)
| StateRaises (e : exn)
| StateEnds.

(** One attempt as the world decides it: whether [connect] raises, what
    the state stream does, whether the sleep before the next attempt
    raises. *)
Record connect_attempt := {
  connect_raises : option exn;
  connection_states : list state_event;
  retry_sleep_raises : option exn
}.

(** [async for state in ...: if state.is_connected: break] *)
Fixpoint await_connected (states : list state_event) : task_end :=
  match states with
  | [] => Suspended
  | StateYield true :: _ => Returned
  | StateYield false :: rest => await_connected rest
  | StateRaises e :: _ => Escaped e
  | StateEnds :: _ => Returned
  end.

(** The [try] block of one attempt. *)
Definition connect_try (address : string) (a : connect_attempt)
  : list plane_event * task_end :=
  let trying :=
    [EvPlaneLog (LogInfo ("Attempting to connect to FC at " ++ address));
     EvConnect address] in
  match connect_raises a with
  | Some e => (trying, Escaped e)
  | None =>
      let waiting := EvPlaneLog (LogInfo "Waiting for valid FC state...") in
      match await_connected (connection_states a) with
      | Returned =>
          (trying ++ [waiting; EvPlaneLog (LogInfo "Successfully connected to FC")],
           Returned)
      | ended => (trying ++ [waiting], ended)
      end
  end.

(** [while True: try: ... except Exception as e: warn; sleep(5)] *)
Fixpoint connect_loop (address : string) (attempts : list connect_attempt)
  : list plane_event * task_end :=
  match attempts with
  | [] => ([], Suspended)
  | a :: rest =>
      match connect_try address a with
      | (evs, Escaped e) =>
          if is_Exception e then
            let warned :=
              EvLogWarning "Connection failed: " e ". Retrying in 5 seconds..." in
            match retry_sleep_raises a with
            | Some e' => (evs ++ [warned], Escaped e')
            | None =>
                let '(evs', r) := connect_loop address rest in
                (evs ++ warned :: EvPlaneSleep 5 :: evs', r)
            end
          else (evs, Escaped e)
      | (evs, ended) => (evs, ended)
      end
  end.

Definition connect_to_flight_controller (environ : string -> option string)
  (ENVIRONMENT : string) (attempts : list connect_attempt)
  : list plane_event * task_end :=
  match config_get (CONNECTION_CONFIGS environ) ENVIRONMENT with
  | None => ([], Escaped ValueError)
  | Some connection_string => connect_loop connection_string attempts
  end.

(** The addresses [connect] was called with, and the sleeps taken. *)
Fixpoint connect_calls (evs : list plane_event) : list string :=
  match evs with
  | [] => []
  | EvConnect address :: rest => address :: connect_calls rest
  | _ :: rest => connect_calls rest
  end.

Fixpoint plane_sleeps (evs : list plane_event) : list float :=
  match evs with
  | [] => []
  | EvPlaneSleep seconds :: rest => seconds :: plane_sleeps rest
  | _ :: rest => plane_sleeps rest
  end.

(** The attempt fails with an [Exception], from [connect] or from the
    state stream, and the sleep that follows completes. *)
Definition fails_and_retries (a : connect_attempt) : Prop :=
  (exists e, is_Exception e = true /\
             (connect_raises a = Some e \/
              (connect_raises a = None /\
               await_connected (connection_states a) = Escaped e))) /\
  retry_sleep_raises a = None.

(** [connect] returns and the state stream yields a state whose
    [is_connected] is true, after any number of states in which it is
    false. *)
Definition sees_connected (a : connect_attempt) : Prop :=
  connect_raises a = None /\
  exists n rest,
    connection_states a = repeat (StateYield false) n ++ StateYield true :: rest.

(** [connect] returns and the state stream ends without having yielded
    a state whose [is_connected] is true. *)
Definition state_stream_ends (a : connect_attempt) : Prop :=
  connect_raises a = None /\
  exists n rest,
    connection_states a = repeat (StateYield false) n ++ StateEnds :: rest.

(** ** The logging task of [onboard/main.py] *)

Module onboard.
(** [start_logging(collector, filename, log_rate_hz)]: a new logger,
    then its [start_logging]. *)
Definition start_logging (float_str : float -> string) (env : sink_env)
  (collector : FcTelemetryCollector) (filename : string) (log_rate_hz : float)
  (h : heap) : heap * (list io_event * task_end) :=
  match FcTelemetryLogger_init collector filename log_rate_hz with
  | Raise e => (h, ([], Escaped e))
  | Ok logger =>
      let '(h', (evs, (_, r))) := start_logging float_str env logger h in
      (h', (evs, r))
  end.
End onboard.

(** The handles [close] was called on, in order. *)
Fixpoint closed (tr : list io_event) : list handle :=
  match tr with
  | [] => []
  | EvClose fh :: rest => fh :: closed rest
  | _ :: rest => closed rest
  end.

(** ** [_async_main] of [main.py] *)

(** [while True: try: await asyncio.sleep(1)
    except KeyboardInterrupt: ...; break]: [sleeps] tells what each
    sleep raises, if anything. *)
Fixpoint idle_loop (sleeps : list (option exn)) : list plane_event * task_end :=
  match sleeps with
  | [] => ([], Suspended)
  | None :: rest =>
      let '(evs, r) := idle_loop rest in (EvPlaneSleep 1 :: evs, r)
  | Some KeyboardInterrupt :: _ =>
      ([EvPlaneLog (LogInfo "Received keyboard interrupt, shutting down...")],
       Returned)
  | Some e :: _ => ([], Escaped e)
  end.

Module main_py.
Definition _async_main (environ : string -> option string) (ENVIRONMENT : string)
  (attempts : list connect_attempt) (sleeps : list (option exn))
  : list plane_event * task_end :=
  match connect_to_flight_controller environ ENVIRONMENT attempts with
  | (evs, Returned) =>
      let '(evs', r) := idle_loop sleeps in (evs ++ evs', r)
  | (evs, ended) => (evs, ended)
  end.
End main_py.

(** * Results *)

(** ** Frame lemmas for the ingestors *)

Lemma writes_only_assign g l set :
  (forall d f, group_of f <> Some g -> getattr (set d) f = getattr d f) ->
  writes_only g l (assign l set).
Proof. intros Hset h. exists set. split; [reflexivity | exact Hset]. Qed.

Lemma writes_only_lift g l {A} (r : result A) : writes_only g l (lift r).
Proof.
  intros h. exists id. split; [| reflexivity].
  simpl. symmetry. apply alter_id. reflexivity.
Qed.

Lemma writes_only_bind g l {A B} (m : Py A) (k : A -> Py B) :
  writes_only g l m -> (forall a, writes_only g l (k a)) ->
  writes_only g l (m ≫= k).
Proof.
  intros Hm Hk h. unfold mbind, Py_bind, bind.
  destruct (Hm h) as (u1 & E1 & F1).
  destruct (m h) as [h1 [a | e]] eqn:Emh; simpl in E1; subst h1.
  - destruct (Hk a (alter u1 l h)) as (u2 & E2 & F2).
    exists (u2 ∘ u1). split.
    + rewrite E2. apply alter_alter_eq.
    + intros d f Hf. simpl. rewrite F2, F1; auto.
  - exists u1. split; [reflexivity | exact F1].
Qed.

Ltac frame_setter := intros [] [] ?; simpl in *; congruence.

Lemma ingest_writes_only c r :
  writes_only (channel_of r) (_current_data c) (ingest c r).
Proof.
  destruct r; simpl;
    unfold position_body, velocity_body, attitude_euler_body,
      attitude_quaternion_body, imu_body, actuator_output_body;
    repeat first
      [ apply writes_only_bind; [| intros ?]
      | apply writes_only_lift
      | apply writes_only_assign; frame_setter ].
Qed.

Lemma ingest_frame c r h d :
  h !! _current_data c = Some d ->
  exists d', fst (ingest c r h) !! _current_data c = Some d' /\
    forall f, group_of f <> Some (channel_of r) -> getattr d' f = getattr d f.
Proof.
  intros Hd. destruct (ingest_writes_only c r h) as (u & -> & Hu).
  exists (u d). split; [| intros f; apply Hu].
  rewrite lookup_alter_eq, Hd. reflexivity.
Qed.

(** Fields of the group [g] keep their values through the updates of
    ingestors of other channels. *)
Lemma ingest_all_frame c g rs : forall h d,
  h !! _current_data c = Some d ->
  Forall (fun r => channel_of r <> g) rs ->
  exists d', ingest_all c rs h !! _current_data c = Some d' /\
    forall f, group_of f = Some g -> getattr d' f = getattr d f.
Proof.
  induction rs as [| r rs IH]; intros h d Hd Hrs.
  - exists d. split; [exact Hd | reflexivity].
  - inversion Hrs as [| ? ? Hr Hrs']; subst.
    destruct (ingest_frame c r h d Hd) as (d1 & Hd1 & F1).
    destruct (IH _ d1 Hd1 Hrs') as (d2 & Hd2 & F2).
    exists d2. split; [exact Hd2 |].
    intros f Hf. rewrite F2 by exact Hf. apply F1. congruence.
Qed.

Lemma init_lookup t0 h0 :
  snd (FcTelemetryCollector_init t0 h0)
    !! _current_data (fst (FcTelemetryCollector_init t0 h0))
  = Some (FcTelemetryData_init t0).
Proof. simpl. apply lookup_insert_eq. Qed.

Lemma replace_timestamp_agrees d t :
  agree_except fld_timestamp_ms d (dataclasses_replace_timestamp_ms d t).
Proof. intros f Hf. destruct f; try reflexivity. congruence. Qed.

Lemma fresh_not_allocated (h : heap) : h !! fresh (dom h) = None.
Proof. apply not_elem_of_dom. apply is_fresh. Qed.

(** What a read returns, for a heap that holds the snapshot. *)
Lemma get_latest_data_copy c t h d :
  h !! _current_data c = Some d ->
  snd (get_latest_data c t h) !! fst (get_latest_data c t h)
  = Some (dataclasses_replace_timestamp_ms d (t * 1000)%float).
Proof.
  intros Hd. unfold get_latest_data. simpl.
  rewrite lookup_insert_eq. rewrite (lookup_total_correct _ _ _ Hd). reflexivity.
Qed.

(** C2: an ingestor's update, applied to any record of its channel,
    leaves every field of the other five groups, and [timestamp_ms],
    as it was. *)
Theorem ingestor_update_disjoint (c : FcTelemetryCollector) (r : TelemetryRecord)
  (h : heap) (d : FcTelemetryData) :
  h !! _current_data c = Some d ->
  exists d', fst (ingest c r h) !! _current_data c = Some d' /\
    (forall f g, group_of f = Some g -> g <> channel_of r ->
                 getattr d' f = getattr d f) /\
    timestamp_ms d' = timestamp_ms d.
Proof.
  intros Hd. destruct (ingest_frame c r h d Hd) as (d' & Hd' & F).
  exists d'. split; [exact Hd' | split].
  - intros f g Hg Hne. apply F. congruence.
  - assert (E : getattr d' fld_timestamp_ms = getattr d fld_timestamp_ms)
      by (apply F; discriminate).
    simpl in E. congruence.
Qed.

Lemma ingestor_update_disjoint_witness :
  exists d',
    fst (ingest sample_collector (RecPosition sample_position) sample_heap)
      !! 1%positive = Some d' /\
    (forall f g, group_of f = Some g -> g <> ChPosition ->
                 getattr d' f = getattr (FcTelemetryData_init 5) f) /\
    timestamp_ms d' = 5%float.
Proof.
  refine (ingestor_update_disjoint sample_collector (RecPosition sample_position)
            sample_heap (FcTelemetryData_init 5) _).
  vm_compute. reflexivity.
Defined.

(** C7: the constructor stores a snapshot that holds the documented
    default in every field but [timestamp_ms].  Whatever the ingestors
    of the other channels received since, the canonical snapshot is
    still on the heap and still holds the documented defaults in the
    fields of a group no ingestor has written yet; a read returns a copy
    that agrees with the canonical snapshot in every field but
    [timestamp_ms], so it returns these defaults too. *)
Theorem read_before_first_write_is_default (t0 : float) (h0 : heap)
  (g : Channel) (rs : list TelemetryRecord) (t : float) :
  Forall (fun r => channel_of r <> g) rs ->
  let c := fst (FcTelemetryCollector_init t0 h0) in
  let h := ingest_all c rs (snd (FcTelemetryCollector_init t0 h0)) in
  (exists d0, snd (FcTelemetryCollector_init t0 h0) !! _current_data c = Some d0 /\
     h0 !! _current_data c = None /\
     timestamp_ms d0 = t0 /\
     forall f, f <> fld_timestamp_ms -> getattr d0 f = documented_default f) /\
  exists d data,
    h !! _current_data c = Some d /\
    snd (get_latest_data c t h) !! fst (get_latest_data c t h) = Some data /\
    fst (get_latest_data c t h) <> _current_data c /\
    agree_except fld_timestamp_ms d data /\
    forall f, group_of f = Some g ->
      getattr d f = documented_default f /\ getattr data f = documented_default f.
Proof.
  intros Hrs c h. split.
  - exists (FcTelemetryData_init t0).
    split; [apply init_lookup | split; [apply fresh_not_allocated | split; [reflexivity |]]].
    intros f Hf. destruct f; try reflexivity. contradiction Hf; reflexivity.
  - destruct (ingest_all_frame c g rs _ _ (init_lookup t0 h0) Hrs) as (d & Hd & F).
    exists d, (dataclasses_replace_timestamp_ms d (t * 1000)%float).
    assert (Hdef : forall f, group_of f = Some g -> getattr d f = documented_default f).
    { intros f Hf. rewrite F by exact Hf. destruct f; try reflexivity; discriminate. }
    split; [exact Hd | split; [apply get_latest_data_copy, Hd | split; [| split]]].
    + intros E.
      assert (Hfresh : h !! _current_data c = None)
        by (rewrite <- E; apply fresh_not_allocated).
      discriminate (eq_trans (eq_sym Hfresh) Hd).
    + apply replace_timestamp_agrees.
    + intros f Hf. split; [apply Hdef, Hf |].
      rewrite replace_timestamp_agrees by (intros ->; discriminate).
      apply Hdef, Hf.
Qed.

Lemma read_before_first_write_is_default_witness :
  let c := fst (FcTelemetryCollector_init 5 ∅) in
  let h := ingest_all c [RecPosition sample_position] (snd (FcTelemetryCollector_init 5 ∅)) in
  exists d data,
    h !! _current_data c = Some d /\
    snd (get_latest_data c 6 h) !! fst (get_latest_data c 6 h) = Some data /\
    fst (get_latest_data c 6 h) <> _current_data c /\
    agree_except fld_timestamp_ms d data /\
    forall f, group_of f = Some ChQuaternion ->
      getattr d f = documented_default f /\ getattr data f = documented_default f.
Proof.
  refine (proj2 (read_before_first_write_is_default 5 ∅ ChQuaternion
                   [RecPosition sample_position] 6 _)).
  repeat constructor. discriminate.
Defined.

(** C1: a read allocates a new object whose fields are those of the
    canonical snapshot, but for [timestamp_ms], which is the time of
    the read; the canonical snapshot and every object already on the
    heap (the copies returned before) are as they were, and stay so
    whatever is assigned to the fields of the new copy. *)
Theorem get_latest_data_independent_copy (c : FcTelemetryCollector) (t : float)
  (h : heap) (d : FcTelemetryData) :
  h !! _current_data c = Some d ->
  let l := fst (get_latest_data c t h) in
  let h' := snd (get_latest_data c t h) in
  h !! l = None /\
  (exists data, h' !! l = Some data /\
     timestamp_ms data = (t * 1000)%float /\ agree_except fld_timestamp_ms d data) /\
  h' !! _current_data c = Some d /\
  (forall l0, is_Some (h !! l0) -> h' !! l0 = h !! l0) /\
  forall (mutate : FcTelemetryData -> FcTelemetryData),
    let h'' := fst (assign l mutate h') in
    h'' !! _current_data c = Some d /\
    forall l0, is_Some (h !! l0) -> h'' !! l0 = h !! l0.
Proof.
  intros Hd l h'.
  assert (Hfresh : h !! l = None) by apply fresh_not_allocated.
  assert (Hold : forall l0, is_Some (h !! l0) -> l <> l0).
  { intros l0 [x Hx] ->. congruence. }
  assert (Hkeep : forall l0, is_Some (h !! l0) -> h' !! l0 = h !! l0).
  { intros l0 Hl0. apply lookup_insert_ne, Hold, Hl0. }
  split; [exact Hfresh | split; [| split; [| split; [exact Hkeep |]]]].
  - exists (dataclasses_replace_timestamp_ms d (t * 1000)%float).
    split; [apply get_latest_data_copy, Hd | split; [reflexivity |]].
    apply replace_timestamp_agrees.
  - rewrite Hkeep by (rewrite Hd; eauto). exact Hd.
  - intros mutate h''.
    assert (Hmut : forall l0, is_Some (h !! l0) -> h'' !! l0 = h !! l0).
    { intros l0 Hl0. unfold h'', assign. simpl.
      rewrite lookup_alter_ne by (apply Hold, Hl0). apply Hkeep, Hl0. }
    split; [| exact Hmut].
    rewrite Hmut by (rewrite Hd; eauto). exact Hd.
Qed.

Lemma get_latest_data_independent_copy_witness :
  let l := fst (get_latest_data sample_collector 6 sample_heap) in
  let h' := snd (get_latest_data sample_collector 6 sample_heap) in
  sample_heap !! l = None /\
  (exists data, h' !! l = Some data /\
     timestamp_ms data = (6 * 1000)%float /\
     agree_except fld_timestamp_ms (FcTelemetryData_init 5) data) /\
  h' !! 1%positive = Some (FcTelemetryData_init 5) /\
  (forall l0, is_Some (sample_heap !! l0) -> h' !! l0 = sample_heap !! l0) /\
  forall (mutate : FcTelemetryData -> FcTelemetryData),
    let h'' := fst (assign l mutate h') in
    h'' !! 1%positive = Some (FcTelemetryData_init 5) /\
    forall l0, is_Some (sample_heap !! l0) -> h'' !! l0 = sample_heap !! l0.
Proof.
  refine (get_latest_data_independent_copy sample_collector 6 sample_heap
            (FcTelemetryData_init 5) _).
  vm_compute. reflexivity.
Defined.

(** C10: the snapshot built with the collector carries [time.time()]
    itself, in seconds, and every copy a read returns carries
    [time.time() * 1000]: at one and the same clock reading the second
    is a thousand times the first. *)
Theorem timestamp_scale_mismatch (now : float) (h0 : heap) :
  let c := fst (FcTelemetryCollector_init now h0) in
  let h := snd (FcTelemetryCollector_init now h0) in
  (exists d, h !! _current_data c = Some d /\ timestamp_ms d = now) /\
  (forall (c' : FcTelemetryCollector) (t : float) (h' : heap),
     timestamp_ms (snd (get_latest_data c' t h') !!! fst (get_latest_data c' t h'))
     = (t * 1000)%float) /\
  exists d data,
    h !! _current_data c = Some d /\
    snd (get_latest_data c now h) !! fst (get_latest_data c now h) = Some data /\
    timestamp_ms data = (timestamp_ms d * 1000)%float.
Proof.
  intros c h. split; [| split].
  - exists (FcTelemetryData_init now). split; [apply init_lookup | reflexivity].
  - intros c' t h'. unfold get_latest_data. simpl.
    rewrite lookup_total_insert_eq. reflexivity.
  - exists (FcTelemetryData_init now),
      (dataclasses_replace_timestamp_ms (FcTelemetryData_init now) (now * 1000)%float).
    split; [apply init_lookup | split; [| reflexivity]].
    apply get_latest_data_copy, init_lookup.
Qed.

(** ** The actuator ingestor *)

Lemma int_of_float_raises x e :
  int_of_float x = Raise e -> e = ValueError \/ e = OverflowError.
Proof.
  unfold int_of_float. destruct (Prim2SF x); intros H; inversion H; auto.
Qed.

Lemma int_at_or_zero_lookup values i :
  int_at_or_zero values i =
  match values !! i with
  | Some x => int_of_float x
  | None => Ok 0
  end.
Proof.
  unfold int_at_or_zero, list_getitem.
  destruct (Nat.ltb_spec i (length values)) as [Hlt | Hge].
  - destruct (lookup_lt_is_Some_2 values i Hlt) as [x ->]. reflexivity.
  - rewrite (lookup_ge_None_2 values i) by lia. reflexivity.
Qed.

Lemma int_at_or_zero_raises values i e :
  int_at_or_zero values i = Raise e -> e = ValueError \/ e = OverflowError.
Proof.
  rewrite int_at_or_zero_lookup. destruct (values !! i).
  - apply int_of_float_raises.
  - discriminate.
Qed.

Lemma slot_is_int_at_or_zero values i n :
  slot_is values i n -> int_at_or_zero values i = Ok n.
Proof.
  unfold slot_is. rewrite int_at_or_zero_lookup.
  destruct (values !! i); [auto | intros ->; reflexivity].
Qed.

Lemma slot_rejected_int_at_or_zero values i e :
  slot_rejected values i e -> int_at_or_zero values i = Raise e.
Proof.
  intros (x & Hx & H). rewrite int_at_or_zero_lookup, Hx. unfold int_of_float.
  destruct H as [[-> ->] | (s & -> & ->)]; reflexivity.
Qed.

Lemma slot_is_or_rejected values i :
  (exists n, slot_is values i n) \/ (exists e, slot_rejected values i e).
Proof.
  unfold slot_is, slot_rejected. destruct (values !! i) as [x |]; [| left; eauto].
  unfold int_of_float. destruct (Prim2SF x) eqn:E.
  - left. eauto.
  - right. exists OverflowError, x. split; [reflexivity | right; eauto].
  - right. exists ValueError, x. split; [reflexivity | left; auto].
  - left. eauto.
Qed.

Ltac run_actuator_body values :=
  unfold actuator_output_body, mbind, Py_bind, bind, lift, assign;
  fold values; unfold servo_start_idx; simpl.

(** C8, as the code has it: the actuator update never raises
    [IndexError]; the only exceptions are those of [int] on a value that
    is not finite.  Indices 0, 8, 9 and 10 are handled in this order,
    each assigned before the next is looked at.  At each of them the
    value present is either converted by [int] (zero standing for an
    index past the end) or rejected by [int], [ValueError] for a NaN and
    [OverflowError] for an infinity.  When all four convert, the update
    ends normally and the snapshot is the old one with the motor field
    holding the converted value at index 0 and the servo fields those at
    indices 8, 9 and 10.  When one is rejected, the update raises that
    exception at the first such index: the fields of the indices before
    it hold their converted values, and the field of that index and of
    the later ones keep the values they had.  No other field and no
    other object changes. *)
Theorem actuator_update_slots (c : FcTelemetryCollector)
  (output : mavsdk.ActuatorOutputStatus) (h : heap) (d : FcTelemetryData) :
  h !! _current_data c = Some d ->
  let values := mavsdk.actuator output in
  let h' := fst (actuator_output_body c output h) in
  let r := snd (actuator_output_body c output h) in
  r <> Raise IndexError /\
  (forall e, r = Raise e -> e = ValueError \/ e = OverflowError) /\
  (forall m s1 s2 s3,
    slot_is values 0 m -> slot_is values 8 s1 ->
    slot_is values 9 s2 -> slot_is values 10 s3 ->
    r = Ok tt /\
    exists d', h' !! _current_data c = Some d' /\
      motor_out d' = m /\ servo1_out d' = s1 /\
      servo2_out d' = s2 /\ servo3_out d' = s3) /\
  (forall i, (exists n, slot_is values i n) \/ (exists e, slot_rejected values i e)) /\
  (forall m s1 s2 s3,
    slot_is values 0 m -> slot_is values 8 s1 ->
    slot_is values 9 s2 -> slot_is values 10 s3 ->
    h' !! _current_data c = Some (with_outputs d m s1 s2 s3)) /\
  (forall e, slot_rejected values 0 e ->
    r = Raise e /\ h' !! _current_data c = Some d) /\
  (forall m e, slot_is values 0 m -> slot_rejected values 8 e ->
    r = Raise e /\
    h' !! _current_data c
    = Some (with_outputs d m (servo1_out d) (servo2_out d) (servo3_out d))) /\
  (forall m s1 e,
    slot_is values 0 m -> slot_is values 8 s1 -> slot_rejected values 9 e ->
    r = Raise e /\
    h' !! _current_data c = Some (with_outputs d m s1 (servo2_out d) (servo3_out d))) /\
  (forall m s1 s2 e,
    slot_is values 0 m -> slot_is values 8 s1 -> slot_is values 9 s2 ->
    slot_rejected values 10 e ->
    r = Raise e /\
    h' !! _current_data c = Some (with_outputs d m s1 s2 (servo3_out d))) /\
  forall l, l <> _current_data c -> h' !! l = h !! l.
Proof.
  intros Hd values h' r.
  assert (Hr : forall e, r = Raise e -> e = ValueError \/ e = OverflowError).
  { subst r h'. run_actuator_body values.
    intros e.
    destruct (int_at_or_zero values 0) eqn:E0; simpl;
      [| intros [= <-]; eapply int_at_or_zero_raises, E0].
    destruct (int_at_or_zero values 8) eqn:E1; simpl;
      [| intros [= <-]; eapply int_at_or_zero_raises, E1].
    destruct (int_at_or_zero values 9) eqn:E2; simpl;
      [| intros [= <-]; eapply int_at_or_zero_raises, E2].
    destruct (int_at_or_zero values 10) eqn:E3; simpl;
      [discriminate | intros [= <-]; eapply int_at_or_zero_raises, E3]. }
  split; [| split; [exact Hr |]].
  { intros E. destruct (Hr _ E); discriminate. }
  split; [| split; [apply slot_is_or_rejected |]].
  { intros m s1 s2 s3 H0 H1 H2 H3.
    apply slot_is_int_at_or_zero in H0, H1, H2, H3.
    subst r h'. run_actuator_body values.
    rewrite H0. simpl. rewrite H1. simpl. rewrite H2. simpl. rewrite H3. simpl.
    split; [reflexivity |].
    rewrite !lookup_alter_eq, Hd. simpl.
    eexists. split; [reflexivity |]. destruct d; simpl. auto. }
  split; [| split; [| split; [| split; [| split]]]].
  - intros m s1 s2 s3 H0 H1 H2 H3.
    apply slot_is_int_at_or_zero in H0, H1, H2, H3.
    subst r h'. run_actuator_body values.
    rewrite H0. simpl. rewrite H1. simpl. rewrite H2. simpl. rewrite H3. simpl.
    rewrite !lookup_alter_eq, Hd. destruct d; reflexivity.
  - intros e H0. apply slot_rejected_int_at_or_zero in H0.
    subst r h'. run_actuator_body values.
    rewrite H0. simpl. split; [reflexivity | exact Hd].
  - intros m e H0 H1.
    apply slot_is_int_at_or_zero in H0. apply slot_rejected_int_at_or_zero in H1.
    subst r h'. run_actuator_body values.
    rewrite H0. simpl. rewrite H1. simpl. split; [reflexivity |].
    rewrite !lookup_alter_eq, Hd. destruct d; reflexivity.
  - intros m s1 e H0 H1 H2.
    apply slot_is_int_at_or_zero in H0, H1. apply slot_rejected_int_at_or_zero in H2.
    subst r h'. run_actuator_body values.
    rewrite H0. simpl. rewrite H1. simpl. rewrite H2. simpl. split; [reflexivity |].
    rewrite !lookup_alter_eq, Hd. destruct d; reflexivity.
  - intros m s1 s2 e H0 H1 H2 H3.
    apply slot_is_int_at_or_zero in H0, H1, H2. apply slot_rejected_int_at_or_zero in H3.
    subst r h'. run_actuator_body values.
    rewrite H0. simpl. rewrite H1. simpl. rewrite H2. simpl. rewrite H3. simpl.
    split; [reflexivity |].
    rewrite !lookup_alter_eq, Hd. destruct d; reflexivity.
  - intros l Hl. subst h'. run_actuator_body values.
    destruct (int_at_or_zero values 0); simpl; [| reflexivity].
    destruct (int_at_or_zero values 8); simpl;
      [| rewrite !lookup_alter_ne by congruence; reflexivity].
    destruct (int_at_or_zero values 9); simpl;
      [| rewrite !lookup_alter_ne by congruence; reflexivity].
    destruct (int_at_or_zero values 10); simpl;
      rewrite !lookup_alter_ne by congruence; reflexivity.
Qed.

(** On the sample record, which has ten values, and on one whose value
    at index 8 is infinite. *)
Lemma actuator_update_slots_witness :
  (let h' := fst (actuator_output_body sample_collector sample_actuator flying_heap) in
   let r := snd (actuator_output_body sample_collector sample_actuator flying_heap) in
   r = Ok tt /\
   h' !! 1%positive = Some (with_outputs flying_snapshot 1500 1100 1900 0)) /\
  (let h' := fst (actuator_output_body sample_collector infinite_actuator flying_heap) in
   let r := snd (actuator_output_body sample_collector infinite_actuator flying_heap) in
   r = Raise OverflowError /\
   h' !! 1%positive = Some (with_outputs flying_snapshot 1500 1300 1400 1450)).
Proof.
  pose proof (actuator_update_slots sample_collector sample_actuator
                flying_heap flying_snapshot eq_refl) as Hs.
  pose proof (actuator_update_slots sample_collector infinite_actuator
                flying_heap flying_snapshot eq_refl) as Hi.
  cbv zeta in Hs, Hi.
  destruct Hs as (_ & _ & Hok & _ & Hall & _).
  destruct Hi as (_ & _ & _ & _ & _ & _ & H8 & _).
  split.
  - split.
    + apply (Hok 1500 1100 1900 0); vm_compute; reflexivity.
    + apply (Hall 1500 1100 1900 0); vm_compute; reflexivity.
  - apply (H8 1500 OverflowError); [vm_compute; reflexivity |].
    exists infinity. split; [reflexivity | right].
    exists false. split; [vm_compute; reflexivity | reflexivity].
Defined.

(** C8 as stated fails on a record that holds a value [int] rejects.
    The snapshot holds 1200 for the motor and 1300, 1400 and 1450 for
    the servos; the record has eleven values, the one at index 9 a NaN.
    The update raises [ValueError] at index 9, after writing the motor
    and the first servo field.  The second servo field keeps 1400 and
    the third keeps 1450: it is never given the value at index 10, which
    [int] converts to 1700, and it is not set to zero either. *)
Lemma actuator_update_nan_counterexample :
  let h' := fst (actuator_output_body sample_collector nan_actuator flying_heap) in
  let r := snd (actuator_output_body sample_collector nan_actuator flying_heap) in
  length (mavsdk.actuator nan_actuator) = 11%nat /\
  flying_heap !! 1%positive = Some (with_outputs (FcTelemetryData_init 5) 1200 1300 1400 1450) /\
  r = Raise ValueError /\
  slot_is (mavsdk.actuator nan_actuator) 10 1700 /\
  servo3_out (h' !!! 1%positive) = 1450 /\
  (forall n, ~ slot_is (mavsdk.actuator nan_actuator) 9 n) /\
  servo2_out (h' !!! 1%positive) = 1400 /\
  motor_out (h' !!! 1%positive) = 1500 /\
  servo1_out (h' !!! 1%positive) = 1600.
Proof.
  repeat split; try (vm_compute; reflexivity).
  intros n Hn. vm_compute in Hn. discriminate.
Qed.

(** ** Comma-separated text *)

Lemma comma_free_app a b :
  comma_free (a ++ b) = comma_free a && comma_free b.
Proof.
  induction a as [| ch a IH]; simpl; [reflexivity |].
  rewrite IH. apply andb_assoc.
Qed.

Lemma split_commas_comma_free s :
  comma_free s = true -> split_commas s = [s].
Proof.
  induction s as [| ch s IH]; simpl; [reflexivity |].
  intros H. apply andb_prop in H as [Hch Hs].
  apply negb_true_iff in Hch. rewrite Hch, (IH Hs). reflexivity.
Qed.

Lemma split_commas_app a rest :
  comma_free a = true ->
  split_commas (a ++ String comma rest) = a :: split_commas rest.
Proof.
  induction a as [| ch a IH]; simpl; intros H.
  - reflexivity.
  - apply andb_prop in H as [Hch Ha].
    apply negb_true_iff in Hch. rewrite Hch, (IH Ha). reflexivity.
Qed.

Lemma split_join_commas values :
  values <> [] ->
  Forall (fun s => comma_free s = true) values ->
  split_commas (join_commas values) = values.
Proof.
  intros Hne Hall. induction Hall as [| x xs Hx Hxs IH]; [congruence |].
  destruct xs as [| y ys].
  - simpl. apply split_commas_comma_free, Hx.
  - change (join_commas (x :: y :: ys))
      with (x ++ String comma (join_commas (y :: ys)))%string.
    rewrite split_commas_app by exact Hx.
    rewrite IH by discriminate. reflexivity.
Qed.

Lemma comma_free_uint u : comma_free (NilEmpty.string_of_uint u) = true.
Proof. induction u; simpl; auto. Qed.

Lemma comma_free_decimal n : comma_free (decimal n) = true.
Proof.
  unfold decimal, NilZero.string_of_uint.
  destruct (N.to_uint (Z.to_N n)) eqn:E; try reflexivity;
    rewrite <- E; apply comma_free_uint.
Qed.

Lemma comma_free_zeros n : comma_free (zeros n) = true.
Proof. induction n; simpl; auto. Qed.

Lemma comma_free_fixed_digits p n : comma_free (fixed_digits p n) = true.
Proof.
  unfold fixed_digits, zfill. rewrite comma_free_app, comma_free_decimal.
  destruct p; [reflexivity |].
  simpl. rewrite comma_free_app, comma_free_zeros, comma_free_decimal.
  reflexivity.
Qed.

Lemma comma_free_format_fixed p x : comma_free (format_fixed p x) = true.
Proof.
  unfold format_fixed.
  destruct (Prim2SF x) as [s | s | | s m e]; try reflexivity;
    rewrite comma_free_app; try rewrite comma_free_fixed_digits;
    destruct s; reflexivity.
Qed.

Lemma comma_free_format_d n : comma_free (format_d n) = true.
Proof.
  unfold format_d. rewrite comma_free_app, comma_free_decimal.
  destruct (n <? 0); reflexivity.
Qed.

(** Every field has a format, so every cell of a row is formatted by
    the table and holds no comma. *)
Lemma csv_cell_formatted float_str d f :
  exists spec text,
    dict_get _get_field_formats f = Some spec /\
    py_format spec (getattr d f) = Ok text /\
    csv_cell float_str d f = Ok text /\
    comma_free text = true.
Proof.
  destruct f; unfold csv_cell; simpl;
    eexists; eexists; (split; [reflexivity |]); (split; [reflexivity |]);
    (split; [reflexivity |]);
    first [apply comma_free_format_fixed | apply comma_free_format_d].
Qed.

Lemma csv_values_total float_str d fs :
  exists values,
    csv_values float_str d fs = Ok values /\
    map Ok values = map (csv_cell float_str d) fs /\
    Forall (fun s => comma_free s = true) values.
Proof.
  induction fs as [| f fs (values & E & M & C)]; simpl.
  - exists []. repeat split. constructor.
  - destruct (csv_cell_formatted float_str d f) as (spec & text & _ & _ & Ec & Hc).
    exists (text :: values). rewrite Ec, E. simpl.
    repeat split; [rewrite M; reflexivity | constructor; assumption].
Qed.

Lemma csv_header_names :
  split_commas csv_header = map field_name dataclass_fields.
Proof. vm_compute. reflexivity. Qed.

(** C5, as the code has it: the header is the comma-joined field names
    in declaration order, [timestamp_ms] first and then the 24 data
    fields of the six groups: 25 names. *)
Theorem csv_header_has_25_names :
  csv_header = join_commas (map field_name dataclass_fields) /\
  split_commas csv_header =
    [ "timestamp_ms"; "latitude_deg"; "longitude_deg"; "altitude_m_amsl";
      "altitude_m_rel"; "velocity_north_mps"; "velocity_east_mps";
      "velocity_down_mps"; "roll_deg"; "pitch_deg"; "yaw_deg";
      "q_w"; "q_x"; "q_y"; "q_z";
      "accel_body_x_m_per_s2"; "accel_body_y_m_per_s2"; "accel_body_z_m_per_s2";
      "angular_vel_body_x_rad_ps"; "angular_vel_body_y_rad_ps";
      "angular_vel_body_z_rad_ps";
      "motor_out"; "servo1_out"; "servo2_out"; "servo3_out" ]%string /\
  length (split_commas csv_header) = 25%nat /\
  filter (fun f => bool_decide (group_of f = None)) dataclass_fields
    = [fld_timestamp_ms] /\
  length (filter (fun f => bool_decide (is_Some (group_of f))) dataclass_fields)
    = 24%nat.
Proof. repeat split; vm_compute; reflexivity. Qed.

(** C5 as stated fails: the header holds 25 names, not 23, and 24 of
    them are data fields, not 22. *)
Lemma csv_header_not_23_names :
  length (split_commas csv_header) = 25%nat /\
  length (split_commas csv_header) <> 23%nat /\
  length (filter (fun f => bool_decide (f <> fld_timestamp_ms)) dataclass_fields)
    = 24%nat /\
  length (filter (fun f => bool_decide (f <> fld_timestamp_ms)) dataclass_fields)
    <> 22%nat.
Proof. repeat split; vm_compute; congruence. Qed.

(** C6: [to_csv_row] returns a row for every snapshot; split at the
    commas it has as many values as the header has names, and the value
    at each position is the formatted field whose name the header has at
    that position. *)
Theorem csv_row_matches_header (float_str : float -> string) (d : FcTelemetryData) :
  exists row,
    to_csv_row float_str d = Ok row /\
    length (split_commas row) = length (split_commas csv_header) /\
    split_commas csv_header = map field_name dataclass_fields /\
    map Ok (split_commas row) = map (csv_cell float_str d) dataclass_fields /\
    forall i name,
      split_commas csv_header !! i = Some name ->
      exists f spec text,
        dataclass_fields !! i = Some f /\
        field_name f = name /\
        dict_get _get_field_formats f = Some spec /\
        py_format spec (getattr d f) = Ok text /\
        split_commas row !! i = Some text.
Proof.
  destruct (csv_values_total float_str d dataclass_fields) as (values & E & M & C).
  assert (Hsplit : split_commas (join_commas values) = values).
  { apply split_join_commas; [| exact C].
    intros ->. discriminate M. }
  exists (join_commas values). unfold to_csv_row. rewrite E. cbn [result_bind].
  rewrite Hsplit, csv_header_names.
  assert (Hlen : length values = length dataclass_fields).
  { rewrite <- (length_map Ok values), M. apply length_map. }
  repeat split; [rewrite length_map; exact Hlen | exact M |].
  intros i name Hi.
  apply list_lookup_fmap_Some in Hi as (f & -> & Hf).
  destruct (csv_cell_formatted float_str d f) as (spec & text & Hs & Hp & Ec & _).
  exists f, spec, text. repeat split; try assumption.
  assert (Hm : map Ok values !! i = Some (Ok text)).
  { rewrite M. change (map ?g ?l) with (g <$> l).
    rewrite list_lookup_fmap, Hf. simpl. congruence. }
  change (map ?g ?l) with (g <$> l) in Hm.
  apply list_lookup_fmap_Some in Hm as (text' & [= ->] & Hv). exact Hv.
Qed.

(** ** The logger *)

Lemma opened_app a b : opened (a ++ b) = opened a ++ opened b.
Proof.
  induction a as [| ev a IH]; simpl; [reflexivity |].
  destruct ev; simpl; rewrite IH; reflexivity.
Qed.

Lemma closes_app fh a b : closes fh (a ++ b) = (closes fh a + closes fh b)%nat.
Proof.
  induction a as [| ev a IH]; simpl; [reflexivity |].
  destruct ev; simpl; try exact IH.
  destruct (decide (fh0 = fh)); simpl; rewrite IH; reflexivity.
Qed.

Lemma written_app fh a b : written fh (a ++ b) = written fh a ++ written fh b.
Proof.
  induction a as [| ev a IH]; simpl; [reflexivity |].
  destruct ev; simpl; try exact IH.
  destruct (decide (fh0 = fh)); simpl; rewrite IH; reflexivity.
Qed.

Lemma no_open_close_opened tr : no_open_close tr -> opened tr = [].
Proof.
  induction 1 as [| ev tr Hev _ IH]; simpl; [reflexivity |].
  destruct ev; simpl; try exact IH; contradiction.
Qed.

Lemma no_open_close_closes fh tr : no_open_close tr -> closes fh tr = 0%nat.
Proof.
  induction 1 as [| ev tr Hev _ IH]; simpl; [reflexivity |].
  destruct ev; simpl; try exact IH; contradiction.
Qed.

Lemma no_open_close_app a b :
  no_open_close a -> no_open_close b -> no_open_close (a ++ b).
Proof. apply Forall_app_2. Qed.

Ltac solve_no_open_close :=
  unfold no_open_close; repeat (constructor; simpl; try exact I).

Lemma log_row_try_events float_str lg fh t h :
  no_open_close (fst (snd (log_row_try float_str lg fh t h))).
Proof.
  unfold log_row_try.
  destruct (read_raises t); [solve_no_open_close |].
  destruct (get_latest_data _ _ _) as [l h'].
  destruct (to_csv_row _ _); [| solve_no_open_close].
  destruct (write_raises t); [solve_no_open_close |].
  destruct (sleep_raises t); solve_no_open_close.
Qed.

Lemma log_row_events float_str lg fh t h :
  no_open_close (fst (snd (log_row float_str lg fh t h))).
Proof.
  unfold log_row.
  pose proof (log_row_try_events float_str lg fh t h) as H.
  destruct (log_row_try _ _ _ _ _) as [h' [evs [e |]]]; simpl in *; [| exact H].
  destruct (is_Exception e); [| exact H].
  destruct (handler_sleep_raises t); simpl;
    (apply no_open_close_app; [exact H | solve_no_open_close]).
Qed.

(** The loop neither opens nor closes a file, and leaves the logger's
    handle as it is. *)
Lemma logging_loop_events float_str fh script : forall lg h,
  no_open_close (fst (snd (logging_loop float_str lg fh script h))) /\
  FcTelemetryLogger._file_handle
    (fst (snd (snd (logging_loop float_str lg fh script h))))
  = FcTelemetryLogger._file_handle lg.
Proof.
  induction script as [| t rest IH]; intros lg h; simpl.
  - destruct (FcTelemetryLogger._running lg); simpl; split;
      solve [constructor | reflexivity].
  - destruct (FcTelemetryLogger._running lg); simpl;
      [| split; [constructor | reflexivity]].
    pose proof (log_row_events float_str lg fh t h) as Hrow.
    destruct (log_row _ _ _ _ _) as [h' [evs [e |]]]; simpl in *;
      [split; [exact Hrow | reflexivity] |].
    specialize (IH (if stop_logging_called t then stop_logging lg else lg) h').
    destruct (logging_loop _ _ _ _ _) as [h'' [evs' [lg'' r]]]; simpl in *.
    destruct IH as [IH1 IH2]. split.
    + apply no_open_close_app; assumption.
    + rewrite IH2. destruct (stop_logging_called t); reflexivity.
Qed.

(** The outer [try]: when [open] raises, no file event happens and the
    logger's handle is the one it had; when [open] returns [fh], it is
    the first event, the handle is [fh], and the rest neither opens nor
    closes. *)
Lemma logging_try_shape float_str env lg h :
  let evs := fst (snd (logging_try float_str env lg h)) in
  let lg' := fst (snd (snd (logging_try float_str env lg h))) in
  let r := snd (snd (snd (logging_try float_str env lg h))) in
  match open_result env with
  | Raise e =>
      no_open_close evs /\ r = Escaped e /\
      FcTelemetryLogger._file_handle lg' = FcTelemetryLogger._file_handle lg
  | Ok fh =>
      exists rest,
        evs = EvOpen (FcTelemetryLogger._filename lg) fh :: rest /\
        no_open_close rest /\
        FcTelemetryLogger._file_handle lg' = Some fh
  end.
Proof.
  unfold logging_try. destruct (open_result env) as [fh | e].
  - destruct (header_write_raises env) as [e |]; cbn [fst snd].
    + eexists. split; [reflexivity |]. split; [solve_no_open_close | reflexivity].
    + pose proof (logging_loop_events float_str fh (ticks env)
                    (set_logger_file_handle fh lg) h) as [Hevs Hfh].
      destruct (logging_loop _ _ _ _ _) as [h' [evs [lg' r]]].
      cbn [fst snd] in *. eexists. split; [reflexivity |].
      split; [| exact Hfh].
      constructor; [exact I | exact Hevs].
  - cbn [fst snd]. repeat split. solve_no_open_close.
Qed.

Lemma logging_finally_closes env lg r fh :
  FcTelemetryLogger._file_handle lg = Some fh ->
  exists flushing after,
    fst (logging_finally env lg r) = flushing ++ EvClose fh :: after /\
    no_open_close flushing /\
    no_open_close after /\ written fh after = [].
Proof.
  intros Hfh. unfold logging_finally. rewrite Hfh.
  destruct (close_raises env) as [e |]; cbn [fst].
  - exists [EvFlushRaised fh e (close_reaches env)], [].
    split; [reflexivity |].
    split; [solve_no_open_close | split; [constructor | reflexivity]].
  - exists []. eexists. split; [reflexivity |].
    split; [constructor | split; [solve_no_open_close | reflexivity]].
Qed.

Lemma logging_finally_no_open env lg r :
  opened (fst (logging_finally env lg r)) = [].
Proof.
  unfold logging_finally.
  destruct (FcTelemetryLogger._file_handle lg); [| reflexivity].
  destruct (close_raises env); reflexivity.
Qed.

(** C3: when [start_logging] is over, by the flag, by an exception out
    of the loop or by a failing [open], either no file was opened, or
    one was, and it was closed once, after which nothing is written to
    it. *)
Theorem start_logging_closes_once (float_str : float -> string) (env : sink_env)
  (lg : FcTelemetryLogger.t) (h : heap) :
  let tr := fst (snd (start_logging float_str env lg h)) in
  let r := snd (snd (snd (start_logging float_str env lg h))) in
  r <> Suspended ->
  opened tr = [] \/
  exists fh before after,
    open_result env = Ok fh /\
    opened tr = [fh] /\ closes fh tr = 1%nat /\
    tr = before ++ EvClose fh :: after /\
    opened before = [fh] /\ closes fh before = 0%nat /\
    written fh after = [] /\ no_open_close after.
Proof.
  intros tr r. subst tr r. unfold start_logging.
  destruct (py_truediv 1 _) as [hz | e]; [| left; reflexivity].
  set (starting := EvLog (LogInfo _)).
  assert (Hstart : no_open_close [starting]) by solve_no_open_close.
  clearbody starting.
  set (lg1 := set_logger_running true lg).
  pose proof (logging_try_shape float_str env lg1 h) as Hshape.
  destruct (logging_try float_str env lg1 h) as [h' [evs [lg' r]]].
  cbn [fst snd] in Hshape.
  set (caught := match r with
                 | Escaped e => if is_Exception e then _ else _
                 | _ => _
                 end).
  assert (Hcaught : no_open_close (fst caught)).
  { subst caught. destruct r as [| | e]; try constructor.
    destruct (is_Exception e); solve_no_open_close. }
  destruct (open_result env) as [fh | e] eqn:Eopen.
  - destruct Hshape as (rest & -> & Hrest & Hfh).
    destruct r as [| | e]; cbn [fst snd]; [congruence | |]; intros _; right.
    all: destruct caught as [cevs r'] eqn:Ecaught; cbn [fst] in Hcaught.
    all: destruct (logging_finally_closes env lg' r' fh Hfh)
           as (flushing & after & Eclose & Hflushing & Hafter & Hwritten).
    all: destruct (logging_finally env lg' r') as [closing r''];
           cbn [fst snd] in *; subst closing.
    all: pose proof (no_open_close_app _ _ Hcaught Hflushing) as Hcaught'.
    all: rewrite (app_assoc cevs flushing).
    all: clear Hcaught; revert Hcaught'; generalize (cevs ++ flushing).
    all: clear Ecaught cevs; intros cevs Hcaught.
    all: exists fh, (starting :: (EvOpen (FcTelemetryLogger._filename lg1) fh :: rest)
                       ++ cevs), after.
    all: assert (Hbefore : opened (starting :: (EvOpen (FcTelemetryLogger._filename lg1) fh
                                                   :: rest) ++ cevs) = [fh] /\
                           closes fh (starting :: (EvOpen (FcTelemetryLogger._filename lg1) fh
                                                     :: rest) ++ cevs) = 0%nat).
    all: try (change (starting :: ?l) with ([starting] ++ l);
              rewrite !opened_app, !closes_app;
              rewrite (no_open_close_opened _ Hstart), (no_open_close_opened _ Hcaught),
                (no_open_close_closes _ _ Hstart), (no_open_close_closes _ _ Hcaught);
              cbn [opened closes app];
              rewrite (no_open_close_opened _ Hrest), (no_open_close_closes _ _ Hrest);
              split; reflexivity).
    all: destruct Hbefore as [Hob Hcb].
    all: assert (Etr : starting :: (EvOpen (FcTelemetryLogger._filename lg1) fh :: rest)
                         ++ cevs ++ EvClose fh :: after
                       = (starting :: (EvOpen (FcTelemetryLogger._filename lg1) fh :: rest)
                            ++ cevs) ++ EvClose fh :: after)
           by (rewrite app_comm_cons, app_assoc; reflexivity).
    all: rewrite Etr, opened_app, closes_app, Hob, Hcb.
    all: cbn [opened closes]; rewrite decide_True by reflexivity.
    all: rewrite (no_open_close_opened _ Hafter), (no_open_close_closes _ _ Hafter).
    all: repeat split; try reflexivity; assumption.
  - destruct Hshape as (Hevs & -> & Hfh). cbn [fst snd]. intros _. left.
    destruct caught as [cevs r'] eqn:Ecaught; cbn [fst] in Hcaught.
    pose proof (logging_finally_no_open env lg' r') as Hfin.
    destruct (logging_finally env lg' r') as [closing r'']; cbn [fst snd] in *.
    change (starting :: ?l) with ([starting] ++ l).
    rewrite !opened_app, Hfin, (no_open_close_opened _ Hstart),
      (no_open_close_opened _ Hevs), (no_open_close_opened _ Hcaught).
    reflexivity.
Qed.

Lemma start_logging_closes_once_witness :
  let tr := fst (snd (start_logging no_float_str sample_env (sample_logger false)
                        sample_heap)) in
  opened tr = [] \/
  exists fh before after,
    open_result sample_env = Ok fh /\
    opened tr = [fh] /\ closes fh tr = 1%nat /\
    tr = before ++ EvClose fh :: after /\
    opened before = [fh] /\ closes fh before = 0%nat /\
    written fh after = [] /\ no_open_close after.
Proof.
  apply (start_logging_closes_once no_float_str sample_env (sample_logger false)
           sample_heap).
  vm_compute. discriminate.
Defined.

(** The three ways out of [start_logging], each on a run: the flag, an
    exception that leaves the loop, a failing [open]. *)
Example start_logging_stopped_by_flag :
  let run := snd (start_logging no_float_str sample_env (sample_logger false)
                    sample_heap) in
  snd (snd run) = Returned /\
  opened (fst run) = [7%positive] /\ closes 7%positive (fst run) = 1%nat /\
  length (written 7%positive (fst run)) = 3%nat /\
  logged_exceptions (fst run) = [OSError].
Proof. vm_compute. repeat split. Qed.

Example start_logging_cancelled :
  let run := snd (start_logging no_float_str cancelled_env (sample_logger false)
                    sample_heap) in
  snd (snd run) = Escaped CancelledError /\
  opened (fst run) = [7%positive] /\ closes 7%positive (fst run) = 1%nat /\
  length (written 7%positive (fst run)) = 3%nat.
Proof. vm_compute. repeat split. Qed.

Example start_logging_open_fails :
  let run := snd (start_logging no_float_str failing_open_env (sample_logger false)
                    sample_heap) in
  snd (snd run) = Returned /\
  opened (fst run) = [] /\ closes 7%positive (fst run) = 0%nat /\
  logged_exceptions (fst run) = [OSError].
Proof. vm_compute. repeat split. Qed.

(** A row is produced for every snapshot. *)
Lemma to_csv_row_total float_str d : exists row, to_csv_row float_str d = Ok row.
Proof.
  destruct (csv_values_total float_str d dataclass_fields) as (values & E & _).
  unfold to_csv_row. rewrite E. eexists. reflexivity.
Qed.

(** A pass in which the read raises an [Exception]: the handler logs
    it and sleeps. *)
Lemma log_row_read_failed float_str lg fh t h e :
  read_raises t = Some e ->
  is_Exception e = true ->
  handler_sleep_raises t = None ->
  log_row float_str lg fh t h =
    (h, ([EvLog (LogException "Error logging telemetry data" e);
          EvSleep (FcTelemetryLogger._log_interval lg)], None)).
Proof.
  intros Hfail He Hsleep. unfold log_row, log_row_try.
  rewrite Hfail, He, Hsleep. reflexivity.
Qed.

(** A pass in which the write raises an [Exception]: the call is made
    with the row, then the handler logs the exception and sleeps. *)
Lemma log_row_write_failed float_str lg fh t h e :
  read_raises t = None -> write_raises t = Some e ->
  is_Exception e = true ->
  handler_sleep_raises t = None ->
  exists row,
    to_csv_row float_str
      (snd (get_latest_data (FcTelemetryLogger._collector lg) (time_time t) h)
         !!! fst (get_latest_data (FcTelemetryLogger._collector lg) (time_time t) h))
    = Ok row /\
    snd (log_row float_str lg fh t h) =
      ([EvWriteRaised fh (row ++ newline) e
          (write_reaches t) (write_keeps_from t) (write_keeps t);
        EvLog (LogException "Error logging telemetry data" e);
        EvSleep (FcTelemetryLogger._log_interval lg)], None).
Proof.
  intros Hr Hw He Hsleep. unfold log_row, log_row_try. rewrite Hr, Hw.
  destruct (get_latest_data _ _ _) as [l h']. cbn [fst snd].
  destruct (to_csv_row_total float_str (h' !!! l)) as [row Erow].
  exists row. rewrite Erow, He, Hsleep. split; reflexivity.
Qed.

(** A pass in which nothing raises writes one row. *)
Lemma log_row_quiet float_str lg fh t h :
  quiet t ->
  exists row,
    to_csv_row float_str
      (snd (get_latest_data (FcTelemetryLogger._collector lg) (time_time t) h)
         !!! fst (get_latest_data (FcTelemetryLogger._collector lg) (time_time t) h))
    = Ok row /\
    snd (log_row float_str lg fh t h) =
      ([EvWrite fh (row ++ newline);
        EvSleep (FcTelemetryLogger._log_interval lg)], None).
Proof.
  intros (Hr & Hw & Hs). unfold log_row, log_row_try. rewrite Hr, Hw, Hs.
  destruct (get_latest_data _ _ _) as [l h']. cbn [fst snd].
  destruct (to_csv_row_total float_str (h' !!! l)) as [row Erow].
  exists row. rewrite Erow. split; reflexivity.
Qed.

Lemma logging_loop_step float_str lg fh t rest h evs :
  FcTelemetryLogger._running lg = true ->
  snd (log_row float_str lg fh t h) = (evs, None) ->
  let lg' := if stop_logging_called t then stop_logging lg else lg in
  let h' := fst (log_row float_str lg fh t h) in
  snd (logging_loop float_str lg fh (t :: rest) h) =
    (evs ++ fst (snd (logging_loop float_str lg' fh rest h')),
     snd (snd (logging_loop float_str lg' fh rest h'))).
Proof.
  intros Hrun Hrow. cbn [logging_loop]. rewrite Hrun. cbn [negb].
  destruct (log_row float_str lg fh t h) as [h1 [evs1 o]].
  cbn [fst snd] in *. injection Hrow as -> ->.
  destruct (logging_loop _ _ _ _ _) as [h2 [evs2 r]]. reflexivity.
Qed.

Lemma file_after_app fh a b st :
  file_after fh (a ++ b) st = file_after fh b (file_after fh a st).
Proof. apply fold_left_app. Qed.

(** C4, as the code has it: a pass of the logger's loop in which the
    read or the write raises an [Exception] logs it and goes on to the
    next pass, and no call of [write] returns in it.  When it is the
    read that raises, nothing gets to the file in that pass.  When it
    is the write, the call was made with the row: of the buffered text
    and the row, the characters the failing call handed over are in the
    file, and those it kept are in the buffer.  A next pass in which
    nothing raises writes its row: the file then holds what the buffer
    kept, followed by that row, and the buffer is empty. *)
Theorem failed_row_is_skipped (float_str : float -> string)
  (lg : FcTelemetryLogger.t) (fh : handle) (t : tick) (rest : list tick)
  (h : heap) (e : exn) :
  FcTelemetryLogger._running lg = true ->
  read_raises t = Some e \/ (read_raises t = None /\ write_raises t = Some e) ->
  is_Exception e = true ->
  handler_sleep_raises t = None ->
  let lg' := if stop_logging_called t then stop_logging lg else lg in
  let h' := fst (log_row float_str lg fh t h) in
  let pass := fst (snd (log_row float_str lg fh t h)) in
  let run := snd (logging_loop float_str lg fh (t :: rest) h) in
  let next := snd (logging_loop float_str lg' fh rest h') in
  fst run = pass ++ fst next /\
  snd run = snd next /\
  logged_exceptions pass = [e] /\
  written fh pass = [] /\
  (read_raises t = Some e -> forall st, file_after fh pass st = st) /\
  (read_raises t = None ->
   exists row,
     to_csv_row float_str
       (snd (get_latest_data (FcTelemetryLogger._collector lg) (time_time t) h)
          !!! fst (get_latest_data (FcTelemetryLogger._collector lg) (time_time t) h))
     = Ok row /\
     forall st,
       let data := (buffered st ++ row ++ newline)%string in
       file_after fh pass st
       = {| on_disk := (on_disk st ++ take_chars (write_reaches t) data)%string;
            buffered := take_chars (write_keeps t)
                          (drop_chars (write_keeps_from t) data) |}) /\
  forall t2 rest',
    rest = t2 :: rest' -> stop_logging_called t = false -> quiet t2 ->
    exists row2 more,
      fst next = EvWrite fh (row2 ++ newline) :: more /\
      written fh (fst run) = (row2 ++ newline)%string :: written fh more /\
      forall st,
        let st1 := file_after fh pass st in
        file_after fh (pass ++ [EvWrite fh (row2 ++ newline)]) st
        = {| on_disk := (on_disk st1 ++ buffered st1 ++ row2 ++ newline)%string;
             buffered := EmptyString |}.
Proof.
  intros Hrun Hfail He Hsleep lg' h' pass run next.
  assert (Hpass : snd (log_row float_str lg fh t h) = (pass, None) /\
                  logged_exceptions pass = [e] /\ written fh pass = []).
  { subst pass. destruct Hfail as [Hr | [Hr Hw]].
    - rewrite (log_row_read_failed float_str lg fh t h e Hr He Hsleep).
      repeat split.
    - destruct (log_row_write_failed float_str lg fh t h e Hr Hw He Hsleep)
        as (row & _ & ->).
      repeat split. }
  destruct Hpass as (Hrow & Hlogged & Hwritten).
  pose proof (logging_loop_step float_str lg fh t rest h _ Hrun Hrow) as Hstep.
  fold lg' h' run next in Hstep.
  assert (E1 : fst run = pass ++ fst next) by (rewrite Hstep; reflexivity).
  split; [exact E1 | split; [rewrite Hstep; reflexivity |]].
  split; [exact Hlogged | split; [exact Hwritten |]].
  split; [| split].
  - intros Hr st. subst pass.
    rewrite (log_row_read_failed float_str lg fh t h e Hr He Hsleep). reflexivity.
  - intros Hr. destruct Hfail as [Hr' | [_ Hw]]; [congruence |].
    destruct (log_row_write_failed float_str lg fh t h e Hr Hw He Hsleep)
      as (row & Erow & Epass).
    exists row. split; [exact Erow |]. intros st data. subst pass data.
    rewrite Epass. cbn [fst file_after fold_left file_step].
    rewrite decide_True by reflexivity. reflexivity.
  - intros t2 rest' -> Hstop Hquiet.
    destruct (log_row_quiet float_str lg fh t2 h' Hquiet) as (row2 & _ & Hrow2).
    assert (Enext : fst next
                    = [EvWrite fh (row2 ++ newline);
                       EvSleep (FcTelemetryLogger._log_interval lg)]
                      ++ fst (snd (logging_loop float_str
                                     (if stop_logging_called t2
                                      then stop_logging lg else lg) fh rest'
                                     (fst (log_row float_str lg fh t2 h'))))).
    { subst next lg'. rewrite Hstop.
      rewrite (logging_loop_step float_str lg fh t2 rest' h' _ Hrun Hrow2).
      reflexivity. }
    exists row2. eexists. split; [rewrite Enext; reflexivity |]. split.
    + rewrite E1, written_app, Hwritten, Enext. cbn [app written].
      rewrite decide_True by reflexivity. reflexivity.
    + intros st st1. rewrite file_after_app. fold st1.
      cbn [file_after fold_left file_step].
      rewrite decide_True by reflexivity. reflexivity.
Qed.

Lemma failed_row_is_skipped_witness :
  let lg := sample_logger true in
  let t := failing_write_tick 11 in
  let rest := [quiet_tick 12 true] in
  let h' := fst (log_row no_float_str lg 7%positive t sample_heap) in
  let pass := fst (snd (log_row no_float_str lg 7%positive t sample_heap)) in
  let run := snd (logging_loop no_float_str lg 7%positive (t :: rest) sample_heap) in
  let next := snd (logging_loop no_float_str lg 7%positive rest h') in
  fst run = pass ++ fst next /\
  snd run = snd next /\
  logged_exceptions pass = [OSError] /\
  written 7%positive pass = [].
Proof.
  pose proof (failed_row_is_skipped no_float_str (sample_logger true) 7%positive
                (failing_write_tick 11) [quiet_tick 12 true] sample_heap OSError
                eq_refl (or_intror (conj eq_refl eq_refl)) eq_refl eq_refl) as H.
  cbv zeta in H. destruct H as (H1 & H2 & H3 & H4 & _).
  repeat split; assumption.
Defined.

(** C4 as stated fails when it is the write that raises.  The second
    of two passes is quiet; in the first, [write] raises [OSError]
    after five characters of the row got to the file.  The exception is
    logged and the loop goes on, but the row is not dropped: its first
    characters are in the file at once, and the next pass flushes what
    the buffer kept ahead of its own row.  When the file had taken a
    short write, the buffer kept the rest, and the file then holds the
    whole row of the failed pass, followed by the row of the next.
    When the write failed half way, the buffer kept the whole row, and
    the file then holds the five characters, the whole row of the
    failed pass and the row of the next. *)
Lemma failed_write_reaches_file_counterexample :
  let lg := sample_logger true in
  let run t :=
    snd (logging_loop no_float_str lg 7%positive [t; quiet_tick 12 true] sample_heap) in
  let pass t := fst (snd (log_row no_float_str lg 7%positive t sample_heap)) in
  exists row11 row12,
    to_csv_row no_float_str
      (dataclasses_replace_timestamp_ms (FcTelemetryData_init 5) 11000) = Ok row11 /\
    to_csv_row no_float_str
      (dataclasses_replace_timestamp_ms (FcTelemetryData_init 5) 12000) = Ok row12 /\
    sample_heap !! 1%positive = Some (FcTelemetryData_init 5) /\
    write_raises (failing_write_tick 11) = Some OSError /\
    write_raises (torn_write_tick 11) = Some OSError /\
    logged_exceptions (pass (failing_write_tick 11)) = [OSError] /\
    logged_exceptions (pass (torn_write_tick 11)) = [OSError] /\
    snd (snd (run (failing_write_tick 11))) = Returned /\
    snd (snd (run (torn_write_tick 11))) = Returned /\
    on_disk (file_after 7%positive (pass (failing_write_tick 11)) new_file)
    = "11000"%string /\
    on_disk (file_after 7%positive (pass (torn_write_tick 11)) new_file)
    = "11000"%string /\
    on_disk (file_after 7%positive (fst (run (failing_write_tick 11))) new_file)
    = (row11 ++ newline ++ row12 ++ newline)%string /\
    on_disk (file_after 7%positive (fst (run (torn_write_tick 11))) new_file)
    = ("11000" ++ row11 ++ newline ++ row12 ++ newline)%string.
Proof.
  vm_compute. do 2 eexists. repeat split.
Qed.

(** ** Stopping *)

Lemma stream_loop_stopped {A} (body : FcTelemetryCollector -> A -> Py unit)
  msg c a rest h :
  _running c = false ->
  stream_loop body msg c (Yield a :: rest) h = (h, ([], Returned)).
Proof. intros Hc. cbn [stream_loop]. rewrite Hc. reflexivity. Qed.

Lemma logging_loop_stopped float_str lg fh script h :
  FcTelemetryLogger._running lg = false ->
  logging_loop float_str lg fh script h = (h, ([], (lg, Returned))).
Proof. intros Hlg. destruct script; cbn [logging_loop]; rewrite Hlg; reflexivity. Qed.

(** While [stop_logging] is not called and nothing raises, the logger
    writes a row in every pass and is still in its loop. *)
Lemma logging_loop_keeps_running float_str fh script : forall lg h,
  FcTelemetryLogger._running lg = true ->
  Forall (fun t => quiet t /\ stop_logging_called t = false) script ->
  snd (snd (snd (logging_loop float_str lg fh script h))) = Suspended /\
  length (written fh (fst (snd (logging_loop float_str lg fh script h))))
  = length script.
Proof.
  induction script as [| t rest IH]; intros lg h Hrun Hall.
  - cbn [logging_loop]. rewrite Hrun. split; reflexivity.
  - inversion Hall as [| ? ? [Hq Hstop] Hrest]; subst.
    destruct (log_row_quiet float_str lg fh t h Hq) as (row & _ & Hrow).
    rewrite (logging_loop_step float_str lg fh t rest h _ Hrun Hrow).
    rewrite Hstop. cbn [fst snd].
    destruct (IH lg (fst (log_row float_str lg fh t h)) Hrun Hrest) as [IH1 IH2].
    split; [exact IH1 |].
    cbn [app written]. rewrite decide_True by reflexivity.
    cbn [length]. rewrite IH2. reflexivity.
Qed.

(** The printer consults no flag: while nothing raises it reads in every
    pass and is still in its loop. *)
Lemma print_loop_keeps_running c interval script : forall h,
  Forall print_quiet script ->
  snd (snd (print_loop c interval script h)) = Suspended.
Proof.
  induction script as [| t rest IH]; intros h Hall; [reflexivity |].
  inversion Hall as [| ? ? [Hr Hs] Hrest]; subst.
  cbn [print_loop]. unfold print_try. rewrite Hr, Hs.
  destruct (get_latest_data c (print_time t) h) as [l h'].
  specialize (IH h' Hrest).
  destruct (print_loop c interval rest h') as [h'' [evs r]]. exact IH.
Qed.

(** C9, as the code has it: there are two flags and the printer has
    none.  Once [stop] has cleared the collector's flag, each of the six
    ingestors returns when its next record arrives, writing nothing.
    The logger leaves its loop at the next test of its own flag, which
    [stop_logging] clears and [stop] does not: with the collector
    stopped it goes on writing.  The printer goes on whatever the
    flags. *)
Theorem stop_flags_are_per_task :
  (forall c h,
      (forall a rest, _position_stream (stop c) (Yield a :: rest) h = (h, ([], Returned))) /\
      (forall a rest, _velocity_stream (stop c) (Yield a :: rest) h = (h, ([], Returned))) /\
      (forall a rest, _attitude_euler_stream (stop c) (Yield a :: rest) h
                 = (h, ([], Returned))) /\
      (forall a rest, _attitude_quaternion_stream (stop c) (Yield a :: rest) h
                 = (h, ([], Returned))) /\
      (forall a rest, _imu_stream (stop c) (Yield a :: rest) h = (h, ([], Returned))) /\
      (forall a rest, _actuator_output_stream (stop c) (Yield a :: rest) h
                 = (h, ([], Returned)))) /\
  (forall A (body : FcTelemetryCollector -> A -> Py unit) msg c a rest h,
      stream_loop body msg c (StopCalled :: Yield a :: rest) h = (h, ([], Returned))) /\
  (forall float_str lg fh script h,
      logging_loop float_str (stop_logging lg) fh script h
      = (h, ([], (stop_logging lg, Returned)))) /\
  (forall float_str lg fh t rest h evs,
      FcTelemetryLogger._running lg = true ->
      stop_logging_called t = true ->
      snd (log_row float_str lg fh t h) = (evs, None) ->
      snd (logging_loop float_str lg fh (t :: rest) h)
      = (evs, (stop_logging lg, Returned))) /\
  (forall float_str lg fh script h,
      FcTelemetryLogger._running lg = true ->
      _running (FcTelemetryLogger._collector lg) = false ->
      Forall (fun t => quiet t /\ stop_logging_called t = false) script ->
      snd (snd (snd (logging_loop float_str lg fh script h))) = Suspended /\
      length (written fh (fst (snd (logging_loop float_str lg fh script h))))
      = length script) /\
  (forall c interval script h,
      Forall print_quiet script ->
      snd (snd (print_loop c interval script h)) = Suspended).
Proof.
  split; [| split; [| split; [| split; [| split]]]].
  - intros c h. repeat split; intros a rest; apply stream_loop_stopped; reflexivity.
  - intros A body msg c a rest h. cbn [stream_loop]. reflexivity.
  - intros. apply logging_loop_stopped. reflexivity.
  - intros float_str lg fh t rest h evs Hrun Hstop Hrow.
    rewrite (logging_loop_step float_str lg fh t rest h _ Hrun Hrow).
    rewrite Hstop, logging_loop_stopped by reflexivity.
    cbn [fst snd]. rewrite app_nil_r. reflexivity.
  - intros float_str lg fh script h Hrun _ Hall.
    apply logging_loop_keeps_running; assumption.
  - intros. apply print_loop_keeps_running. assumption.
Qed.

(** C9 as stated fails: with the collector stopped, the logger writes
    the rows of two more passes and the printer reads in two more
    passes, both still in their loops; and the printer does so with the
    logger's flag cleared as well. *)
Lemma stop_does_not_reach_logger_and_printer :
  let c := stop sample_collector in
  let lg := set_logger_running true
              {| FcTelemetryLogger._collector := c;
                 FcTelemetryLogger._filename := "fc_telemetry_log.csv";
                 FcTelemetryLogger._log_interval := 0.125;
                 FcTelemetryLogger._running := false;
                 FcTelemetryLogger._file_handle := Some 7%positive |} in
  let logged := snd (logging_loop no_float_str lg 7%positive
                       [quiet_tick 10 false; quiet_tick 11 false] sample_heap) in
  let printed := snd (print_loop (FcTelemetryLogger._collector (stop_logging lg)) 1
                        [quiet_print_tick 10; quiet_print_tick 11] sample_heap) in
  _running c = false /\
  snd (snd logged) = Suspended /\
  length (written 7%positive (fst logged)) = 2%nat /\
  snd printed = Suspended /\
  length (fst printed) = 20%nat.
Proof. vm_compute. repeat split. Qed.

Lemma stop_flags_are_per_task_witness :
  let lg := sample_logger true in
  let script := [quiet_tick 10 true; quiet_tick 11 false] in
  snd (logging_loop no_float_str lg 7%positive script sample_heap)
  = (fst (snd (log_row no_float_str lg 7%positive (quiet_tick 10 true) sample_heap)),
     (stop_logging lg, Returned)).
Proof.
  apply (proj1 (proj2 (proj2 (proj2 stop_flags_are_per_task)))
           no_float_str (sample_logger true) 7%positive (quiet_tick 10 true)
           [quiet_tick 11 false] sample_heap).
  - reflexivity.
  - reflexivity.
  - vm_compute. reflexivity.
Defined.

(** ** Further properties *)

(** Once [stop_logging] is called during some pass, the loop is left
    for good: by the flag, or earlier by an exception. *)
Lemma logging_loop_over float_str fh script : forall lg h,
  Exists (fun t => stop_logging_called t = true) script ->
  snd (snd (snd (logging_loop float_str lg fh script h))) <> Suspended.
Proof.
  induction script as [| t rest IH]; intros lg h Hex; [inversion Hex |].
  cbn [logging_loop].
  destruct (FcTelemetryLogger._running lg) eqn:Hrun; cbn [negb];
    [| discriminate].
  destruct (log_row float_str lg fh t h) as [h' [evs [e |]]]; [discriminate |].
  destruct (stop_logging_called t) eqn:Hstop.
  - rewrite logging_loop_stopped by reflexivity. discriminate.
  - inversion Hex as [? ? Ht | ? ? Hrest]; subst; [congruence |].
    specialize (IH lg h' Hrest).
    destruct (logging_loop float_str lg fh rest h') as [h'' [evs' [lg'' r]]].
    exact IH.
Qed.

(** The logger terminates: if [stop_logging] is called during one of the
    passes the world allows, [start_logging] returns or raises. *)
Theorem start_logging_ends_after_stop (float_str : float -> string)
  (env : sink_env) (lg : FcTelemetryLogger.t) (h : heap) :
  Exists (fun t => stop_logging_called t = true) (ticks env) ->
  let r := snd (snd (snd (start_logging float_str env lg h))) in
  r = Returned \/ exists e, r = Escaped e.
Proof.
  intros Hex r.
  assert (Hr : r <> Suspended).
  { subst r. unfold start_logging.
    destruct (py_truediv 1 _) as [hz | e]; [| discriminate].
    set (starting := EvLog (LogInfo _)). clearbody starting.
    assert (Htry : snd (snd (snd (logging_try float_str env
                                    (set_logger_running true lg) h))) <> Suspended).
    { unfold logging_try. destruct (open_result env) as [fh | e]; [| discriminate].
      destruct (header_write_raises env); [discriminate |].
      pose proof (logging_loop_over float_str fh (ticks env)
                    (set_logger_file_handle fh (set_logger_running true lg)) h Hex).
      destruct (logging_loop _ _ _ _ _) as [h' [evs [lg' r']]]. assumption. }
    destruct (logging_try _ _ _ _) as [h' [evs [lg' r']]]. cbn [fst snd] in *.
    destruct r' as [| | e]; [congruence | |]; unfold logging_finally.
    - destruct (FcTelemetryLogger._file_handle lg'); [| discriminate].
      destruct (close_raises env); discriminate.
    - destruct (is_Exception e), (FcTelemetryLogger._file_handle lg');
        try discriminate; destruct (close_raises env); discriminate. }
  destruct r; [congruence | left; reflexivity | right; eexists; reflexivity].
Qed.

Lemma start_logging_ends_after_stop_witness :
  let r := snd (snd (snd (start_logging no_float_str sample_env (sample_logger false)
                            sample_heap))) in
  r = Returned \/ exists e, r = Escaped e.
Proof.
  apply (start_logging_ends_after_stop no_float_str sample_env (sample_logger false)
           sample_heap).
  apply Exists_cons_tl, Exists_cons_tl, Exists_cons_hd. reflexivity.
Defined.

(** Each ingestor stores the values of the record it receives in the
    fields of its own group. *)
Theorem ingestor_update_writes_own_group (c : FcTelemetryCollector) (h : heap)
  (d : FcTelemetryData) :
  h !! _current_data c = Some d ->
  (forall position, exists d',
      fst (position_body c position h) !! _current_data c = Some d' /\
      latitude_deg d' = mavsdk.latitude_deg position /\
      longitude_deg d' = mavsdk.longitude_deg position /\
      altitude_m_amsl d' = mavsdk.absolute_altitude_m position /\
      altitude_m_rel d' = mavsdk.relative_altitude_m position) /\
  (forall velocity, exists d',
      fst (velocity_body c velocity h) !! _current_data c = Some d' /\
      velocity_north_mps d' = mavsdk.north_m_s velocity /\
      velocity_east_mps d' = mavsdk.east_m_s velocity /\
      velocity_down_mps d' = mavsdk.down_m_s velocity) /\
  (forall attitude, exists d',
      fst (attitude_euler_body c attitude h) !! _current_data c = Some d' /\
      roll_deg d' = mavsdk.roll_deg attitude /\
      pitch_deg d' = mavsdk.pitch_deg attitude /\
      yaw_deg d' = mavsdk.yaw_deg attitude) /\
  (forall attitude, exists d',
      fst (attitude_quaternion_body c attitude h) !! _current_data c = Some d' /\
      q_w d' = mavsdk.w attitude /\ q_x d' = mavsdk.x attitude /\
      q_y d' = mavsdk.y attitude /\ q_z d' = mavsdk.z attitude) /\
  (forall imu, exists d',
      fst (imu_body c imu h) !! _current_data c = Some d' /\
      accel_body_x_m_per_s2 d' = mavsdk.forward_m_s2 (mavsdk.acceleration_frd imu) /\
      accel_body_y_m_per_s2 d' = mavsdk.right_m_s2 (mavsdk.acceleration_frd imu) /\
      accel_body_z_m_per_s2 d' = mavsdk.down_m_s2 (mavsdk.acceleration_frd imu) /\
      angular_vel_body_x_rad_ps d'
        = mavsdk.forward_rad_s (mavsdk.angular_velocity_frd imu) /\
      angular_vel_body_y_rad_ps d'
        = mavsdk.right_rad_s (mavsdk.angular_velocity_frd imu) /\
      angular_vel_body_z_rad_ps d'
        = mavsdk.down_rad_s (mavsdk.angular_velocity_frd imu)).
Proof.
  intros Hd.
  repeat split; intros r;
    unfold position_body, velocity_body, attitude_euler_body,
      attitude_quaternion_body, imu_body, mbind, Py_bind, bind, assign;
    cbn [fst snd]; rewrite !lookup_alter_eq, Hd; cbn [fmap option_fmap option_map];
    eexists; (split; [reflexivity |]); destruct d; cbn; repeat split; reflexivity.
Qed.

Lemma ingestor_update_writes_own_group_witness :
  exists d',
    fst (position_body sample_collector sample_position sample_heap) !! 1%positive
    = Some d' /\
    latitude_deg d' = 32.5%float /\ longitude_deg d' = 34.75%float /\
    altitude_m_amsl d' = 120%float /\ altitude_m_rel d' = 20%float.
Proof.
  refine (proj1 (ingestor_update_writes_own_group sample_collector sample_heap
                   (FcTelemetryData_init 5) _) sample_position).
  vm_compute. reflexivity.
Defined.

(** The row of a snapshot that holds the defaults, read at 5 s. *)
Example to_csv_row_of_defaults :
  to_csv_row no_float_str
    (dataclasses_replace_timestamp_ms (FcTelemetryData_init 5) (5 * 1000)%float)
  = Ok ("5000.000,0.00000000,0.00000000,0.00,0.00,0.000,0.000,0.000,"
        ++ "0.00,0.00,0.00,1.0000,0.0000,0.0000,0.0000,0.000,0.000,0.000,"
        ++ "0.0000,0.0000,0.0000,0,0,0,0")%string.
Proof. vm_compute. reflexivity. Qed.

(** A whole run of a stream loop touches the snapshot only in the fields
    its body writes. *)
Lemma stream_loop_frame {A} (body : FcTelemetryCollector -> A -> Py unit)
  (msg : string) (g : Channel) :
  (forall c a, writes_only g (_current_data c) (body c a)) ->
  forall events c h d,
    h !! _current_data c = Some d ->
    exists d',
      fst (stream_loop body msg c events h) !! _current_data c = Some d' /\
      forall f, group_of f <> Some g -> getattr d' f = getattr d f.
Proof.
  intros Hbody events.
  induction events as [| ev rest IH]; intros c h d Hd; cbn [stream_loop].
  - exists d. split; [exact Hd | reflexivity].
  - destruct ev as [a | e | |]; cbn [fst];
      try (exists d; split; [exact Hd | reflexivity]).
    + destruct (_running c); cbn [negb fst];
        [| exists d; split; [exact Hd | reflexivity]].
      destruct (Hbody c a h) as (u & Eu & Fu).
      destruct (body c a h) as [h1 [[] | e]]; cbn [fst] in *; subst h1.
      * destruct (IH c (alter u (_current_data c) h) (u d)) as (d' & Hd' & F').
        { rewrite lookup_alter_eq, Hd. reflexivity. }
        exists d'. split; [exact Hd' |].
        intros f Hf. rewrite F' by exact Hf. apply Fu, Hf.
      * exists (u d). split; [| intros f; apply Fu].
        rewrite lookup_alter_eq, Hd. reflexivity.
    + apply (IH (stop c) h d Hd).
Qed.

(** Whatever its source yields, raises or ends with, and whenever [stop]
    is called, the run of each of the six stream loops leaves the fields
    of the other groups and [timestamp_ms] as they were. *)
Theorem stream_runs_disjoint (c : FcTelemetryCollector) (h : heap)
  (d : FcTelemetryData) (f : Field) :
  h !! _current_data c = Some d ->
  (forall events, group_of f <> Some ChPosition ->
     getattr (fst (_position_stream c events h) !!! _current_data c) f
     = getattr d f) /\
  (forall events, group_of f <> Some ChVelocity ->
     getattr (fst (_velocity_stream c events h) !!! _current_data c) f
     = getattr d f) /\
  (forall events, group_of f <> Some ChEuler ->
     getattr (fst (_attitude_euler_stream c events h) !!! _current_data c) f
     = getattr d f) /\
  (forall events, group_of f <> Some ChQuaternion ->
     getattr (fst (_attitude_quaternion_stream c events h) !!! _current_data c) f
     = getattr d f) /\
  (forall events, group_of f <> Some ChImu ->
     getattr (fst (_imu_stream c events h) !!! _current_data c) f
     = getattr d f) /\
  (forall events, group_of f <> Some ChActuator ->
     getattr (fst (_actuator_output_stream c events h) !!! _current_data c) f
     = getattr d f).
Proof.
  intros Hd.
  assert (Hrun : forall A (body : FcTelemetryCollector -> A -> Py unit) msg g,
            (forall c' a, writes_only g (_current_data c') (body c' a)) ->
            forall events, group_of f <> Some g ->
              getattr (fst (stream_loop body msg c events h) !!! _current_data c) f
              = getattr d f).
  { intros A body msg g Hbody events Hf.
    destruct (stream_loop_frame body msg g Hbody events c h d Hd) as (d' & Hd' & F).
    rewrite (lookup_total_correct _ _ _ Hd'). apply F, Hf. }
  repeat split; intros events; apply Hrun; intros c' a.
  - exact (ingest_writes_only c' (RecPosition a)).
  - exact (ingest_writes_only c' (RecVelocity a)).
  - exact (ingest_writes_only c' (RecEuler a)).
  - exact (ingest_writes_only c' (RecQuaternion a)).
  - exact (ingest_writes_only c' (RecImu a)).
  - exact (ingest_writes_only c' (RecActuator a)).
Qed.

Lemma stream_runs_disjoint_witness :
  getattr (fst (_position_stream sample_collector
                  [Yield sample_position; StopCalled; Yield sample_position]
                  sample_heap) !!! 1%positive) fld_q_w
  = VFloat 1.
Proof.
  refine (proj1 (stream_runs_disjoint sample_collector sample_heap
                   (FcTelemetryData_init 5) fld_q_w _)
            [Yield sample_position; StopCalled; Yield sample_position] _).
  - vm_compute. reflexivity.
  - discriminate.
Defined.

(** ** Reads and updates together *)

Lemma ingest_elsewhere c r h l :
  l <> _current_data c -> fst (ingest c r h) !! l = h !! l.
Proof.
  intros Hl. destruct (ingest_writes_only c r h) as (u & -> & _).
  apply lookup_alter_ne. congruence.
Qed.

Lemma ingest_all_elsewhere c rs : forall h l,
  l <> _current_data c -> ingest_all c rs h !! l = h !! l.
Proof.
  induction rs as [| r rs IH]; intros h l Hl; [reflexivity |].
  cbn [ingest_all fold_left]. fold (ingest_all c rs (fst (ingest c r h))).
  rewrite IH by exact Hl. apply ingest_elsewhere, Hl.
Qed.

(** A copy handed out by a read is a snapshot: whatever the ingestors
    receive afterwards, the copy stays as it was returned. *)
Theorem returned_copy_survives_updates (c : FcTelemetryCollector) (t : float)
  (h : heap) (d : FcTelemetryData) (rs : list TelemetryRecord) :
  h !! _current_data c = Some d ->
  let l := fst (get_latest_data c t h) in
  let h' := snd (get_latest_data c t h) in
  ingest_all c rs h' !! l
  = Some (dataclasses_replace_timestamp_ms d (t * 1000)%float).
Proof.
  intros Hd l h'.
  rewrite ingest_all_elsewhere.
  - apply get_latest_data_copy, Hd.
  - intros E. pose proof (fresh_not_allocated h) as Hfresh.
    unfold l, get_latest_data in E. cbn [fst] in E. congruence.
Qed.

Lemma returned_copy_survives_updates_witness :
  let l := fst (get_latest_data sample_collector 6 sample_heap) in
  let h' := snd (get_latest_data sample_collector 6 sample_heap) in
  ingest_all sample_collector [RecPosition sample_position] h' !! l
  = Some (dataclasses_replace_timestamp_ms (FcTelemetryData_init 5) (6 * 1000)%float).
Proof.
  refine (returned_copy_survives_updates sample_collector 6 sample_heap
            (FcTelemetryData_init 5) [RecPosition sample_position] _).
  vm_compute. reflexivity.
Defined.

Lemma holds_record_frame r d d' :
  (forall f, group_of f = Some (channel_of r) -> getattr d' f = getattr d f) ->
  holds_record r d -> holds_record r d'.
Proof.
  intros F.
  assert (Ff : forall f x, group_of f = Some (channel_of r) ->
                           getattr d f = VFloat x -> getattr d' f = VFloat x)
    by (intros f x Hf E; rewrite F; assumption).
  assert (Fi : forall f n, group_of f = Some (channel_of r) ->
                           getattr d f = VInt n -> getattr d' f = VInt n)
    by (intros f n Hf E; rewrite F; assumption).
  destruct r; cbn [holds_record channel_of] in *.
  - pose proof (Ff fld_latitude_deg _ eq_refl eq_refl) as [= ->].
    pose proof (Ff fld_longitude_deg _ eq_refl eq_refl) as [= ->].
    pose proof (Ff fld_altitude_m_amsl _ eq_refl eq_refl) as [= ->].
    pose proof (Ff fld_altitude_m_rel _ eq_refl eq_refl) as [= ->].
    auto.
  - pose proof (Ff fld_velocity_north_mps _ eq_refl eq_refl) as [= ->].
    pose proof (Ff fld_velocity_east_mps _ eq_refl eq_refl) as [= ->].
    pose proof (Ff fld_velocity_down_mps _ eq_refl eq_refl) as [= ->].
    auto.
  - pose proof (Ff fld_roll_deg _ eq_refl eq_refl) as [= ->].
    pose proof (Ff fld_pitch_deg _ eq_refl eq_refl) as [= ->].
    pose proof (Ff fld_yaw_deg _ eq_refl eq_refl) as [= ->].
    auto.
  - pose proof (Ff fld_q_w _ eq_refl eq_refl) as [= ->].
    pose proof (Ff fld_q_x _ eq_refl eq_refl) as [= ->].
    pose proof (Ff fld_q_y _ eq_refl eq_refl) as [= ->].
    pose proof (Ff fld_q_z _ eq_refl eq_refl) as [= ->].
    auto.
  - pose proof (Ff fld_accel_body_x_m_per_s2 _ eq_refl eq_refl) as [= ->].
    pose proof (Ff fld_accel_body_y_m_per_s2 _ eq_refl eq_refl) as [= ->].
    pose proof (Ff fld_accel_body_z_m_per_s2 _ eq_refl eq_refl) as [= ->].
    pose proof (Ff fld_angular_vel_body_x_rad_ps _ eq_refl eq_refl) as [= ->].
    pose proof (Ff fld_angular_vel_body_y_rad_ps _ eq_refl eq_refl) as [= ->].
    pose proof (Ff fld_angular_vel_body_z_rad_ps _ eq_refl eq_refl) as [= ->].
    auto.
  - pose proof (Fi fld_motor_out _ eq_refl eq_refl) as [= ->].
    pose proof (Fi fld_servo1_out _ eq_refl eq_refl) as [= ->].
    pose proof (Fi fld_servo2_out _ eq_refl eq_refl) as [= ->].
    pose proof (Fi fld_servo3_out _ eq_refl eq_refl) as [= ->].
    auto.
Qed.

(** An update that ends normally leaves its record in the snapshot. *)
Lemma ingest_holds_record c r h d :
  h !! _current_data c = Some d ->
  snd (ingest c r h) = Ok tt ->
  exists d', fst (ingest c r h) !! _current_data c = Some d' /\ holds_record r d'.
Proof.
  intros Hd.
  destruct r; cbn [ingest holds_record];
    unfold position_body, velocity_body, attitude_euler_body,
      attitude_quaternion_body, imu_body, actuator_output_body,
      mbind, Py_bind, bind, assign, lift.
  1-5: intros _; cbn [fst snd]; rewrite !lookup_alter_eq, Hd;
       cbn [fmap option_fmap option_map];
       eexists; (split; [reflexivity |]); destruct d; cbn; repeat split.
  cbn [fst snd].
  destruct (int_at_or_zero (mavsdk.actuator output) 0) as [v0 | e0];
    cbn [fst snd]; [| discriminate].
  destruct (int_at_or_zero (mavsdk.actuator output) servo_start_idx) as [v1 | e1];
    cbn [fst snd]; [| discriminate].
  destruct (int_at_or_zero (mavsdk.actuator output) (servo_start_idx + 1))
    as [v2 | e2]; cbn [fst snd]; [| discriminate].
  destruct (int_at_or_zero (mavsdk.actuator output) (servo_start_idx + 2))
    as [v3 | e3]; cbn [fst snd]; [| discriminate].
  intros _. rewrite !lookup_alter_eq, Hd. cbn [fmap option_fmap option_map].
  eexists. split; [reflexivity |]. destruct d; cbn. repeat split.
Qed.

Lemma ingest_all_app c rs1 rs2 h :
  ingest_all c (rs1 ++ rs2) h = ingest_all c rs2 (ingest_all c rs1 h).
Proof. apply fold_left_app. Qed.

Lemma ingest_all_lookup c rs : forall h d,
  h !! _current_data c = Some d ->
  exists d', ingest_all c rs h !! _current_data c = Some d'.
Proof.
  induction rs as [| r rs IH]; intros h d Hd; [eauto |].
  destruct (ingest_frame c r h d Hd) as (d1 & Hd1 & _).
  apply (IH _ d1 Hd1).
Qed.

(** The last record delivered on a channel is what a read returns for
    the fields of that channel's group, whatever the other channels
    delivered before and after. *)
Theorem read_returns_last_delivered (c : FcTelemetryCollector) (h : heap)
  (d : FcTelemetryData) (before after : list TelemetryRecord)
  (r : TelemetryRecord) (t : float) :
  h !! _current_data c = Some d ->
  snd (ingest c r (ingest_all c before h)) = Ok tt ->
  Forall (fun r' => channel_of r' <> channel_of r) after ->
  let h' := ingest_all c (before ++ r :: after) h in
  exists data,
    snd (get_latest_data c t h') !! fst (get_latest_data c t h') = Some data /\
    holds_record r data.
Proof.
  intros Hd Hok Hafter h'.
  destruct (ingest_all_lookup c before h d Hd) as (d1 & Hd1).
  destruct (ingest_holds_record c r _ d1 Hd1 Hok) as (d2 & Hd2 & Hrec).
  destruct (ingest_all_frame c (channel_of r) after _ d2 Hd2 Hafter)
    as (d3 & Hd3 & F3).
  assert (Hh' : h' !! _current_data c = Some d3).
  { unfold h'. rewrite ingest_all_app. exact Hd3. }
  exists (dataclasses_replace_timestamp_ms d3 (t * 1000)%float).
  split; [apply get_latest_data_copy, Hh' |].
  apply (holds_record_frame r d2); [| exact Hrec].
  intros f Hf. rewrite replace_timestamp_agrees.
  - apply F3, Hf.
  - intros ->. discriminate Hf.
Qed.

Lemma read_returns_last_delivered_witness :
  let h' := ingest_all sample_collector
              ([RecActuator sample_actuator]
                 ++ RecPosition sample_position :: [RecActuator nan_actuator])
              sample_heap in
  exists data,
    snd (get_latest_data sample_collector 6 h')
      !! fst (get_latest_data sample_collector 6 h') = Some data /\
    holds_record (RecPosition sample_position) data.
Proof.
  refine (read_returns_last_delivered sample_collector sample_heap
            (FcTelemetryData_init 5) [RecActuator sample_actuator]
            [RecActuator nan_actuator] (RecPosition sample_position) 6 _ _ _).
  - vm_compute. reflexivity.
  - vm_compute. reflexivity.
  - repeat constructor. discriminate.
Defined.

(** ** What the logger writes *)



















(** ** Readers leave the heap as it is *)

Lemma get_latest_data_keeps c t h l0 :
  is_Some (h !! l0) -> snd (get_latest_data c t h) !! l0 = h !! l0.
Proof.
  intros [x Hx]. unfold get_latest_data. cbn [snd].
  apply lookup_insert_ne. intros E.
  pose proof (fresh_not_allocated h) as Hfresh. congruence.
Qed.

Lemma get_latest_data_grows c t h l0 :
  is_Some (h !! l0) -> is_Some (snd (get_latest_data c t h) !! l0).
Proof. intros H. rewrite get_latest_data_keeps; assumption. Qed.

Lemma log_row_keeps float_str lg fh t h l0 :
  is_Some (h !! l0) -> fst (log_row float_str lg fh t h) !! l0 = h !! l0.
Proof.
  intros Hl0. unfold log_row, log_row_try.
  destruct (read_raises t) as [e |].
  - destruct (is_Exception e); [destruct (handler_sleep_raises t) |]; reflexivity.
  - pose proof (get_latest_data_keeps (FcTelemetryLogger._collector lg)
                  (time_time t) h l0 Hl0) as Hk.
    destruct (get_latest_data _ _ _) as [l h1]. cbn [snd] in Hk.
    destruct (to_csv_row float_str (h1 !!! l)) as [row | e].
    + destruct (write_raises t) as [e |].
      * destruct (is_Exception e); [destruct (handler_sleep_raises t) |]; exact Hk.
      * destruct (sleep_raises t) as [e |]; [| exact Hk].
        destruct (is_Exception e); [destruct (handler_sleep_raises t) |]; exact Hk.
    + destruct (is_Exception e); [destruct (handler_sleep_raises t) |]; exact Hk.
Qed.

Lemma logging_loop_keeps float_str fh script l0 : forall lg h,
  is_Some (h !! l0) ->
  fst (logging_loop float_str lg fh script h) !! l0 = h !! l0.
Proof.
  induction script as [| t rest IH]; intros lg h Hl0; cbn [logging_loop].
  - destruct (FcTelemetryLogger._running lg); reflexivity.
  - destruct (FcTelemetryLogger._running lg); cbn [negb]; [| reflexivity].
    pose proof (log_row_keeps float_str lg fh t h l0 Hl0) as Hk.
    destruct (log_row _ _ _ _ _) as [h1 [evs [e |]]]; cbn [fst] in *; [exact Hk |].
    specialize (IH (if stop_logging_called t then stop_logging lg else lg) h1).
    destruct (logging_loop _ _ _ _ _) as [h2 [evs' [lg' r]]]; cbn [fst] in *.
    rewrite IH by (rewrite Hk; exact Hl0). exact Hk.
Qed.

Lemma print_loop_keeps c interval script l0 : forall h,
  is_Some (h !! l0) ->
  fst (print_loop c interval script h) !! l0 = h !! l0.
Proof.
  induction script as [| t rest IH]; intros h Hl0; cbn [print_loop];
    [reflexivity |].
  assert (Hk : fst (print_try c interval t h) !! l0 = h !! l0).
  { unfold print_try. destruct (print_read_raises t); [reflexivity |].
    pose proof (get_latest_data_keeps c (print_time t) h l0 Hl0) as Hk.
    destruct (get_latest_data _ _ _) as [l h1].
    destruct (print_sleep_raises t); exact Hk. }
  destruct (print_try c interval t h) as [h1 [evs [e |]]]; cbn [fst] in *.
  - specialize (IH h1).
    destruct e; cbn [is_Exception]; try exact Hk;
      destruct (print_handler_sleep_raises t); try exact Hk;
      destruct (print_loop c interval rest h1) as [h2 [evs' r]]; cbn [fst] in *;
      rewrite IH by (rewrite Hk; exact Hl0); exact Hk.
  - specialize (IH h1).
    destruct (print_loop c interval rest h1) as [h2 [evs' r]]; cbn [fst] in *.
    rewrite IH by (rewrite Hk; exact Hl0). exact Hk.
Qed.

(** The logger and the printer only read: whatever happens during
    [start_logging] or [print_telemetry_data], every object that was on
    the heap, the collector's snapshot among them, is left unchanged. *)
Theorem readers_leave_heap_unchanged (float_str : float -> string)
  (h : heap) (l0 : loc) :
  is_Some (h !! l0) ->
  (forall env lg, fst (start_logging float_str env lg h) !! l0 = h !! l0) /\
  (forall c print_rate_hz script,
      fst (print_telemetry_data c print_rate_hz script h) !! l0 = h !! l0).
Proof.
  intros Hl0. split.
  - intros env lg. unfold start_logging.
    destruct (py_truediv 1 _); [| reflexivity].
    set (msg := LogInfo _). clearbody msg.
    assert (Htry : fst (logging_try float_str env (set_logger_running true lg) h)
                     !! l0 = h !! l0).
    { unfold logging_try. destruct (open_result env) as [fh | e]; [| reflexivity].
      destruct (header_write_raises env); [reflexivity |].
      pose proof (logging_loop_keeps float_str fh (ticks env) l0
                    (set_logger_file_handle fh (set_logger_running true lg)) h Hl0)
        as Hk.
      destruct (logging_loop _ _ _ _ _) as [h1 [evs [lg' r]]]. exact Hk. }
    destruct (logging_try _ _ _ _) as [h1 [evs [lg' r]]]. cbn [fst] in Htry.
    destruct r as [| | e]; [exact Htry | |]; try destruct (is_Exception e);
      destruct (logging_finally env lg' _) as [closing r'']; exact Htry.
  - intros c rate script. unfold print_telemetry_data.
    destruct (py_truediv 1 rate); [| reflexivity].
    apply print_loop_keeps, Hl0.
Qed.

Lemma readers_leave_heap_unchanged_witness :
  (forall env lg,
      fst (start_logging no_float_str env lg sample_heap) !! 1%positive
      = sample_heap !! 1%positive) /\
  (forall c print_rate_hz script,
      fst (print_telemetry_data c print_rate_hz script sample_heap) !! 1%positive
      = sample_heap !! 1%positive).
Proof.
  apply (readers_leave_heap_unchanged no_float_str sample_heap 1%positive).
  vm_compute. eauto.
Defined.

(** ** The printer and the streams under faults *)

(** A pass of the printer in which the read or the sleep raises an
    [Exception] is logged and followed by the next pass;
    [KeyboardInterrupt] in the read or the sleep ends the printer, the
    remaining passes never taking place. *)
Theorem printer_survives_errors (c : FcTelemetryCollector) (interval : float)
  (t : print_tick) (rest : list print_tick) (h : heap) (e : exn) :
  print_read_raises t = Some e \/
  (print_read_raises t = None /\ print_sleep_raises t = Some e) ->
  let h' := fst (print_try c interval t h) in
  let evs := fst (snd (print_try c interval t h)) in
  let run := snd (print_loop c interval (t :: rest) h) in
  let next := snd (print_loop c interval rest h') in
  (is_Exception e = true -> print_handler_sleep_raises t = None ->
   run = (evs ++ EvLog (LogException "Error printing telemetry" e)
              :: EvSleep interval :: fst next,
          snd next)) /\
  (e = KeyboardInterrupt -> run = (evs, Returned)).
Proof.
  intros Hfail h' evs run next.
  assert (Htry : snd (snd (print_try c interval t h)) = Some e).
  { unfold print_try. destruct Hfail as [-> | [-> Hs]]; [reflexivity |].
    destruct (get_latest_data _ _ _) as [l h1]. rewrite Hs. reflexivity. }
  subst h' evs run next. cbn [print_loop].
  destruct (print_try c interval t h) as [h1 [evs o]]. cbn [fst snd] in *.
  subst o. split.
  - intros He Hsleep. destruct e; try discriminate He; cbn [is_Exception];
      rewrite Hsleep;
      destruct (print_loop c interval rest h1) as [h2 [evs' r]]; reflexivity.
  - intros ->. reflexivity.
Qed.

Lemma printer_survives_errors_witness :
  let c := sample_collector in
  let t := {| print_time := 10; print_read_raises := Some OSError;
              print_sleep_raises := None; print_handler_sleep_raises := None |} in
  let rest := [quiet_print_tick 11] in
  let h' := fst (print_try c 1 t sample_heap) in
  let evs := fst (snd (print_try c 1 t sample_heap)) in
  let run := snd (print_loop c 1 (t :: rest) sample_heap) in
  let next := snd (print_loop c 1 rest h') in
  (is_Exception OSError = true -> print_handler_sleep_raises t = None ->
   run = (evs ++ EvLog (LogException "Error printing telemetry" OSError)
              :: EvSleep 1 :: fst next,
          snd next)) /\
  (OSError = KeyboardInterrupt -> run = (evs, Returned)).
Proof.
  apply (printer_survives_errors sample_collector 1
           {| print_time := 10; print_read_raises := Some OSError;
              print_sleep_raises := None; print_handler_sleep_raises := None |}
           [quiet_print_tick 11] sample_heap OSError).
  left. reflexivity.
Defined.

Lemma actuator_body_raises c output h e :
  snd (actuator_output_body c output h) = Raise e ->
  e = ValueError \/ e = OverflowError.
Proof.
  unfold actuator_output_body, mbind, Py_bind, bind, lift, assign.
  destruct (int_at_or_zero (mavsdk.actuator output) 0) eqn:E0; cbn [fst snd];
    [| intros [= <-]; eapply int_at_or_zero_raises, E0].
  destruct (int_at_or_zero (mavsdk.actuator output) servo_start_idx) eqn:E1;
    cbn [fst snd]; [| intros [= <-]; eapply int_at_or_zero_raises, E1].
  destruct (int_at_or_zero (mavsdk.actuator output) (servo_start_idx + 1)) eqn:E2;
    cbn [fst snd]; [| intros [= <-]; eapply int_at_or_zero_raises, E2].
  destruct (int_at_or_zero (mavsdk.actuator output) (servo_start_idx + 2)) eqn:E3;
    cbn [fst snd]; [discriminate | intros [= <-]; eapply int_at_or_zero_raises, E3].
Qed.

(** A record whose conversion by [int] raises ends the actuator
    ingestor for good: the exception is logged, the stream loop returns,
    and nothing the source yields afterwards is written. *)
Theorem actuator_stream_ends_on_bad_value (c : FcTelemetryCollector)
  (output : mavsdk.ActuatorOutputStatus)
  (rest : list (stream_event mavsdk.ActuatorOutputStatus)) (h : heap) (e : exn) :
  _running c = true ->
  snd (actuator_output_body c output h) = Raise e ->
  _actuator_output_stream c (Yield output :: rest) h
  = (fst (actuator_output_body c output h),
     ([LogException "Actuator output stream error" e], Returned)).
Proof.
  intros Hrun Hraise.
  pose proof (actuator_body_raises c output h e Hraise) as He.
  unfold _actuator_output_stream. cbn [stream_loop]. rewrite Hrun. cbn [negb].
  destruct (actuator_output_body c output h) as [h1 r]. cbn [fst snd] in *.
  subst r. unfold except_Exception_log.
  destruct He as [-> | ->]; reflexivity.
Qed.

Lemma actuator_stream_ends_on_bad_value_witness :
  _actuator_output_stream sample_collector
    (Yield nan_actuator :: [Yield sample_actuator]) sample_heap
  = (fst (actuator_output_body sample_collector nan_actuator sample_heap),
     ([LogException "Actuator output stream error" ValueError], Returned)).
Proof.
  apply (actuator_stream_ends_on_bad_value sample_collector nan_actuator
           [Yield sample_actuator] sample_heap ValueError).
  - reflexivity.
  - vm_compute. reflexivity.
Defined.

(** ** Configuring the rates *)

Lemma rate_calls_log l (msg : log_record) :
  rate_calls (l ++ [EvPlaneLog msg]) = rate_calls l.
Proof.
  induction l as [| ev l IH]; [reflexivity |].
  destruct ev; cbn [app rate_calls]; rewrite ?IH; reflexivity.
Qed.

Lemma rate_calls_error l msg e :
  rate_calls (l ++ [EvLogError msg e]) = rate_calls l.
Proof.
  induction l as [| ev l IH]; [reflexivity |].
  destruct ev; cbn [app rate_calls]; rewrite ?IH; reflexivity.
Qed.

Ltac split_leading H :=
  repeat match goal with
         | H : Forall _ (_ :: _) |- _ =>
             let E := fresh "E" in
             apply Forall_cons_1 in H as [E H]
         end.

(** A leading call that raises ends the configuration. *)
Lemma configure_leading_failure float_str raises ENVIRONMENT rate_hz
  before call after e :
  leading_rate_calls = before ++ call :: after ->
  Forall (fun call' => raises call' = None) before ->
  raises call = Some e ->
  rate_calls (fst (configure_stream_rates float_str raises ENVIRONMENT rate_hz))
  = before ++ [call] /\
  snd (configure_stream_rates float_str raises ENVIRONMENT rate_hz) = Raise e.
Proof.
  intros Hsplit Hbefore Hcall. unfold configure_stream_rates.
  set (starting := LogInfo _). clearbody starting.
  set (done := LogInfo _). clearbody done.
  unfold leading_rate_calls in Hsplit.
  unfold set_actuator_rate, and_then, await_set_rate.
  destruct before as [| b1 [| b2 [| b3 [| b4 [| b5 before]]]]];
    cbn [app] in Hsplit; injection Hsplit as; subst;
    split_leading Hbefore;
    try (destruct before; discriminate);
    rewrite ?E, ?E0, ?E1, ?E2, ?E3, Hcall; cbn [fst snd app];
    destruct (is_Exception e); cbn [fst snd rate_calls];
    rewrite ?rate_calls_error; split; reflexivity.
Qed.

(** [configure_stream_rates] makes the six rate calls in order and stops
    at the first of the leading five that raises, raising the same
    exception; a failure of the last call, the actuator output rate,
    does not fail the configuration unless it is no [Exception]. *)
Theorem configure_stream_rates_outcome (float_str : float -> string)
  (raises : rate_call -> option exn) (ENVIRONMENT : string) (rate_hz : float) :
  let evs := fst (configure_stream_rates float_str raises ENVIRONMENT rate_hz) in
  let r := snd (configure_stream_rates float_str raises ENVIRONMENT rate_hz) in
  (Forall (fun call => raises call = None) leading_rate_calls ->
   rate_calls evs = leading_rate_calls ++ [set_rate_actuator_output_status] /\
   r = match raises set_rate_actuator_output_status with
       | Some e => if is_Exception e then Ok tt else Raise e
       | None => Ok tt
       end) /\
  (forall before call after e,
      leading_rate_calls = before ++ call :: after ->
      Forall (fun call' => raises call' = None) before ->
      raises call = Some e ->
      rate_calls evs = before ++ [call] /\ r = Raise e).
Proof.
  intros evs r. subst evs r. split; [| apply configure_leading_failure].
  unfold configure_stream_rates.
  set (starting := LogInfo _). clearbody starting.
  set (done := LogInfo _). clearbody done.
  intros Hall. unfold leading_rate_calls in Hall. split_leading Hall.
  unfold set_actuator_rate, and_then, await_set_rate.
  rewrite E, E0, E1, E2, E3. cbn [fst snd app].
  destruct (raises set_rate_actuator_output_status) as [e |];
    [| cbn [fst snd app rate_calls]; split; reflexivity].
  destruct (is_Exception e) eqn:He.
  - destruct (String.eqb ENVIRONMENT "sitl"); cbn [fst snd app rate_calls];
      split; reflexivity.
  - cbn [fst snd app]. rewrite He. split; reflexivity.
Qed.

Lemma configure_stream_rates_outcome_witness :
  let raises := fun call =>
                  match call with
                  | set_rate_actuator_output_status => Some OSError
                  | _ => None
                  end in
  let run := configure_stream_rates no_float_str raises "sitl" 30 in
  rate_calls (fst run) = leading_rate_calls ++ [set_rate_actuator_output_status] /\
  snd run = Ok tt.
Proof.
  refine (proj1 (configure_stream_rates_outcome no_float_str
                   (fun call =>
                      match call with
                      | set_rate_actuator_output_status => Some OSError
                      | _ => None
                      end) "sitl" 30) _).
  repeat constructor.
Defined.

(** ** The six streams together *)

Lemma streams_run_app a b s :
  streams_run (a ++ b) s = streams_run b (streams_run a s).
Proof. apply fold_left_app. Qed.

Lemma streams_step_collector s ev :
  _current_data (streams_collector (streams_step s ev))
  = _current_data (streams_collector s) /\
  (_running (streams_collector s) = false ->
   _running (streams_collector (streams_step s ev)) = false).
Proof.
  destruct ev as [r | ch e | ch |]; cbn [streams_step].
  - destruct (streams_status s (channel_of r)); try solve [split; auto].
    destruct (negb _); [split; auto |].
    destruct (ingest _ _ _) as [h' [[] | e]]; [split; auto |].
    destruct (except_Exception_log _ _). split; auto.
  - destruct (streams_status s ch); try solve [split; auto].
    destruct (except_Exception_log _ _). split; auto.
  - destruct (streams_status s ch); split; auto.
  - split; auto.
Qed.

Lemma streams_step_stopped s ev :
  _running (streams_collector s) = false ->
  streams_heap (streams_step s ev) = streams_heap s.
Proof.
  intros Hstop. destruct ev as [r | ch e | ch |]; cbn [streams_step].
  - destruct (streams_status s (channel_of r)); try reflexivity.
    rewrite Hstop. reflexivity.
  - destruct (streams_status s ch); try reflexivity.
    destruct (except_Exception_log _ _). reflexivity.
  - destruct (streams_status s ch); reflexivity.
  - reflexivity.
Qed.

Lemma streams_run_stopped script : forall s,
  _running (streams_collector s) = false ->
  streams_heap (streams_run script s) = streams_heap s /\
  _running (streams_collector (streams_run script s)) = false.
Proof.
  induction script as [| ev rest IH]; intros s Hstop; [split; auto |].
  cbn [streams_run fold_left]. fold (streams_run rest (streams_step s ev)).
  destruct (IH (streams_step s ev)) as [IH1 IH2].
  { apply streams_step_collector, Hstop. }
  split; [| exact IH2]. rewrite IH1. apply streams_step_stopped, Hstop.
Qed.

(** Once [stop()] is called no ingestor writes again: whatever the
    sources deliver afterwards, the heap stays as it was at the call. *)
Theorem snapshot_frozen_after_stop (before after : list channel_event)
  (s : streams) :
  streams_heap (streams_run (before ++ StopRequested :: after) s)
  = streams_heap (streams_run before s).
Proof.
  rewrite streams_run_app.
  change (streams_run (StopRequested :: after) ?s0)
    with (streams_run after (streams_step s0 StopRequested)).
  destruct (streams_run_stopped after
              (streams_step (streams_run before s) StopRequested) eq_refl)
    as [-> _].
  reflexivity.
Qed.

Lemma ingest_raises_Exception c r h e :
  snd (ingest c r h) = Raise e -> is_Exception e = true.
Proof.
  destruct r; cbn [ingest];
    unfold position_body, velocity_body, attitude_euler_body,
      attitude_quaternion_body, imu_body, mbind, Py_bind, bind, assign;
    cbn [fst snd]; try discriminate.
  intros H. apply actuator_body_raises in H as [-> | ->]; reflexivity.
Qed.

Lemma streams_finish_calm s h ch logged :
  calm s -> calm (streams_finish s h ch logged Returned).
Proof.
  intros [He Hs]. split; cbn.
  - rewrite He. reflexivity.
  - intros ch'. destruct (decide (ch' = ch)); [right; reflexivity | apply Hs].
Qed.

Lemma streams_step_calm s ev : benign ev -> calm s -> calm (streams_step s ev).
Proof.
  intros Hev Hcalm. destruct ev as [r | ch e | ch |]; cbn [streams_step benign] in *.
  - destruct (streams_status s (channel_of r)); try exact Hcalm.
    destruct (negb _); [apply streams_finish_calm, Hcalm |].
    destruct (ingest _ _ _) as [h' [[] | e]] eqn:Ei; [exact Hcalm |].
    assert (He : is_Exception e = true)
      by (eapply ingest_raises_Exception; rewrite Ei; reflexivity).
    unfold except_Exception_log. rewrite He. apply streams_finish_calm, Hcalm.
  - destruct (streams_status s ch); try exact Hcalm.
    unfold except_Exception_log. rewrite Hev. apply streams_finish_calm, Hcalm.
  - destruct (streams_status s ch); try exact Hcalm.
    apply streams_finish_calm, Hcalm.
  - exact Hcalm.
Qed.

Lemma streams_step_returned s ev ch :
  streams_status s ch = Returned -> streams_status (streams_step s ev) ch = Returned.
Proof.
  intros Hch. destruct ev as [r | ch' e | ch' |]; cbn [streams_step].
  - destruct (streams_status s (channel_of r)) eqn:Hr; try exact Hch.
    assert (Hne : ch <> channel_of r) by congruence.
    destruct (negb _); [cbn; rewrite decide_False by exact Hne; exact Hch |].
    destruct (ingest _ _ _) as [h' [[] | e]]; [exact Hch |].
    destruct (except_Exception_log _ _). cbn.
    rewrite decide_False by exact Hne. exact Hch.
  - destruct (streams_status s ch') eqn:Hr; try exact Hch.
    assert (Hne : ch <> ch') by congruence.
    destruct (except_Exception_log _ _). cbn.
    rewrite decide_False by exact Hne. exact Hch.
  - destruct (streams_status s ch') eqn:Hr; try exact Hch.
    assert (Hne : ch <> ch') by congruence.
    cbn. rewrite decide_False by exact Hne. exact Hch.
  - exact Hch.
Qed.

Lemma streams_run_returned script ch : forall s,
  streams_status s ch = Returned -> streams_status (streams_run script s) ch = Returned.
Proof.
  induction script as [| ev rest IH]; intros s Hch; [exact Hch |].
  apply (IH (streams_step s ev)), streams_step_returned, Hch.
Qed.

Lemma streams_run_calm script : forall s,
  Forall benign script -> calm s -> calm (streams_run script s).
Proof.
  induction script as [| ev rest IH]; intros s Hall Hcalm; [exact Hcalm |].
  inversion Hall; subst.
  apply (IH (streams_step s ev)); [assumption |].
  apply streams_step_calm; assumption.
Qed.

(** With the flag cleared, an event about a channel ends its loop. *)
Lemma streams_step_ends s ev ch :
  calm s -> benign ev ->
  _running (streams_collector s) = false ->
  event_channel ev = Some ch ->
  streams_status (streams_step s ev) ch = Returned.
Proof.
  intros [_ Hs] Hev Hstop Hch.
  destruct ev as [r | ch' e | ch' |]; cbn [event_channel] in Hch;
    try discriminate; injection Hch as <-; cbn [streams_step benign] in *.
  - destruct (Hs (channel_of r)) as [E | E]; rewrite E; [| exact E].
    rewrite Hstop. cbn. rewrite decide_True by reflexivity. reflexivity.
  - destruct (Hs ch') as [E | E]; rewrite E; [| exact E].
    unfold except_Exception_log. rewrite Hev. cbn.
    rewrite decide_True by reflexivity. reflexivity.
  - destruct (Hs ch') as [E | E]; rewrite E; [| exact E].
    cbn. rewrite decide_True by reflexivity. reflexivity.
Qed.

(** Once the flag is cleared and each of the six sources has yielded a
    record, ended or failed once more, all six stream loops have
    returned, provided no source raises anything but an [Exception]. *)
Lemma streams_return_after_stop (c : FcTelemetryCollector) (h : heap)
  (before after : list channel_event) :
  Forall benign (before ++ after) ->
  (forall ch, Exists (fun ev => event_channel ev = Some ch) after) ->
  gather_end (streams_run (before ++ StopRequested :: after) (streams_start c h))
  = Returned.
Proof.
  intros Hben Hall.
  apply Forall_app in Hben as [Hb Ha].
  rewrite streams_run_app.
  change (streams_run (StopRequested :: after) ?s0)
    with (streams_run after (streams_step s0 StopRequested)).
  set (s1 := streams_step (streams_run before (streams_start c h)) StopRequested).
  assert (Hcalm1 : calm s1).
  { apply (streams_step_calm _ StopRequested I).
    apply streams_run_calm; [exact Hb |].
    split; [reflexivity | intros ch; left; reflexivity]. }
  assert (Hstop1 : _running (streams_collector s1) = false) by reflexivity.
  assert (Hret : forall ch, streams_status (streams_run after s1) ch = Returned).
  { intros ch. specialize (Hall ch).
    apply Exists_exists in Hall as (ev & Hin & Hev).
    apply list_elem_of_split in Hin as (p1 & p2 & ->).
    apply Forall_app in Ha as [Hp1 Hp2]. inversion Hp2 as [| ? ? Hbev Hp2']; subst.
    rewrite streams_run_app.
    change (streams_run (ev :: p2) ?s0) with (streams_run p2 (streams_step s0 ev)).
    apply streams_run_returned.
    apply streams_step_ends; [| exact Hbev | | exact Hev].
    - apply streams_run_calm; assumption.
    - apply streams_run_stopped, Hstop1. }
  pose proof (streams_run_calm after s1 Ha Hcalm1) as [Hesc _].
  unfold gather_end. rewrite Hesc. cbn [forallb all_channels].
  rewrite !Hret. reflexivity.
Qed.

(** [start_telemetry_streams] returns after [stop()]: with the rates
    configured, once [stop()] is called and each of the six sources has
    yielded a record, ended or failed once more, the six stream loops
    have returned and so has [gather], provided no source raises
    anything but an [Exception]. *)
Theorem start_telemetry_streams_returns_after_stop (float_str : float -> string)
  (raises : rate_call -> option exn) (ENVIRONMENT : string)
  (c : FcTelemetryCollector) (rate_hz : float) (h : heap)
  (before after : list channel_event) :
  snd (configure_stream_rates float_str raises ENVIRONMENT rate_hz) = Ok tt ->
  Forall benign (before ++ after) ->
  (forall ch, Exists (fun ev => event_channel ev = Some ch) after) ->
  let run := start_telemetry_streams float_str raises ENVIRONMENT None c rate_hz
               (before ++ StopRequested :: after) h in
  snd (snd run) = Returned /\
  forall ch, streams_status (fst run) ch = Returned.
Proof.
  intros Hconf Hben Hall run. subst run. unfold start_telemetry_streams.
  destruct (configure_stream_rates _ _ _ _) as [evs r]; cbn [snd] in Hconf.
  subst r. cbn [fst snd].
  pose proof (streams_return_after_stop
                {| _current_data := _current_data c; _running := true |} h
                before after Hben Hall) as Hend.
  split; [exact Hend |].
  unfold gather_end in Hend.
  destruct (streams_escaped _); [discriminate |].
  destruct (forallb _ all_channels) eqn:Hfa; [| discriminate].
  rewrite forallb_forall in Hfa.
  intros ch. specialize (Hfa ch).
  destruct (streams_status _ ch); try reflexivity;
    (assert (false = true) by (apply Hfa; destruct ch; cbn; auto 10); discriminate).
Qed.

Lemma start_telemetry_streams_returns_after_stop_witness :
  let run := start_telemetry_streams no_float_str (fun _ => None) "sitl" None
               sample_collector 30
               ([Delivered (RecPosition sample_position)]
                  ++ StopRequested
                  :: [Delivered (RecPosition sample_position); SourceEnds ChVelocity;
                      SourceRaises ChEuler OSError; SourceEnds ChQuaternion;
                      SourceEnds ChImu; Delivered (RecActuator sample_actuator)])
               sample_heap in
  snd (snd run) = Returned /\
  forall ch, streams_status (fst run) ch = Returned.
Proof.
  apply (start_telemetry_streams_returns_after_stop no_float_str (fun _ => None)
           "sitl" sample_collector 30 sample_heap
           [Delivered (RecPosition sample_position)]
           [Delivered (RecPosition sample_position); SourceEnds ChVelocity;
            SourceRaises ChEuler OSError; SourceEnds ChQuaternion;
            SourceEnds ChImu; Delivered (RecActuator sample_actuator)]).
  - reflexivity.
  - repeat constructor.
  - intros ch.
    destruct ch;
      repeat first [apply Exists_cons_hd; reflexivity | apply Exists_cons_tl].
Defined.

Lemma heap_blind_assign l set : fieldwise set -> heap_blind l (assign l set).
Proof. intros Hset. exists set, (Ok tt). split; [exact Hset | reflexivity]. Qed.

Lemma heap_blind_lift l {A} (r : result A) : heap_blind l (lift r).
Proof.
  exists id, r. split; [intros d d' f H; exact H |].
  intros h. unfold lift. f_equal. symmetry. apply alter_id. reflexivity.
Qed.

Lemma heap_blind_bind l {A B} (m : Py A) (k : A -> Py B) :
  heap_blind l m -> (forall a, heap_blind l (k a)) -> heap_blind l (m ≫= k).
Proof.
  intros (u1 & out1 & F1 & E1) Hk. unfold mbind, Py_bind, bind.
  destruct out1 as [a | e].
  - destruct (Hk a) as (u2 & out2 & F2 & E2).
    exists (u2 ∘ u1), out2. split.
    + intros d d' f H. cbn. apply F2, F1, H.
    + intros h. rewrite E1, E2. f_equal. apply alter_alter_eq.
  - exists u1, (Raise e). split; [exact F1 |].
    intros h. rewrite E1. reflexivity.
Qed.

Ltac fieldwise_setter := intros [] [] [] ?; cbn in *; congruence.

Lemma ingest_heap_blind c r : heap_blind (_current_data c) (ingest c r).
Proof.
  destruct r; cbn [ingest];
    unfold position_body, velocity_body, attitude_euler_body,
      attitude_quaternion_body, imu_body, actuator_output_body;
    repeat first
      [ apply heap_blind_bind; [| intros ?]
      | apply heap_blind_lift
      | apply heap_blind_assign; fieldwise_setter ].
Qed.

Lemma same_elsewhere_own a s s' h logged ended :
  same_elsewhere a s s' ->
  agree_outside a (streams_collector s) h (streams_heap s') ->
  same_elsewhere a (streams_finish s h a logged ended) s'.
Proof.
  intros (Hc & Hs & _) Hh. split; [exact Hc | split; [| exact Hh]].
  intros ch Hne. cbn. rewrite decide_False by exact Hne. apply Hs, Hne.
Qed.

(** An event about channel [a] changes nothing outside it. *)
Lemma streams_step_own a s s' ev :
  event_channel ev = Some a ->
  same_elsewhere a s s' -> same_elsewhere a (streams_step s ev) s'.
Proof.
  intros Hev Hrel. pose proof Hrel as (Hc & Hs & Hh).
  destruct ev as [r | ch e | ch |]; cbn [event_channel] in Hev;
    try discriminate; injection Hev as <-; cbn [streams_step].
  - destruct (streams_status s (channel_of r)); try exact Hrel.
    destruct (negb _); [apply same_elsewhere_own; assumption |].
    destruct Hh as (d & d' & Hd & Hd' & F).
    destruct (ingest_frame (streams_collector s) r (streams_heap s) d Hd)
      as (d1 & Hd1 & F1).
    assert (Hh1 : agree_outside (channel_of r) (streams_collector s)
                    (fst (ingest (streams_collector s) r (streams_heap s)))
                    (streams_heap s')).
    { exists d1, d'. split; [exact Hd1 | split; [exact Hd' |]].
      intros f Hf. rewrite F1 by exact Hf. apply F, Hf. }
    destruct (ingest _ _ _) as [h1 [[] | e]]; cbn [fst] in Hh1.
    + split; [exact Hc | split; [exact Hs | exact Hh1]].
    + destruct (except_Exception_log _ _).
      apply same_elsewhere_own; assumption.
  - destruct (streams_status s ch); try exact Hrel.
    destruct (except_Exception_log _ _). apply same_elsewhere_own; assumption.
  - destruct (streams_status s ch); try exact Hrel.
    apply same_elsewhere_own; assumption.
Qed.

Lemma same_elsewhere_finish a s s' ch h h' logged ended :
  ch <> a ->
  same_elsewhere a s s' ->
  agree_outside a (streams_collector s) h h' ->
  same_elsewhere a (streams_finish s h ch logged ended)
    (streams_finish s' h' ch logged ended).
Proof.
  intros Hne (Hc & Hs & _) Hh. split; [exact Hc | split; [| exact Hh]].
  intros ch' Hne'. cbn. destruct (decide (ch' = ch)); [reflexivity |].
  apply Hs, Hne'.
Qed.

(** An event about another channel has the same effect in both states. *)
Lemma streams_step_other a s s' ev :
  event_channel ev <> Some a ->
  same_elsewhere a s s' ->
  same_elsewhere a (streams_step s ev) (streams_step s' ev).
Proof.
  intros Hev Hrel. pose proof Hrel as (Hc & Hs & Hh).
  destruct ev as [r | ch e | ch |]; cbn [event_channel] in Hev; cbn [streams_step].
  - assert (Hne : channel_of r <> a) by congruence.
    rewrite <- (Hs _ Hne), <- Hc.
    destruct (streams_status s (channel_of r)); try exact Hrel.
    destruct (negb _); [apply same_elsewhere_finish; assumption |].
    destruct (ingest_heap_blind (streams_collector s) r) as (upd & out & Fu & Eu).
    rewrite !Eu.
    assert (Hh1 : agree_outside a (streams_collector s)
                    (alter upd (_current_data (streams_collector s)) (streams_heap s))
                    (alter upd (_current_data (streams_collector s)) (streams_heap s'))).
    { destruct Hh as (d & d' & Hd & Hd' & F).
      exists (upd d), (upd d').
      rewrite !lookup_alter_eq, Hd, Hd'. repeat split.
      intros f Hf. apply Fu, F, Hf. }
    destruct out as [[] | e].
    + split; [exact Hc | split; [exact Hs | exact Hh1]].
    + destruct (except_Exception_log _ _).
      apply same_elsewhere_finish; assumption.
  - assert (Hne : ch <> a) by congruence.
    rewrite <- (Hs _ Hne).
    destruct (streams_status s ch); try exact Hrel.
    destruct (except_Exception_log _ _).
    apply same_elsewhere_finish; assumption.
  - assert (Hne : ch <> a) by congruence.
    rewrite <- (Hs _ Hne).
    destruct (streams_status s ch); try exact Hrel.
    apply same_elsewhere_finish; assumption.
  - split; [cbn; rewrite Hc; reflexivity | split; [exact Hs |]].
    cbn. exact Hh.
Qed.

Lemma streams_run_without a script : forall s s',
  same_elsewhere a s s' ->
  same_elsewhere a (streams_run script s)
    (streams_run (without_channel a script) s').
Proof.
  induction script as [| ev rest IH]; intros s s' Hrel; [exact Hrel |].
  unfold without_channel. rewrite filter_cons.
  destruct (decide (event_channel ev <> Some a)) as [Hev | Hev].
  - apply (IH (streams_step s ev) (streams_step s' ev)).
    apply streams_step_other; assumption.
  - apply (IH (streams_step s ev) s').
    apply streams_step_own; [| exact Hrel].
    destruct (decide (event_channel ev = Some a)); [assumption | contradiction].
Qed.

Lemma streams_run_current_data script : forall s,
  _current_data (streams_collector (streams_run script s))
  = _current_data (streams_collector s).
Proof.
  induction script as [| ev rest IH]; intros s; [reflexivity |].
  cbn [streams_run fold_left]. fold (streams_run rest (streams_step s ev)).
  rewrite IH. apply streams_step_collector.
Qed.

(** The channels do not interfere: take away everything that happens on
    one channel, its records, its faults, the end of its source, and
    the other five stream loops get as far as before and leave the same
    values in every field outside that channel's group. *)
Theorem channels_do_not_interfere (a : Channel) (c : FcTelemetryCollector)
  (h : heap) (d : FcTelemetryData) (script : list channel_event) :
  h !! _current_data c = Some d ->
  let s := streams_run script (streams_start c h) in
  let s' := streams_run (without_channel a script) (streams_start c h) in
  (forall ch, ch <> a -> streams_status s ch = streams_status s' ch) /\
  (forall f, group_of f <> Some a ->
     getattr (streams_heap s !!! _current_data c) f
     = getattr (streams_heap s' !!! _current_data c) f).
Proof.
  intros Hd s s'.
  assert (Hstart : same_elsewhere a (streams_start c h) (streams_start c h)).
  { split; [reflexivity | split; [reflexivity |]].
    exists d, d. repeat split; assumption. }
  destruct (streams_run_without a script _ _ Hstart) as (Hc & Hs & Hh).
  fold s s' in Hc, Hs, Hh. split; [exact Hs |].
  destruct Hh as (d1 & d1' & Hd1 & Hd1' & F).
  assert (Hcur : _current_data (streams_collector s) = _current_data c)
    by apply streams_run_current_data.
  rewrite Hcur in Hd1, Hd1'.
  rewrite (lookup_total_correct _ _ _ Hd1), (lookup_total_correct _ _ _ Hd1').
  exact F.
Qed.

Lemma channels_do_not_interfere_witness :
  let script := [Delivered (RecActuator nan_actuator);
                 Delivered (RecPosition sample_position);
                 SourceRaises ChActuator OSError] in
  let s := streams_run script (streams_start sample_collector sample_heap) in
  let s' := streams_run (without_channel ChActuator script)
              (streams_start sample_collector sample_heap) in
  (forall ch, ch <> ChActuator -> streams_status s ch = streams_status s' ch) /\
  (forall f, group_of f <> Some ChActuator ->
     getattr (streams_heap s !!! 1%positive) f
     = getattr (streams_heap s' !!! 1%positive) f).
Proof.
  refine (channels_do_not_interfere ChActuator sample_collector sample_heap
            (FcTelemetryData_init 5)
            [Delivered (RecActuator nan_actuator);
             Delivered (RecPosition sample_position);
             SourceRaises ChActuator OSError] _).
  vm_compute. reflexivity.
Defined.

(** ** Starting the streams *)

(** When one of the leading five rate calls raises,
    [start_telemetry_streams] raises the same exception and no stream
    loop is entered: nothing is ingested or logged by the streams.  The
    flag [_running], set on entry, stays set. *)
Theorem streams_not_started_on_failure (float_str : float -> string)
  (raises : rate_call -> option exn) (ENVIRONMENT : string)
  (sleep_raises : option exn) (c : FcTelemetryCollector) (rate_hz : float)
  (script : list channel_event) (h : heap)
  (before after : list rate_call) (call : rate_call) (e : exn) :
  leading_rate_calls = before ++ call :: after ->
  Forall (fun call' => raises call' = None) before ->
  raises call = Some e ->
  let run := start_telemetry_streams float_str raises ENVIRONMENT sleep_raises c
               rate_hz script h in
  snd (snd run) = Escaped e /\
  rate_calls (fst (snd run)) = before ++ [call] /\
  streams_heap (fst run) = h /\
  streams_log (fst run) = [] /\
  _running (streams_collector (fst run)) = true.
Proof.
  intros Hsplit Hbefore Hcall run. subst run. unfold start_telemetry_streams.
  destruct (configure_leading_failure float_str raises ENVIRONMENT rate_hz
              before call after e Hsplit Hbefore Hcall) as [Hcalls Hr].
  destruct (configure_stream_rates _ _ _ _) as [evs r]; cbn [fst snd] in *.
  subst r. cbn [fst snd rate_calls]. repeat split. exact Hcalls.
Qed.

Lemma streams_not_started_on_failure_witness :
  let raises := fun call =>
                  match call with
                  | set_rate_imu => Some OSError
                  | _ => None
                  end in
  let run := start_telemetry_streams no_float_str raises "sitl" None
               sample_collector 30 [Delivered (RecPosition sample_position)]
               sample_heap in
  snd (snd run) = Escaped OSError /\
  rate_calls (fst (snd run))
  = [set_rate_position; set_rate_velocity_ned; set_rate_attitude_euler;
     set_rate_attitude_quaternion] ++ [set_rate_imu] /\
  streams_heap (fst run) = sample_heap /\
  streams_log (fst run) = [] /\
  _running (streams_collector (fst run)) = true.
Proof.
  apply (streams_not_started_on_failure no_float_str
           (fun call =>
              match call with
              | set_rate_imu => Some OSError
              | _ => None
              end) "sitl" None sample_collector 30
           [Delivered (RecPosition sample_position)] sample_heap
           [set_rate_position; set_rate_velocity_ned; set_rate_attitude_euler;
            set_rate_attitude_quaternion] [] set_rate_imu OSError).
  - reflexivity.
  - repeat constructor.
  - reflexivity.
Defined.

(** ** Connecting *)

Lemma connect_calls_app a b : connect_calls (a ++ b) = connect_calls a ++ connect_calls b.
Proof.
  induction a as [| ev a IH]; [reflexivity |].
  destruct ev; cbn [app connect_calls]; rewrite ?IH; reflexivity.
Qed.

Lemma plane_sleeps_app a b : plane_sleeps (a ++ b) = plane_sleeps a ++ plane_sleeps b.
Proof.
  induction a as [| ev a IH]; [reflexivity |].
  destruct ev; cbn [app plane_sleeps]; rewrite ?IH; reflexivity.
Qed.

(** Every attempt calls [connect] once, and sleeps nowhere. *)
Lemma connect_try_calls address a :
  connect_calls (fst (connect_try address a)) = [address] /\
  plane_sleeps (fst (connect_try address a)) = [].
Proof.
  unfold connect_try. destruct (connect_raises a); [split; reflexivity |].
  destruct (await_connected (connection_states a)); split; reflexivity.
Qed.

Lemma connect_try_fails address a :
  fails_and_retries a ->
  exists e, is_Exception e = true /\ snd (connect_try address a) = Escaped e.
Proof.
  intros [(e & He & [Hc | [Hc Hs]]) _]; exists e; (split; [exact He |]);
    unfold connect_try; rewrite Hc; [reflexivity |].
  rewrite Hs. reflexivity.
Qed.

Lemma await_connected_returned states :
  await_connected states = Returned <->
  (exists n rest, states = repeat (StateYield false) n ++ StateYield true :: rest) \/
  (exists n rest, states = repeat (StateYield false) n ++ StateEnds :: rest).
Proof.
  split.
  - induction states as [| [[|] | e |] states IH]; cbn [await_connected];
      try discriminate.
    + intros _. left. exists 0%nat, states. reflexivity.
    + intros H. destruct (IH H) as [(n & rest & ->) | (n & rest & ->)];
        [left | right]; exists (S n), rest; reflexivity.
    + intros _. right. exists 0%nat, states. reflexivity.
  - intros [(n & rest & ->) | (n & rest & ->)];
      induction n as [| n IH]; cbn [repeat app await_connected]; auto.
Qed.

Lemma connect_try_connected address a :
  sees_connected a \/ state_stream_ends a <->
  snd (connect_try address a) = Returned.
Proof.
  unfold sees_connected, state_stream_ends, connect_try. split.
  - intros H.
    assert (Hc : connect_raises a = None) by (destruct H as [[Hc _] | [Hc _]]; exact Hc).
    assert (Hs : await_connected (connection_states a) = Returned).
    { apply await_connected_returned. destruct H as [[_ H] | [_ H]]; auto. }
    rewrite Hc, Hs. reflexivity.
  - destruct (connect_raises a); [discriminate |].
    destruct (await_connected (connection_states a)) eqn:Hs; try discriminate.
    intros _. apply await_connected_returned in Hs.
    destruct Hs as [Hs | Hs]; [left | right]; split; auto.
Qed.

(** An attempt that leaves the wait loop logs that it connected. *)
Lemma connect_try_logs_connected address a :
  snd (connect_try address a) = Returned ->
  In (EvPlaneLog (LogInfo "Successfully connected to FC")) (fst (connect_try address a)).
Proof.
  unfold connect_try. destruct (connect_raises a); [discriminate |].
  destruct (await_connected (connection_states a)); try discriminate.
  intros _. cbn [fst]. apply in_or_app. right. right. left. reflexivity.
Qed.

Lemma connect_loop_retries address failures good rest :
  Forall fails_and_retries failures ->
  sees_connected good \/ state_stream_ends good ->
  snd (connect_loop address (failures ++ good :: rest)) = Returned /\
  connect_calls (fst (connect_loop address (failures ++ good :: rest)))
  = repeat address (S (length failures)) /\
  plane_sleeps (fst (connect_loop address (failures ++ good :: rest)))
  = repeat 5%float (length failures) /\
  In (EvPlaneLog (LogInfo "Successfully connected to FC"))
     (fst (connect_loop address (failures ++ good :: rest))).
Proof.
  intros Hfail Hgood. induction Hfail as [| a failures Ha _ IH].
  - cbn [app connect_loop length repeat].
    pose proof (proj1 (connect_try_connected address good) Hgood) as Hr.
    pose proof (connect_try_logs_connected address good Hr) as Hlog.
    destruct (connect_try_calls address good) as [Hc Hs].
    destruct (connect_try address good) as [evs r]; cbn [fst snd] in *.
    subst r. auto.
  - cbn [app connect_loop length repeat].
    destruct (connect_try_fails address a Ha) as (e & He & Hr).
    destruct (connect_try_calls address a) as [Hc Hs].
    destruct (connect_try address a) as [evs r]; cbn [fst snd] in *.
    subst r. rewrite He. destruct Ha as [_ ->].
    destruct (connect_loop address (failures ++ good :: rest)) as [evs' r'].
    cbn [fst snd] in *. destruct IH as (-> & IHc & IHs & IHlog).
    rewrite connect_calls_app, plane_sleeps_app, Hc, Hs.
    cbn [connect_calls plane_sleeps app]. rewrite IHc, IHs.
    repeat split; auto.
    apply in_or_app. right. right. right. exact IHlog.
Qed.

Lemma connect_loop_returned address attempts :
  snd (connect_loop address attempts) = Returned ->
  Exists (fun a => sees_connected a \/ state_stream_ends a) attempts.
Proof.
  induction attempts as [| a rest IH]; cbn [connect_loop]; [discriminate |].
  pose proof (connect_try_connected address a) as Hiff.
  destruct (connect_try address a) as [evs [| | e]]; cbn [fst snd] in *.
  - discriminate.
  - intros _. apply Exists_cons_hd, Hiff. reflexivity.
  - destruct (is_Exception e); [| discriminate].
    destruct (retry_sleep_raises a); [discriminate |].
    destruct (connect_loop address rest) as [evs' r']; cbn [snd] in *.
    intros Hr. apply Exists_cons_tl, IH, Hr.
Qed.



(** ** The logging task *)

Lemma closed_app a b : closed (a ++ b) = closed a ++ closed b.
Proof.
  induction a as [| ev a IH]; [reflexivity |].
  destruct ev; cbn [app closed]; rewrite ?IH; reflexivity.
Qed.

Lemma no_open_close_closed tr : no_open_close tr -> closed tr = [].
Proof.
  induction 1 as [| ev tr Hev _ IH]; [reflexivity |].
  destruct ev; cbn [closed]; try exact IH; contradiction.
Qed.

(** On a logger that holds no handle, [start_logging] closes what it
    opened, and nothing else. *)
Lemma start_logging_closed float_str env lg h :
  FcTelemetryLogger._file_handle lg = None ->
  snd (snd (snd (start_logging float_str env lg h))) <> Suspended ->
  closed (fst (snd (start_logging float_str env lg h)))
  = opened (fst (snd (start_logging float_str env lg h))) /\
  (length (opened (fst (snd (start_logging float_str env lg h)))) <= 1)%nat.
Proof.
  intros Hnone. unfold start_logging.
  destruct (py_truediv 1 _) as [hz | e]; [| intros _; split; [reflexivity | cbn; lia]].
  set (msg := LogInfo _). clearbody msg.
  set (lg1 := set_logger_running true lg).
  pose proof (logging_try_shape float_str env lg1 h) as Hshape.
  destruct (logging_try float_str env lg1 h) as [h' [evs [lg' r]]].
  cbn [fst snd] in Hshape.
  set (caught := match r with
                 | Escaped e => if is_Exception e then _ else _
                 | _ => _
                 end).
  assert (Hcaught : no_open_close (fst caught)).
  { subst caught. destruct r as [| | e]; try constructor.
    destruct (is_Exception e); solve_no_open_close. }
  destruct (open_result env) as [fh | e].
  - destruct Hshape as (rest & -> & Hrest & Hfh).
    destruct r as [| | e]; cbn [fst snd]; [congruence | |]; intros _.
    all: destruct caught as [cevs r'] eqn:Ecaught; cbn [fst] in Hcaught.
    all: destruct (logging_finally_closes env lg' r' fh Hfh)
           as (flushing & after & Eclose & Hflushing & Hafter & _).
    all: destruct (logging_finally env lg' r') as [closing r''];
           cbn [fst snd] in *; subst closing.
    all: cbn [closed opened app].
    all: rewrite !closed_app, !opened_app; cbn [closed opened].
    all: rewrite (no_open_close_closed _ Hrest), (no_open_close_closed _ Hcaught),
           (no_open_close_closed _ Hflushing), (no_open_close_closed _ Hafter),
           (no_open_close_opened _ Hrest), (no_open_close_opened _ Hcaught),
           (no_open_close_opened _ Hflushing), (no_open_close_opened _ Hafter).
    all: split; [reflexivity | cbn; lia].
  - destruct Hshape as (Hevs & -> & Hfh). cbn [fst snd]. intros _.
    destruct caught as [cevs r'] eqn:Ecaught; cbn [fst] in Hcaught.
    assert (Hfin : fst (logging_finally env lg' r') = []).
    { unfold logging_finally. rewrite Hfh. subst lg1. cbn. rewrite Hnone.
      reflexivity. }
    destruct (logging_finally env lg' r') as [closing r'']; cbn [fst snd] in *.
    subst closing. cbn [closed opened].
    rewrite !closed_app, !opened_app.
    rewrite (no_open_close_closed _ Hevs), (no_open_close_closed _ Hcaught),
      (no_open_close_opened _ Hevs), (no_open_close_opened _ Hcaught).
    split; [reflexivity | cbn; lia].
Qed.

(** The logging task of [onboard/main.py] builds its own logger, so it
    closes exactly the file it opened, if any, and no other; with a rate
    of zero it raises [ZeroDivisionError] before touching any file. *)
Theorem logging_task_closes_what_it_opens (float_str : float -> string)
  (env : sink_env) (collector : FcTelemetryCollector) (filename : string)
  (log_rate_hz : float) (h : heap) :
  let run := onboard.start_logging float_str env collector filename log_rate_hz h in
  ((log_rate_hz =? 0)%float = true -> snd run = ([], Escaped ZeroDivisionError)) /\
  (snd (snd run) <> Suspended ->
   closed (fst (snd run)) = opened (fst (snd run)) /\
   (length (opened (fst (snd run))) <= 1)%nat).
Proof.
  intros run. subst run. unfold onboard.start_logging, FcTelemetryLogger_init,
    py_truediv.
  destruct (log_rate_hz =? 0)%float; cbn [result_bind].
  - split; [reflexivity |]. intros _. split; [reflexivity | cbn; lia].
  - split; [discriminate |].
    set (lg := {| FcTelemetryLogger._collector := collector |}).
    pose proof (start_logging_closed float_str env lg h eq_refl) as H.
    destruct (start_logging float_str env lg h) as [h' [evs [lg' r]]].
    exact H.
Qed.

Lemma logging_task_closes_what_it_opens_witness :
  let run := onboard.start_logging no_float_str sample_env sample_collector
               "fc_telemetry_log.csv" 8 sample_heap in
  closed (fst (snd run)) = opened (fst (snd run)) /\
  (length (opened (fst (snd run))) <= 1)%nat.
Proof.
  refine (proj2 (logging_task_closes_what_it_opens no_float_str sample_env
                   sample_collector "fc_telemetry_log.csv" 8 sample_heap) _).
  vm_compute. discriminate.
Defined.

(** ** The idle loop of [main.py] *)

Lemma idle_loop_returned sleeps :
  snd (idle_loop sleeps) = Returned -> In (Some KeyboardInterrupt) sleeps.
Proof.
  induction sleeps as [| [e |] rest IH]; cbn [idle_loop]; [discriminate | |].
  - destruct e; try discriminate. intros _. left. reflexivity.
  - destruct (idle_loop rest) as [evs r]. cbn [snd] in *.
    intros Hr. right. apply IH, Hr.
Qed.

Lemma idle_loop_interrupted n rest :
  idle_loop (repeat None n ++ Some KeyboardInterrupt :: rest)
  = (repeat (EvPlaneSleep 1) n
       ++ [EvPlaneLog (LogInfo "Received keyboard interrupt, shutting down...")],
     Returned).
Proof.
  induction n as [| n IH]; cbn [repeat app idle_loop]; [reflexivity |].
  rewrite IH. reflexivity.
Qed.

(** [_async_main] of [main.py] returns only after an attempt in which
    [connect] returned and the state stream yielded a connected state
    or ended, and after [KeyboardInterrupt] was raised in one of the
    idle sleeps; and it does return then: after failed attempts, such
    an attempt and [n] quiet sleeps, the interrupt ends it, [connect]
    having been called once per attempt. *)
Theorem main_returns_on_interrupt_only (environ : string -> option string)
  (ENVIRONMENT : string) :
  (forall attempts sleeps,
      snd (main_py._async_main environ ENVIRONMENT attempts sleeps) = Returned ->
      Exists (fun a => sees_connected a \/ state_stream_ends a) attempts /\
      In (Some KeyboardInterrupt) sleeps) /\
  (forall address failures good rest n later,
      config_get (CONNECTION_CONFIGS environ) ENVIRONMENT = Some address ->
      Forall fails_and_retries failures ->
      sees_connected good \/ state_stream_ends good ->
      let run := main_py._async_main environ ENVIRONMENT (failures ++ good :: rest)
                   (repeat None n ++ Some KeyboardInterrupt :: later) in
      snd run = Returned /\
      connect_calls (fst run) = repeat address (S (length failures)) /\
      plane_sleeps (fst run)
      = repeat 5%float (length failures) ++ repeat 1%float n).
Proof.
  split.
  - intros attempts sleeps. unfold main_py._async_main.
    pose proof (connect_loop_returned) as Hconn.
    unfold connect_to_flight_controller in *.
    destruct (config_get _ _) as [address |]; [| discriminate].
    specialize (Hconn address attempts).
    destruct (connect_loop address attempts) as [evs [| | e]]; cbn [snd] in *;
      try discriminate.
    pose proof (idle_loop_returned sleeps) as Hidle.
    destruct (idle_loop sleeps) as [evs' r]. cbn [snd] in *.
    intros Hr. split; [apply Hconn; reflexivity | apply Hidle, Hr].
  - intros address failures good rest n later Haddr Hfail Hgood run. subst run.
    unfold main_py._async_main, connect_to_flight_controller. rewrite Haddr.
    destruct (connect_loop_retries address failures good rest Hfail Hgood)
      as (Hr & Hc & Hs & _).
    destruct (connect_loop address (failures ++ good :: rest)) as [evs r].
    cbn [fst snd] in *. subst r. rewrite idle_loop_interrupted. cbn [fst snd].
    rewrite connect_calls_app, plane_sleeps_app, Hc, Hs.
    split; [reflexivity | split].
    + rewrite connect_calls_app. cbn [connect_calls].
      assert (connect_calls (repeat (EvPlaneSleep 1) n) = []) as ->
        by (induction n; [reflexivity | assumption]).
      rewrite app_nil_r. reflexivity.
    + rewrite plane_sleeps_app. cbn [plane_sleeps]. rewrite app_nil_r.
      f_equal. induction n as [| n IH]; [reflexivity |].
      cbn [repeat plane_sleeps]. rewrite IH. reflexivity.
Qed.

Lemma main_returns_on_interrupt_only_witness :
  let refused := {| connect_raises := Some OSError; connection_states := [];
                    retry_sleep_raises := None |} in
  let accepted := {| connect_raises := None;
                     connection_states := [StateYield true];
                     retry_sleep_raises := None |} in
  let run := main_py._async_main (fun _ => None) "sitl"
               ([refused] ++ accepted :: [])
               (repeat None 2 ++ Some KeyboardInterrupt :: []) in
  snd run = Returned /\
  connect_calls (fst run) = repeat "tcp://127.0.0.1:5760"%string 2 /\
  plane_sleeps (fst run) = repeat 5%float 1 ++ repeat 1%float 2.
Proof.
  refine (proj2 (main_returns_on_interrupt_only (fun _ => None) "sitl")
            "tcp://127.0.0.1:5760"%string
            [ {| connect_raises := Some OSError; connection_states := [];
                 retry_sleep_raises := None |} ]
            {| connect_raises := None; connection_states := [StateYield true];
               retry_sleep_raises := None |} [] 2%nat [] _ _ _).
  - reflexivity.
  - repeat constructor; exists OSError; split; auto.
  - left. split; [reflexivity |]. exists 0%nat, []. reflexivity.
Defined.
